(** * artiq.compiler.targets: tool runner, diagnostic dumps, symbolizer

    A shallow embedding of [artiq/compiler/targets.py] and the properties of
    its external-tool runner ([RunTool]), its diagnostic dumper ([_dump]) and
    the [Target] methods [compile], [assemble], [link], [compile_and_link],
    [strip], [symbolize] and [demangle].

    Representation choices.
    - A Python [bytes] value is a Rocq [string] (a sequence of 8-bit
      characters).
    - A Python [str] value is represented by its UTF-8 encoding, again a
      [string].  Encoding a [str] is then the identity and decoding a [bytes]
      value is a validity check.  ([str] values holding lone surrogates have
      no UTF-8 encoding and are not represented; no decoding produces them.)
    - Python integers are [Z].
    - Exceptions are values of the type [exn]; a computation that may raise
      returns [exn + A], and code with side effects lives in the monad [M]
      of state (the [World]) and exceptions.
    - Where the answer of a Python primitive depends on the Unicode tables
      or on the platform of the interpreter, or lies outside the fragment
      of [str.format] described here, the embedding answers [NotModelled]
      and no statement below says what the code does there.
    - What the operating system decides is a parameter ([OS]): the
      environment variables, the outcome of a child process, whether a file
      can be opened for writing, and what a handle that was open while a
      child process ran reads afterwards. *)

From Stdlib Require Import ZArith List String Ascii Bool Lia HexString DecimalString.
From Stdlib Require DecimalNat DecimalFacts.
Import ListNotations.

Open Scope string_scope.
Open Scope Z_scope.

Abbreviation str := string (only parsing).
Abbreviation bytes := string (only parsing).

(** ** Python string primitives used by the module *)

Module Py.

Definition byte_in (lo hi : N) (c : ascii) : bool :=
  (N.leb lo (N_of_ascii c) && N.leb (N_of_ascii c) hi)%bool.

(** [bytes.decode('utf-8')] accepts exactly the well-formed byte sequences of
    the Unicode standard (table 3-7): no overlong forms, no surrogates,
    nothing above U+10FFFF. *)
Fixpoint valid_utf8 (s : bytes) : bool :=
  match s with
  | "" => true
  | String c0 s0 =>
    if byte_in 0x00 0x7F c0 then valid_utf8 s0
    else match s0 with
    | "" => false
    | String c1 s1 =>
      if byte_in 0xC2 0xDF c0 then byte_in 0x80 0xBF c1 && valid_utf8 s1
      else match s1 with
      | "" => false
      | String c2 s2 =>
        if byte_in 0xE0 0xEF c0 then
          (if byte_in 0xE0 0xE0 c0 then byte_in 0xA0 0xBF c1
           else if byte_in 0xED 0xED c0 then byte_in 0x80 0x9F c1
           else byte_in 0x80 0xBF c1)
          && byte_in 0x80 0xBF c2 && valid_utf8 s2
        else match s2 with
        | "" => false
        | String c3 s3 =>
          if byte_in 0xF0 0xF4 c0 then
            (if byte_in 0xF0 0xF0 c0 then byte_in 0x90 0xBF c1
             else if byte_in 0xF4 0xF4 c0 then byte_in 0x80 0x8F c1
             else byte_in 0x80 0xBF c1)
            && byte_in 0x80 0xBF c2 && byte_in 0x80 0xBF c3 && valid_utf8 s3
          else false
        end
      end
    end
  end.

(** One character for which [str.isspace] holds, in UTF-8: U+0009..U+000D,
    U+001C..U+0020, U+0085, U+00A0, U+1680, U+2000..U+200A, U+2028, U+2029,
    U+202F, U+205F, U+3000. *)
Definition is_space_char (s : str) : bool :=
  match s with
  | String c "" => byte_in 0x09 0x0D c || byte_in 0x1C 0x20 c
  | String c0 (String c1 "") =>
      byte_in 0xC2 0xC2 c0 && (byte_in 0x85 0x85 c1 || byte_in 0xA0 0xA0 c1)
  | String c0 (String c1 (String c2 "")) =>
      (byte_in 0xE1 0xE1 c0 && byte_in 0x9A 0x9A c1 && byte_in 0x80 0x80 c2)
      || (byte_in 0xE2 0xE2 c0 && byte_in 0x80 0x80 c1
          && (byte_in 0x80 0x8A c2 || byte_in 0xA8 0xA9 c2 || byte_in 0xAF 0xAF c2))
      || (byte_in 0xE2 0xE2 c0 && byte_in 0x81 0x81 c1 && byte_in 0x9F 0x9F c2)
      || (byte_in 0xE3 0xE3 c0 && byte_in 0x80 0x80 c1 && byte_in 0x80 0x80 c2)
  | _ => false
  end.

(** [s.rstrip()]: the longest run of whitespace characters at the end of [s]
    is removed.  The tail is stripped first, so when the remainder is one
    whitespace character it is the last one left. *)
Fixpoint rstrip (s : str) : str :=
  match s with
  | "" => ""
  | String c s' =>
      let r := rstrip s' in
      if is_space_char (String c r) then "" else String c r
  end.

(** [s.split(sep)] for a one-character ASCII separator: never an empty list. *)
Fixpoint split (sep : ascii) (s : str) : list str :=
  match s with
  | "" => [""]
  | String c s' =>
      if Ascii.eqb c sep then "" :: split sep s'
      else match split sep s' with
           | h :: t => String c h :: t
           | [] => [String c ""]
           end
  end.

(** [s.rsplit(sep, 1)] for a one-character ASCII separator: [None] stands for
    the one-element list [[s]] returned when [sep] does not occur, [Some (a, b)]
    for the two-element list [[a, b]] cut at the last occurrence. *)
Fixpoint rsplit1 (sep : ascii) (s : str) : option (str * str) :=
  match s with
  | "" => None
  | String c s' =>
      match rsplit1 sep s' with
      | Some (a, b) => Some (String c a, b)
      | None => if Ascii.eqb c sep then Some ("", s') else None
      end
  end.

(** [sep.join(parts)] *)
Fixpoint join (sep : str) (parts : list str) : str :=
  match parts with
  | [] => ""
  | [p] => p
  | p :: rest => p ++ sep ++ join sep rest
  end.

(** Slices [s[:n]] and [s[n:]].  They count bytes; the module only takes
    [s[:2]] to compare it with ["0x"], and [s[2:]] after that comparison
    succeeded, where bytes and characters coincide. *)
Fixpoint take (n : nat) (s : str) : str :=
  match n, s with
  | S n', String c s' => String c (take n' s')
  | _, _ => ""
  end.

Fixpoint drop (n : nat) (s : str) : str :=
  match n, s with
  | S n', String _ s' => drop n' s'
  | _, _ => s
  end.

(** [s.upper()] on ASCII letters (the [kind] labels of the module are ASCII
    literals; other bytes are left as they are). *)
Definition upper_char (c : ascii) : ascii :=
  if byte_in 0x61 0x7A c then ascii_of_N (N_of_ascii c - 32) else c.

Fixpoint upper (s : str) : str :=
  match s with
  | "" => ""
  | String c s' => String (upper_char c) (upper s')
  end.

(** [hex(n)]: ["0x"] and lower-case digits, a leading ["-"] when negative. *)
Definition hex (n : Z) : str := HexString.of_Z n.

(** [s.isascii()]: every character is below U+0080, that is every byte of
    the encoding is. *)
Fixpoint isascii (s : str) : bool :=
  match s with
  | "" => true
  | String c s' => byte_in 0x00 0x7F c && isascii s'
  end.

(** *** [int(s, base)] for base 10 and 16

    The ASCII grammar of CPython: optional white space ([" \t\n\r\v\f"]),
    an optional sign, for base 16 an optional ["0x"] or ["0X"] (after which
    one underscore may follow), then digits with single underscores between
    them, then optional white space.  [Some n] is the number [int]
    returns.  [None] says that [s] is no numeral of this grammar: for
    ASCII text [int] then raises [ValueError]; for text with a non-ASCII
    character CPython consults the Unicode tables for spaces and decimal
    digits, and [int] may return a number: the callers separate the two
    cases with [int_failure] below. *)
Definition is_int_space (c : ascii) : bool :=
  byte_in 0x09 0x0D c || byte_in 0x20 0x20 c.

Inductive scan := NoDigit | AfterPrefix | AfterDigit | AfterUnderscore.

Fixpoint all_int_space (s : str) : bool :=
  match s with
  | "" => true
  | String c s' => is_int_space c && all_int_space s'
  end.

Definition digit_value (base : Z) (c : ascii) : option Z :=
  match HexString.ascii_to_digit c with
  | Some d => if Z.of_N d <? base then Some (Z.of_N d) else None
  | None => None
  end.

Fixpoint int_digits (base : Z) (s : str) (acc : Z) (st : scan) : option Z :=
  match s with
  | "" => match st with AfterDigit => Some acc | _ => None end
  | String c s' =>
      if Ascii.eqb c "_" then
        match st with
        | AfterPrefix | AfterDigit => int_digits base s' acc AfterUnderscore
        | _ => None
        end
      else match digit_value base c with
      | Some d => int_digits base s' (d + base * acc) AfterDigit
      | None =>
          match st with
          | AfterDigit => if all_int_space s then Some acc else None
          | _ => None
          end
      end
  end.

Definition int_unsigned (base : Z) (s : str) : option Z :=
  match s with
  | String "0" (String x s') =>
      if ((base =? 16) && (Ascii.eqb x "x" || Ascii.eqb x "X"))%bool
      then int_digits base s' 0 AfterPrefix
      else int_digits base s 0 NoDigit
  | _ => int_digits base s 0 NoDigit
  end.

Definition int_signed (base : Z) (s : str) : option Z :=
  match s with
  | String "-" s' => option_map Z.opp (int_unsigned base s')
  | String "+" s' => int_unsigned base s'
  | _ => int_unsigned base s
  end.

Fixpoint int (base : Z) (s : str) : option Z :=
  match s with
  | String c s' => if is_int_space c then int base s' else int_signed base s
  | "" => None
  end.

End Py.

(** ** Dictionaries with string keys, in insertion order *)

Definition dict (V : Type) : Type := list (str * V).

Fixpoint dict_get {V} (d : dict V) (k : str) : option V :=
  match d with
  | [] => None
  | (k', v) :: d' => if String.eqb k' k then Some v else dict_get d' k
  end.

(** [d[k] = v]: an existing key keeps its place, a new one goes last. *)
Fixpoint dict_set {V} (d : dict V) (k : str) (v : V) : dict V :=
  match d with
  | [] => [(k, v)]
  | (k', v') :: d' =>
      if String.eqb k' k then (k, v) :: d' else (k', v') :: dict_set d' k v
  end.

Definition dict_keys {V} (d : dict V) : list str := map fst d.

(** ** Exceptions *)

Inductive exn : Type :=
| Exception (msg : str)          (* [raise Exception(msg)] *)
| RuntimeError (msg : str)
| OSError (msg : str)
| FileNotFoundError (name : str)
| KeyError (key : str)
| ValueError
| IndexError
| StopIteration
| AttributeError
| UnicodeDecodeError
| NotModelled.                   (* no Python exception: the embedding has
                                    no answer for this input *)

(** What [int(s, base)] does when [Py.int] has no number for [s]. *)
Definition int_failure (s : str) : exn :=
  if Py.isascii s then ValueError else NotModelled.

Module PyFormat.

(** [template.format] applied to the keyword arguments [names] and to no
    positional argument: literal text, the escapes ["{{"] and ["}}"], and
    replacement fields ["{name}"] with an ASCII name.

    A field with a conversion, a format specification, an attribute or an
    index (the characters [! : . [ ]] in the field) is outside the
    fragment: [NotModelled]. *)
Definition field_stop (c : ascii) : bool :=
  existsb (Ascii.eqb c) ["!"; ":"; "."; "["; "]"]%char.

Fixpoint all_digits (s : str) : bool :=
  match s with
  | "" => true
  | String c s' => Py.byte_in 0x30 0x39 c && all_digits s'
  end.

(** The value of the field [name].  The empty name and a name of decimal
    digits ask for a positional argument, whatever the keywords are, and
    there is none: [IndexError].  (CPython refuses an index above the
    largest [Py_ssize_t] with another error; up to nine digits the index
    is below that bound on every platform, beyond nine there is no answer
    here.)  Any other name is looked up in the keywords.  For a name with
    a non-ASCII character the Unicode tables decide whether it is a
    number: no answer here. *)
Definition field_value (names : dict str) (name : str) : exn + str :=
  if negb (Py.isascii name) then inl NotModelled
  else if all_digits name then
    if Nat.leb (String.length name) 9 then inl IndexError else inl NotModelled
  else match dict_get names name with
       | Some v => inr v
       | None => inl (KeyError name)
       end.

Definition prepend (c : ascii) (r : exn + str) : exn + str :=
  match r with inr s => inr (String c s) | inl e => inl e end.

Definition prepend_field (names : dict str) (name : str) (r : exn + str)
  : exn + str :=
  match field_value names name with
  | inl e => inl e
  | inr v => match r with inr s => inr (v ++ s) | inl e => inl e end
  end.

(** [field] is [None] in literal text and [Some name] inside a replacement
    field whose name read so far is [name].  A single ["}"] in literal
    text, a ["{"] inside a field and a field that the template ends in are
    refused by [str.format] with [ValueError]. *)
Fixpoint scan (names : dict str) (s : str) (field : option str) : exn + str :=
  match s, field with
  | "", None => inr ""
  | "", Some _ => inl ValueError
  | String c s', None =>
      if Ascii.eqb c "{" then
        match s' with
        | String "{" s'' => prepend "{" (scan names s'' None)
        | _ => scan names s' (Some "")
        end
      else if Ascii.eqb c "}" then
        match s' with
        | String "}" s'' => prepend "}" (scan names s'' None)
        | _ => inl ValueError
        end
      else prepend c (scan names s' None)
  | String c s', Some name =>
      if Ascii.eqb c "}" then prepend_field names name (scan names s' None)
      else if Ascii.eqb c "{" then inl ValueError
      else if field_stop c then inl NotModelled
      else scan names s' (Some (name ++ String c ""))
  end.

Definition format (template : str) (names : dict str) : exn + str :=
  scan names template None.

End PyFormat.

(** ** The world: files, diagnostics stream, subprocesses *)

(** A file is named by the caller or is a temporary file.  Temporary files
    get their names from a supply of unused names ([tempfile]), so they
    never coincide with a name chosen by a caller.  The disk has room:
    creating a temporary file and writing to a file that is open do not
    fail.  Whether a file named by a caller can be opened for writing is
    for the operating system to say ([open_wb] below). *)
Inductive path : Type :=
| Named (name : str)
| Temp (id : N) (suffix : str).

Definition path_eqb (p q : path) : bool :=
  match p, q with
  | Named a, Named b => String.eqb a b
  | Temp i s, Temp j t => N.eqb i j && String.eqb s t
  | _, _ => false
  end.

(** [file.name] *)
Definition path_name (p : path) : str :=
  match p with
  | Named n => n
  | Temp id suffix =>
      "/tmp/tmp" ++ DecimalString.NilZero.string_of_uint (N.to_uint id) ++ suffix
  end.

Definition filesystem : Type := list (path * bytes).

Fixpoint fs_lookup (fs : filesystem) (p : path) : option bytes :=
  match fs with
  | [] => None
  | (q, data) :: fs' => if path_eqb q p then Some data else fs_lookup fs' p
  end.

Definition fs_remove (fs : filesystem) (p : path) : filesystem :=
  filter (fun e => negb (path_eqb (fst e) p)) fs.

Definition fs_write (fs : filesystem) (p : path) (data : bytes) : filesystem :=
  (p, data) :: fs_remove fs p.

Definition fs_exists (fs : filesystem) (p : path) : bool :=
  match fs_lookup fs p with Some _ => true | None => false end.

Record World : Type := mkWorld {
  disk : filesystem;             (* the files on disk *)
  next_temp : N;                 (* the next unused temporary name *)
  stderr : list str;             (* lines printed to [sys.stderr], oldest first *)
  spawned : list (list str);     (* command lines of the subprocesses run *)
}.

(** What [subprocess.Popen(...).communicate()] hands back once the child
    has exited, and the files as the child left them. *)
Record Completed : Type := mkCompleted {
  returncode : Z;
  stdout : bytes;
  stderr_out : bytes;
  files_after : filesystem;
}.

(** The environment of the Python process: what the operating system
    decides.
    - [getenv]: the environment variables.
    - [popen]: the programs the process can start; an exception when the
      program cannot be started.
    - [open_wb name fs]: whether [open(name, "wb")] succeeds when the disk
      is [fs]; otherwise the exception it raises (a missing directory, a
      directory under that name, no permission, ...).
    - [read_handle f fs]: what [read()] returns on the handle of the
      temporary file [f], created empty by this process and still open,
      when the disk is [fs].  The handle reads the file it was opened on:
      after a child process wrote that file in place this is what the disk
      holds under the name of [f]; after a child process put another file
      under that name it is not. *)
Record OS : Type := mkOS {
  getenv : str -> option str;
  popen : list str -> filesystem -> exn + Completed;
  open_wb : str -> filesystem -> exn + unit;
  read_handle : path -> filesystem -> bytes;
}.

(** ** State and exceptions *)

Definition M (A : Type) : Type := World -> (exn + A) * World.

Definition ret {A} (a : A) : M A := fun w => (inr a, w).
Definition raise {A} (e : exn) : M A := fun w => (inl e, w).
Definition lift {A} (r : exn + A) : M A := fun w => (r, w).

Definition bind {A B} (m : M A) (k : A -> M B) : M B :=
  fun w =>
    match m w with
    | (inr a, w') => k a w'
    | (inl e, w') => (inl e, w')
    end.

Notation "x <- m ;; k" := (bind m (fun x => k))
  (at level 61, m at next level, right associativity).
Notation "m ;;; k" := (bind m (fun _ => k))
  (at level 61, right associativity).

(** [print(line, file=sys.stderr)] *)
Definition print_stderr (line : str) : M unit :=
  fun w => (inr tt, mkWorld (disk w) (next_temp w) (stderr w ++ [line]) (spawned w)).

(** [tempfile.NamedTemporaryFile(suffix=suffix)] followed by the writes and
    the flush or close that leave [data] in it. *)
Definition new_temp_file (suffix : str) (data : bytes) : M path :=
  fun w =>
    let f := Temp (next_temp w) suffix in
    (inr f, mkWorld (fs_write (disk w) f data) (N.succ (next_temp w))
                    (stderr w) (spawned w)).

(** [open(name, "wb")], the writes and [close()]: when the file cannot be
    opened nothing is written. *)
Definition write_named_file (os : OS) (name : str) (data : bytes) : M path :=
  fun w =>
    match open_wb os name (disk w) with
    | inl e => (inl e, w)
    | inr _ =>
        (inr (Named name),
         mkWorld (fs_write (disk w) (Named name) data) (next_temp w)
                 (stderr w) (spawned w))
    end.

(** [f.close()] on a [NamedTemporaryFile] made with the default
    [delete=True]: the file is unlinked, which fails when it is gone. *)
Definition close_temp_file (f : path) : M unit :=
  fun w =>
    if fs_exists (disk w) f
    then (inr tt, mkWorld (fs_remove (disk w) f) (next_temp w)
                          (stderr w) (spawned w))
    else (inl (FileNotFoundError (path_name f)), w).

(** [bytes.decode('utf-8')] *)
Definition decode_utf8 (b : bytes) : exn + str :=
  if Py.valid_utf8 b then inr b else inl UnicodeDecodeError.

(** [subprocess.Popen(cmdline, stdout=PIPE, stderr=PIPE)] and
    [process.communicate()]: the child runs to its end. *)
Definition communicate (os : OS) (cmdline : list str) : M Completed :=
  fun w =>
    match popen os cmdline (disk w) with
    | inl e => (inl e, w)
    | inr c => (inr c, mkWorld (files_after c) (next_temp w) (stderr w)
                               (spawned w ++ [cmdline]))
    end.

(** ** [class RunTool] *)

(** What the dictionary returned by [__enter__] holds: open temporary files
    and, under ["__stdout__"], text. *)
Inductive value : Type :=
| File (f : path)
| Text (s : str).

Module RunTool.

Record t : Type := mk {
  files : list path;
  pattern : list str;
  tempdata : dict bytes;
}.

Definition __init__ (pattern : list str) (tempdata : dict bytes) : t :=
  mk [] pattern tempdata.

Definition maketemp (self : t) (data : bytes) : M (t * path) :=
  f <- new_temp_file "" data ;;
  ret (mk (files self ++ [f]) (pattern self) (tempdata self), f).

(** The loop [for key in self.tempdata] of [__enter__]. *)
Fixpoint make_temps (self : t) (keys : list str)
    (tempfiles : dict value) (tempnames : dict str)
  : M (t * dict value * dict str) :=
  match keys with
  | [] => ret (self, tempfiles, tempnames)
  | key :: keys' =>
      match dict_get (tempdata self) key with
      | None => raise (KeyError key)
      | Some data =>
          r <- maketemp self data ;;
          make_temps (fst r) keys'
            (dict_set tempfiles key (File (snd r)))
            (dict_set tempnames key (path_name (snd r)))
      end
  end.

(** The loop [for argument in self.pattern] of [__enter__]. *)
Fixpoint format_all (pattern : list str) (tempnames : dict str)
  : exn + list str :=
  match pattern with
  | [] => inr []
  | argument :: rest =>
      match PyFormat.format argument tempnames with
      | inl e => inl e
      | inr a =>
          match format_all rest tempnames with
          | inl e => inl e
          | inr cmdline => inr (a :: cmdline)
          end
      end
  end.

Definition __enter__ (os : OS) (self : t) : M (t * dict value) :=
  r <- make_temps self (dict_keys (tempdata self)) [] [] ;;
  let '(self', tempfiles, tempnames) := r in
  cmdline <- lift (format_all (pattern self') tempnames) ;;
  process <- communicate os cmdline ;;
  if negb (returncode process =? 0) then
    match cmdline with
    | [] => raise IndexError
    | program :: _ =>
        text <- lift (decode_utf8 (stderr_out process)) ;;
        raise (Exception (program ++ " invocation failed: " ++ text))
    end
  else
    text <- lift (decode_utf8 (stdout process)) ;;
    ret (self', dict_set tempfiles "__stdout__" (Text text)).

Fixpoint close_all (fs : list path) : M unit :=
  match fs with
  | [] => ret tt
  | f :: rest => close_temp_file f ;;; close_all rest
  end.

Definition __exit__ (self : t) : M unit := close_all (files self).

(** [with RunTool(pattern, **tempdata) as results: body].  When
    [__enter__] raises, the statement is left at once and [__exit__] is not
    called.  Otherwise the body runs, then [__exit__] in every case;
    [__exit__] returns [None], so an exception of the body goes on, unless
    [__exit__] itself raises. *)
Definition with_ {A} (os : OS) (pattern : list str) (tempdata : dict bytes)
    (body : dict value -> M A) : M A :=
  fun w =>
    match __enter__ os (__init__ pattern tempdata) w with
    | (inl e, w1) => (inl e, w1)
    | (inr (self, results), w1) =>
        let (outcome, w2) := body results w1 in
        match __exit__ self w2 with
        | (inl e, w3) => (inl e, w3)
        | (inr _, w3) => (outcome, w3)
        end
    end.

End RunTool.

(** ** [_dump] *)

Inductive content_value : Type :=
| Str (s : str)
| Bytes (b : bytes).

(** [bytes(text, 'utf-8')] is the identity on the representation. *)
Definition content_bytes (v : content_value) : bytes :=
  match v with Str s => s | Bytes b => b end.

(** [content] is the zero-argument callable; calling it may have effects
    and may raise, so it is a computation.  [os] is the operating system
    [open] turns to. *)
Definition _dump (os : OS) (target : option str) (kind suffix : str)
    (content : M content_value) : M unit :=
  match target with
  | None => ret tt
  | Some target =>
      print_stderr ("====== " ++ Py.upper kind ++ " DUMP ======") ;;;
      content_value <- content ;;
      file <- (if String.eqb target ""
               then new_temp_file suffix (content_bytes content_value)
               else write_named_file os (target ++ suffix)
                                     (content_bytes content_value)) ;;
      print_stderr (kind ++ " dumped as " ++ path_name file)
  end.

(** ** [class Target] *)

Record Target : Type := mkTarget {
  triple : str;
  data_layout : str;
  features : list str;
  print_function : str;
}.

Definition Target_base : Target := mkTarget "unknown" "" [] "printf".

Definition NativeTarget (default_triple : str) : Target :=
  mkTarget default_triple "" [] "printf".

Definition OR1KTarget : Target :=
  mkTarget "or1k-linux"
    ("E-m:e-p:32:32-i8:8:8-i16:16:16-i64:32:32-"
     ++ "f64:32:32-v64:32:32-v128:32:32-a0:0:32-n32")
    ["mul"; "div"; "ffl1"; "cmov"; "addc"]
    "core_log".

(** The passes [Target.optimize] registers, in its order. *)
Inductive Pass : Type :=
| TargetData | TargetAnalysis
| BasicAliasAnalysis | TypeBasedAliasAnalysis
| ConstantMerge | CFGSimplification | InstructionCombining | SROA
| DeadCodeElimination | FunctionAttrs | GlobalOptimizer
| FunctionInlining (threshold : Z) | IPSCCP | GVN | LICM
| DeadArgElimination | GlobalDCE.

Definition optimize_passes : list Pass :=
  [TargetData; TargetAnalysis;
   BasicAliasAnalysis; TypeBasedAliasAnalysis;
   ConstantMerge; CFGSimplification; InstructionCombining; SROA;
   DeadCodeElimination; FunctionAttrs; GlobalOptimizer;
   FunctionInlining 275; IPSCCP; InstructionCombining; GVN;
   CFGSimplification; LICM;
   DeadArgElimination; GlobalDCE].

Section Compile.

(** The front end and llvmlite are outside this module: the values they
    exchange with it are opaque and their operations are taken as given. *)
Variables module llmodule llparsed : Type.

Record Codegen : Type := mkCodegen {
  module_str : module -> str;                    (* [str(module)] *)
  artiq_ir_entities : module -> list str;        (* [fn.as_entity(type_printer)], per function *)
  build_llvm_ir : module -> Target -> exn + llmodule;
  llmodule_str : llmodule -> str;                (* [str(llmod)] *)
  parse_assembly : str -> exn + llparsed;        (* [llvm.parse_assembly] *)
  verify : llparsed -> exn + unit;               (* [llparsedmod.verify()] *)
  llparsed_str : llparsed -> str;                (* [str(llparsedmod)] *)
  run_passes : Target -> list Pass -> llparsed -> exn + llparsed;
}.

Variable cg : Codegen.
Variable os : OS.

Definition optimize (self : Target) (llmod : llparsed) : M llparsed :=
  lift (run_passes cg self optimize_passes llmod).

(** [try: body  except RuntimeError: handler; raise] *)
Definition except_RuntimeError {A} (body : M A) (handler : M unit) : M A :=
  fun w =>
    match body w with
    | (inl (RuntimeError msg), w') =>
        (handler ;;; raise (RuntimeError msg)) w'
    | r => r
    end.

(** Truth value of [os.getenv(name)]: set and not empty. *)
Definition truthy (v : option str) : bool :=
  match v with
  | Some s => negb (String.eqb s "")
  | None => false
  end.

(** The first statement of [compile]: [if os.getenv("ARTIQ_DUMP_SIG"): ...] *)
Definition dump_signature (m : module) : M unit :=
  if truthy (getenv os "ARTIQ_DUMP_SIG")
  then print_stderr "====== MODULE_SIGNATURE DUMP ======" ;;;
       print_stderr (module_str cg m)
  else ret tt.

Definition compile (self : Target) (m : module) : M llparsed :=
  dump_signature m ;;;
  _dump os (getenv os "ARTIQ_DUMP_IR") "ARTIQ IR" ".txt"
        (ret (Str (Py.join (String "010" "") (artiq_ir_entities cg m)))) ;;;
  llmod <- lift (build_llvm_ir cg m self) ;;
  llparsedmod <- except_RuntimeError
      (p <- lift (parse_assembly cg (llmodule_str cg llmod)) ;;
       lift (verify cg p) ;;;
       ret p)
      (_dump os (Some "") "LLVM IR (broken)" ".ll"
             (ret (Str (llmodule_str cg llmod)))) ;;
  _dump os (getenv os "ARTIQ_DUMP_UNOPT_LLVM") "LLVM IR (generated)" "_unopt.ll"
        (ret (Str (llparsed_str cg llparsedmod))) ;;;
  optimized <- optimize self llparsedmod ;;
  _dump os (getenv os "ARTIQ_DUMP_LLVM") "LLVM IR (optimized)" ".ll"
        (ret (Str (llparsed_str cg optimized))) ;;;
  ret optimized.

End Compile.

Arguments module_str {module llmodule llparsed} _ _.
Arguments artiq_ir_entities {module llmodule llparsed} _ _.
Arguments build_llvm_ir {module llmodule llparsed} _ _ _.
Arguments llmodule_str {module llmodule llparsed} _ _.
Arguments parse_assembly {module llmodule llparsed} _ _.
Arguments verify {module llmodule llparsed} _ _.
Arguments llparsed_str {module llmodule llparsed} _ _.
Arguments run_passes {module llmodule llparsed} _ _ _ _.
Arguments optimize {module llmodule llparsed} cg self llmod _.
Arguments dump_signature {module llmodule llparsed} cg os m _.
Arguments compile {module llmodule llparsed} cg os self m _.

(** ** [Target.symbolize] and [Target.demangle] *)

(** The tuple [(filename, line, column, function, address)]. *)
Record BacktraceEntry : Type := mkEntry {
  filename : str;
  line : Z;
  column : Z;
  function : str;
  address : Z;
}.

Definition newline : ascii := "010".

(** The end of one turn of the loop of [symbolize], from
    [filename, line = location.rsplit(":", 1)] on: the backtrace the next
    turn starts with. *)
Definition finish_record (address : Z) (function location : str)
    (backtrace : list BacktraceEntry) : exn + list BacktraceEntry :=
  match Py.rsplit1 ":" location with
  | None => inl ValueError
  | Some (filename, line) =>
      if (String.eqb filename "??" || String.eqb filename "<synthesized>")%bool
      then inr backtrace
      else match Py.int 10 line with
           | None => inl (int_failure line)
           | Some n => inr (backtrace ++ [mkEntry filename n (-1) function address])%list
           end
  end.

(** [l[-1]]; [None] stands for [IndexError]. *)
Fixpoint last_item {A} (l : list A) : option A :=
  match l with
  | [] => None
  | [x] => Some x
  | _ :: l' => last_item l'
  end.

(** The [while True] loop of [symbolize] over the iterator [lines].  Only
    the first [next(lines)] of a turn is guarded: when the lines run out
    there the loop ends, elsewhere [StopIteration] leaves the function. *)
Fixpoint symbolize_loop (lines : list str) (backtrace : list BacktraceEntry)
  : exn + list BacktraceEntry :=
  match lines with
  | [] => inr backtrace
  | address_or_function :: rest =>
      if String.eqb (Py.take 2 address_or_function) "0x" then
        match Py.int 16 (Py.drop 2 address_or_function) with
        | None => inl (int_failure (Py.drop 2 address_or_function))
        | Some a =>
            match rest with
            | [] => inl StopIteration
            | [_] => inl StopIteration
            | function :: location :: rest' =>
                match finish_record (a + 1) function location backtrace with
                | inl e => inl e
                | inr backtrace' => symbolize_loop rest' backtrace'
                end
            end
        end
      else
        match last_item backtrace with
        | None => inl IndexError
        | Some previous =>
            match rest with
            | [] => inl StopIteration
            | location :: rest' =>
                match finish_record (address previous) address_or_function
                                    location backtrace with
                | inl e => inl e
                | inr backtrace' => symbolize_loop rest' backtrace'
                end
            end
        end
  end.

(** [results["__stdout__"]] as text. *)
Definition stdout_text (results : dict value) : exn + str :=
  match dict_get results "__stdout__" with
  | Some (Text s) => inr s
  | Some (File _) => inl AttributeError
  | None => inl (KeyError "__stdout__")
  end.

Definition offset_addresses (addresses : list Z) : list str :=
  map (fun addr => Py.hex (addr - 1)) addresses.

Definition symbolize (os : OS) (self : Target) (library : bytes)
    (addresses : list Z) : M (list BacktraceEntry) :=
  match addresses with
  | [] => ret []
  | _ =>
      RunTool.with_ os
        ([triple self ++ "-addr2line"; "--addresses"; "--functions";
          "--inlines"; "--demangle"; "--exe={library}"]
         ++ offset_addresses addresses)
        [("library", library)]
        (fun results =>
           out <- lift (stdout_text results) ;;
           lift (symbolize_loop (Py.split newline (Py.rstrip out)) []))
  end.

Definition demangle (os : OS) (self : Target) (names : list str)
  : M (list str) :=
  RunTool.with_ os ([triple self ++ "-c++filt"] ++ names) []
    (fun results =>
       out <- lift (stdout_text results) ;;
       ret (Py.split newline (Py.rstrip out))).


(** ** [Target.assemble], [link], [strip] and [compile_and_link] *)

Section Assemble.

(** The target machines of llvmlite are outside this module as well. *)
Variables llparsed llmachine : Type.

Record Emitter : Type := mkEmitter {
  (* [llvm.Target.from_triple(triple).create_target_machine(features=...,
     reloc=..., codemodel=...)], then [set_verbose(True)] *)
  create_target_machine : str -> str -> str -> str -> exn + llmachine;
  emit_assembly : llmachine -> llparsed -> exn + str;
  emit_object : llmachine -> llparsed -> exn + bytes;
}.

Variable em : Emitter.
Variable os : OS.

(** [",".join(["+{}".format(f) for f in self.features])] *)
Definition features_text (self : Target) : str :=
  Py.join "," (map (fun f => "+" ++ f) (features self)).

Definition target_machine (self : Target) : M llmachine :=
  lift (create_target_machine em (triple self) (features_text self)
                              "pic" "default").

Definition assemble (self : Target) (llmodule : llparsed) : M bytes :=
  llmachine <- target_machine self ;;
  _dump os (getenv os "ARTIQ_DUMP_ASM") "Assembly" ".s"
        (text <- lift (emit_assembly em llmachine llmodule) ;; ret (Str text)) ;;;
  lift (emit_object em llmachine llmodule).

End Assemble.

Arguments create_target_machine {llparsed llmachine} _ _ _ _ _.
Arguments emit_assembly {llparsed llmachine} _ _ _.
Arguments emit_object {llparsed llmachine} _ _ _.
Arguments target_machine {llparsed llmachine} em self _.
Arguments assemble {llparsed llmachine} em os self llmodule _.

(** [str(index)] for an index of a list *)
Definition decimal (index : nat) : str :=
  DecimalString.NilZero.string_of_uint (Nat.to_uint index).

(** ["obj{}".format(index)] *)
Definition object_key (index : nat) : str := "obj" ++ decimal index.

(** ["{{obj{}}}".format(index)] *)
Definition object_placeholder (index : nat) : str :=
  "{obj" ++ decimal index ++ "}".

(** [enumerate(l)], counting from [start] *)
Fixpoint enumerate {A} (start : nat) (l : list A) : list (nat * A) :=
  match l with
  | [] => []
  | x :: l' => (start, x) :: enumerate (S start) l'
  end.

(** [results[key].read()] for a temporary file made from empty data, so
    that the handle stands at the start of the file it was opened on. *)
Definition read_output (os : OS) (results : dict value) (key : str) : M bytes :=
  match dict_get results key with
  | None => raise (KeyError key)
  | Some (Text _) => raise AttributeError
  | Some (File f) => fun w => (inr (read_handle os f (disk w)), w)
  end.

Definition link_pattern (self : Target) (objects : list bytes) : list str :=
  [triple self ++ "-ld"; "-shared"; "--eh-frame-hdr"]
  ++ map object_placeholder (seq 0 (List.length objects))
  ++ ["-o"; "{output}"].

(** The keyword arguments [output=b"", **{"obj{}".format(index): obj ...}] *)
Definition link_tempdata (objects : list bytes) : dict bytes :=
  ("output", "")
  :: map (fun io => (object_key (fst io), snd io)) (enumerate 0 objects).

Definition link (os : OS) (self : Target) (objects : list bytes) : M bytes :=
  RunTool.with_ os (link_pattern self objects) (link_tempdata objects)
    (fun results =>
       library <- read_output os results "output" ;;
       _dump os (getenv os "ARTIQ_DUMP_ELF") "Shared library" ".elf"
             (ret (Bytes library)) ;;;
       ret library).

Definition strip (os : OS) (self : Target) (library : bytes) : M bytes :=
  RunTool.with_ os
    [triple self ++ "-strip"; "--strip-debug"; "{library}"; "-o"; "{output}"]
    [("library", library); ("output", "")]
    (fun results => read_output os results "output").

(** The list comprehension of [compile_and_link]: every module is compiled
    and assembled in turn. *)
Fixpoint compile_and_assemble
    {module llmodule llparsed llmachine : Type}
    (cg : Codegen module llmodule llparsed) (em : Emitter llparsed llmachine)
    (os : OS) (self : Target) (modules : list module) : M (list bytes) :=
  match modules with
  | [] => ret []
  | m :: modules' =>
      llmod <- compile cg os self m ;;
      object <- assemble em os self llmod ;;
      objects <- compile_and_assemble cg em os self modules' ;;
      ret (object :: objects)
  end.

Definition compile_and_link
    {module llmodule llparsed llmachine : Type}
    (cg : Codegen module llmodule llparsed) (em : Emitter llparsed llmachine)
    (os : OS) (self : Target) (modules : list module) : M bytes :=
  objects <- compile_and_assemble cg em os self modules ;;
  link os self objects.

(** * Vocabulary of the statements *)

(** ** Worlds and tools to run the code on *)

Definition empty_world : World := mkWorld [] 0 [] [].

(** What a handle reads when the child processes write the files in
    place: what the disk holds under the name of the file, and nothing
    once the file is gone. *)
Definition in_place (f : path) (fs : filesystem) : bytes :=
  match fs_lookup fs f with
  | Some data => data
  | None => ""
  end.

(** A tool that exits with [code] and prints [out] and [err], whatever it
    is asked, and leaves the files alone.  Every file can be opened for
    writing. *)
Definition fixed_tool (code : Z) (out err : bytes) : OS :=
  mkOS (fun _ => None) (fun _ fs => inr (mkCompleted code out err fs))
       (fun _ _ => inr tt) in_place.

(** A process environment with the variables [vars], in which every file
    can be opened for writing. *)
Definition environment (vars : dict str) : OS :=
  mkOS (dict_get vars) (fun _ fs => inr (mkCompleted 0 "" "" fs))
       (fun _ _ => inr tt) in_place.

(** A process environment with the variables [vars] in which no file can
    be opened for writing: [open] fails as it does for a directory that is
    not there. *)
Definition closed_environment (vars : dict str) : OS :=
  mkOS (dict_get vars) (fun _ fs => inr (mkCompleted 0 "" "" fs))
       (fun name _ => inl (FileNotFoundError name)) in_place.

Definition nl : str := String newline "".

(** A code generator whose modules are their own text; an IR that starts
    with ["!"] does not verify. *)
Definition sample_codegen : Codegen string string string :=
  mkCodegen string string string
    (fun m => "<module " ++ m ++ ">")
    (fun m => [m])
    (fun m _ => inr m)
    (fun ll => ll)
    (fun text => inr text)
    (fun p => match p with
              | String "!" _ => inl (RuntimeError "broken module")
              | _ => inr tt
              end)
    (fun p => p)
    (fun _ _ p => inr p).

(** The call [RunTool] gets from [Target.strip] for the OR1K target. *)
Definition strip_pattern : list str :=
  ["or1k-linux-strip"; "--strip-debug"; "{library}"; "-o"; "{output}"].

Definition strip_tempdata : dict bytes := [("library", "ELF"); ("output", "")].

Definition strip_entered : RunTool.t :=
  RunTool.mk [Temp 0 ""; Temp 1 ""] strip_pattern strip_tempdata.

Definition strip_tempfiles : dict value :=
  [("library", File (Temp 0 "")); ("output", File (Temp 1 ""))].

Definition strip_tempnames : dict str :=
  [("library", "/tmp/tmp0"); ("output", "/tmp/tmp1")].

Definition strip_args : list str :=
  ["--strip-debug"; "/tmp/tmp0"; "-o"; "/tmp/tmp1"].

Definition strip_world : World :=
  mkWorld [(Temp 1 "", ""); (Temp 0 "", "ELF")] 2 [] [].

(** ** Text *)

Fixpoint contains (c : ascii) (s : str) : bool :=
  match s with
  | "" => false
  | String c' s' => Ascii.eqb c' c || contains c s'
  end.

(** A printable ASCII character other than the space. *)
Definition graphic (c : ascii) : bool := Py.byte_in 0x21 0x7E c.

Fixpoint ends_graphic (s : str) : bool :=
  match s with
  | "" => false
  | String c "" => graphic c
  | String _ s' => ends_graphic s'
  end.

Definition brace_free (s : str) : bool :=
  negb (contains "{" s) && negb (contains "}" s).



(** ** The tool runner *)

(** The exception [__enter__] raises for a tool that failed. *)
Definition tool_error (program : str) (stderr_text : str) : exn :=
  Exception (program ++ " invocation failed: " ++ stderr_text).

Definition holds_file (d : dict value) (k : str) : Prop :=
  exists f, dict_get d k = Some (File f).

(** ** The dumper and [compile] *)

(** The world once [_dump] has printed its banner. *)
Definition announce (kind : str) (w : World) : World :=
  mkWorld (disk w) (next_temp w)
          (stderr w ++ ["====== " ++ Py.upper kind ++ " DUMP ======"])
          (spawned w).

(** The world once [_dump] has written [data] to [file] and said so. *)
Definition report (kind : str) (file : path) (data : bytes) (w : World) : World :=
  mkWorld (fs_write (disk w) file data)
          (match file with
           | Temp _ _ => N.succ (next_temp w)
           | Named _ => next_temp w
           end)
          (stderr w ++ [kind ++ " dumped as " ++ path_name file])
          (spawned w).

(** No temporary file carries a name the supply has yet to hand out. *)
Definition temps_unused (w : World) : Prop :=
  forall id suffix,
    (next_temp w <= id)%N -> fs_lookup (disk w) (Temp id suffix) = None.

(** llvmlite reports an IR that does not parse or does not verify with
    [RuntimeError]. *)
Definition verification_fails {module llmodule llparsed : Type}
    (cg : Codegen module llmodule llparsed) (llmod : llmodule) (msg : str)
  : Prop :=
  parse_assembly cg (llmodule_str cg llmod) = inl (RuntimeError msg)
  \/ exists p,
       parse_assembly cg (llmodule_str cg llmod) = inr p
       /\ verify cg p = inl (RuntimeError msg).

(** ** The resolver *)

(** The command line [symbolize] runs, once the placeholders are filled in. *)
Definition addr2line_cmdline (self : Target) (exe : str) (addresses : list Z)
  : list str :=
  [(triple self ++ "-addr2line")%string; "--addresses"; "--functions";
   "--inlines"; "--demangle"; ("--exe=" ++ exe)%string]
  ++ offset_addresses addresses.

(** The command-line template of [symbolize]. *)
Definition symbolize_pattern (self : Target) (addresses : list Z) : list str :=
  [(triple self ++ "-addr2line")%string; "--addresses"; "--functions";
   "--inlines"; "--demangle"; "--exe={library}"]
  ++ offset_addresses addresses.

(** The resolver is run by [symbolize] from the world [w]: the template
    is filled in to [cmdline], and the process exits with status 0, prints
    [out] and leaves the files alone. *)
Definition resolver_run (os : OS) (self : Target) (library : bytes)
    (addresses : list Z) (w : World) (cmdline : list str) (out : bytes)
  : Prop :=
  let exe := Temp (next_temp w) "" in
  let fs := fs_write (disk w) exe library in
  RunTool.format_all (symbolize_pattern self addresses)
                     [("library", path_name exe)] = inr cmdline
  /\ exists err, popen os cmdline fs = inr (mkCompleted 0 out err fs).

(** The world [symbolize] leaves behind after such a run. *)
Definition after_symbolize (library : bytes) (w : World) (cmdline : list str)
  : World :=
  let exe := Temp (next_temp w) "" in
  mkWorld (fs_remove (fs_write (disk w) exe library) exe)
          (N.succ (next_temp w)) (stderr w)
          (spawned w ++ [cmdline]).

(** A root record of the resolver output: three lines. *)
Record RootRecord : Type := mkRoot {
  rr_address : str;      (* the address line *)
  rr_function : str;     (* the function-name line *)
  rr_filename : str;     (* the location line is [filename:line] *)
  rr_line : str;
  rr_lineno : Z;         (* the number [rr_line] denotes *)
}.

Definition record_lines (r : RootRecord) : list str :=
  [rr_address r; rr_function r; rr_filename r ++ ":" ++ rr_line r].

Definition resolver_lines (records : list RootRecord) : list str :=
  flat_map record_lines records.


Definition is_sentinel (name : str) : bool :=
  String.eqb name "??" || String.eqb name "<synthesized>".

(** A well-formed root record for the input address [a]: the address line
    is ["0x"] and a number that denotes the address looked up, [a - 1]; no
    line holds a newline; the file name is not a sentinel; the line number
    is a numeral without colon that ends the line. *)
Record well_formed_root (a : Z) (r : RootRecord) : Prop := {
  wf_prefix : Py.take 2 (rr_address r) = "0x";
  wf_address : Py.int 16 (Py.drop 2 (rr_address r)) = Some (a - 1);
  wf_address_line : contains newline (rr_address r) = false;
  wf_function_line : contains newline (rr_function r) = false;
  wf_filename_line : contains newline (rr_filename r) = false;
  wf_filename : is_sentinel (rr_filename r) = false;
  wf_line_colon : contains ":" (rr_line r) = false;
  wf_line_line : contains newline (rr_line r) = false;
  wf_line_end : ends_graphic (rr_line r) = true;
  wf_lineno : Py.int 10 (rr_line r) = Some (rr_lineno r);
}.

Definition root_entry (a : Z) (r : RootRecord) : BacktraceEntry :=
  mkEntry (rr_filename r) (rr_lineno r) (-1) (rr_function r) a.


(** An entry with a source position. *)
Definition resolved (e : BacktraceEntry) : Prop :=
  filename e <> "??" /\ filename e <> "<synthesized>".

(** A root record the loop reads and drops: its address parses, its file
    name is a sentinel. *)
Record dropped_root (r : RootRecord) : Prop := {
  dr_prefix : Py.take 2 (rr_address r) = "0x";
  dr_address : Py.int 16 (Py.drop 2 (rr_address r)) <> None;
  dr_filename : is_sentinel (rr_filename r) = true;
  dr_line_colon : contains ":" (rr_line r) = false;
}.


(** ** Temporary files of a runner *)

(** The temporary files [count] calls of [maketemp] make, from the name
    [first] on. *)
Fixpoint temp_files (first : N) (count : nat) : list path :=
  match count with
  | O => []
  | S count' => Temp first "" :: temp_files (N.succ first) count'
  end.

(** The disk once [maketemp] has stored [datas], from the name [first] on. *)
Fixpoint write_temps (fs : filesystem) (first : N) (datas : list bytes)
  : filesystem :=
  match datas with
  | [] => fs
  | data :: datas' => write_temps (fs_write fs (Temp first "") data)
                                  (N.succ first) datas'
  end.

(** [d[k] = v] for the keys and values of two lists, in order. *)
Fixpoint dict_set_all {V} (d : dict V) (keys : list str) (values : list V)
  : dict V :=
  match keys, values with
  | k :: keys', v :: values' => dict_set_all (dict_set d k v) keys' values'
  | _, _ => d
  end.

(** ** Replacement fields *)

(** A character of a plain field name: anything that neither ends the
    field nor starts a conversion, a format specification or an access. *)
Definition field_char (c : ascii) : bool :=
  negb (Ascii.eqb c "}" || Ascii.eqb c "{" || PyFormat.field_stop c).

Fixpoint field_name (s : str) : bool :=
  match s with
  | "" => true
  | String c s' => field_char c && field_name s'
  end.

(** ** The linker and [strip] *)

(** The command line of the linker: the objects in their temporary files,
    named from [first] + 1 on, and the output in the file named [first]. *)
Definition ld_cmdline (self : Target) (first : N) (count : nat) : list str :=
  [(triple self ++ "-ld")%string; "-shared"; "--eh-frame-hdr"]
  ++ map path_name (temp_files (N.succ first) count)
  ++ ["-o"; path_name (Temp first "")].

(** The names [__enter__] fills into the template of [link]. *)
Definition link_tempnames (first : N) (objects : list bytes) : dict str :=
  dict_set_all [] (dict_keys (link_tempdata objects))
               (map path_name (temp_files first (S (List.length objects)))).

(** A linker that writes [image] in place to the first temporary file, the
    output of [link] run from the empty world. *)
Definition linker (image : bytes) : OS :=
  mkOS (fun _ => None)
       (fun cmdline fs =>
          inr (mkCompleted 0 "" "" (fs_write fs (Temp 0 "") image)))
       (fun _ _ => inr tt) in_place.

(** The same linker in a process environment with the variables [vars]. *)
Definition linker_in (vars : dict str) (image : bytes) : OS :=
  mkOS (dict_get vars)
       (fun cmdline fs =>
          inr (mkCompleted 0 "" "" (fs_write fs (Temp 0 "") image)))
       (fun _ _ => inr tt) in_place.

(** The command line of [strip]. *)
Definition strip_cmdline (self : Target) (first : N) : list str :=
  [(triple self ++ "-strip")%string; "--strip-debug";
   path_name (Temp first ""); "-o"; path_name (Temp (N.succ first) "")].

(** A tool that writes [stripped] in place to the second temporary file,
    the output of [strip] run from the empty world. *)
Definition stripper (stripped : bytes) : OS :=
  mkOS (fun _ => None)
       (fun cmdline fs =>
          inr (mkCompleted 0 "" "" (fs_write fs (Temp 1 "") stripped)))
       (fun _ _ => inr tt) in_place.

(** ** Computations that only print and write files *)

(** [w'] comes from [w] by printing and by writing files only: no process
    was started, no file was removed, nothing printed was taken back and no
    temporary name was given back. *)
Record extends (w w' : World) : Prop := {
  ext_spawned : spawned w' = spawned w;
  ext_disk : forall p, fs_exists (disk w) p = true -> fs_exists (disk w') p = true;
  ext_stderr : exists more, stderr w' = (stderr w ++ more)%list;
  ext_temp : (next_temp w <= next_temp w')%N;
}.

(** A computation that only prints and writes files. *)
Definition quiet {A} (m : M A) : Prop := forall w, extends w (snd (m w)).

(** An exception the handler of [compile] does not catch. *)
Definition not_runtime_error (e : exn) : Prop :=
  forall msg, e <> RuntimeError msg.

(** The file [_dump] writes for the switch value [target]. *)
Definition dump_file (target suffix : str) (w : World) : path :=
  if String.eqb target "" then Temp (next_temp w) suffix
  else Named (target ++ suffix).

(** The file a dump for the switch value [target] has to open can be
    opened for writing when the disk is [fs]; nothing is asked for an
    absent or empty value, which names no file. *)
Definition dump_opens (os : OS) (target : option str) (suffix : str)
    (fs : filesystem) : Prop :=
  match target with
  | None => True
  | Some target =>
      if String.eqb target "" then True
      else open_wb os (target ++ suffix) fs = inr tt
  end.

(** The world a dump of [data] requested by the switch value [target]
    leaves: as it was for an absent value; otherwise with the banner
    printed, the data in the file of the switch and the file reported. *)
Definition dumped (target : option str) (kind suffix : str) (data : bytes)
    (w : World) : World :=
  match target with
  | None => w
  | Some target =>
      report kind (dump_file target suffix w) data (announce kind w)
  end.

(** The world the module-signature switch with the value [value] leaves:
    for a value that is set and not empty the banner and the signature
    are printed. *)
Definition signature_shown (signature : str) (value : option str)
    (w : World) : World :=
  match value with
  | None | Some "" => w
  | Some _ =>
      mkWorld (disk w) (next_temp w)
              (stderr w ++ ["====== MODULE_SIGNATURE DUMP ======"; signature])
              (spawned w)
  end.

(** ** A code generator and a target machine to run the code on *)

(** A code generator whose parser rejects texts that start with [#] with an
    exception that is no [RuntimeError], whose verifier rejects those that
    start with [!], and whose passes fail on those that start with [?] and
    mark the others. *)
Definition marking_codegen : Codegen string string string :=
  mkCodegen string string string
    (fun m => "<module " ++ m ++ ">")
    (fun m => [m])
    (fun m _ => inr m)
    (fun ll => ll)
    (fun text => match text with
                 | String "#" _ => inl (Exception "not a module")
                 | _ => inr text
                 end)
    (fun p => match p with
              | String "!" _ => inl (RuntimeError "broken module")
              | _ => inr tt
              end)
    (fun p => p)
    (fun _ _ p => match p with
                  | String "?" _ => inl (Exception "pass failed")
                  | _ => inr ("optimized " ++ p)
                  end).

(** A target machine that is named by its triple and features, that cannot
    print modules starting with [?], and whose objects are the module text
    behind a mark. *)
Definition sample_emitter : Emitter string string :=
  mkEmitter string string
    (fun triple features _ _ =>
       match triple with
       | "unknown" => inl (RuntimeError "No available targets")
       | _ => inr (triple ++ " " ++ features)
       end)
    (fun machine m => match m with
                      | String "?" _ => inl (RuntimeError "cannot print")
                      | _ => inr ("; " ++ machine ++ nl ++ m)
                      end)
    (fun _ m => inr ("OBJ " ++ m)).

(** ** Inlined records and malformed output *)

(** An inlined record of the resolver output: two lines, the function and
    the location. *)
Record InlinedRecord : Type := mkInlined {
  ir_function : str;
  ir_filename : str;
  ir_line : str;
  ir_lineno : Z;         (* the number [ir_line] denotes *)
}.

Definition inlined_lines (r : InlinedRecord) : list str :=
  [ir_function r; ir_filename r ++ ":" ++ ir_line r].

(** An inlined record the loop keeps: the function line is no address
    line, the file name is not a sentinel, the line number is a numeral
    without colon. *)
Record well_formed_inlined (r : InlinedRecord) : Prop := {
  wi_function : Py.take 2 (ir_function r) <> "0x";
  wi_filename : is_sentinel (ir_filename r) = false;
  wi_line_colon : contains ":" (ir_line r) = false;
  wi_lineno : Py.int 10 (ir_line r) = Some (ir_lineno r);
}.

Definition inlined_entry (a : Z) (r : InlinedRecord) : BacktraceEntry :=
  mkEntry (ir_filename r) (ir_lineno r) (-1) (ir_function r) a.

(** What the resolver prints for one address: the root record, then the
    records of the functions inlined there. *)
Definition Group : Type := RootRecord * list InlinedRecord.

Definition group_lines (g : Group) : list str :=
  (record_lines (fst g) ++ flat_map inlined_lines (snd g))%list.

Definition group_entries (a : Z) (g : Group) : list BacktraceEntry :=
  root_entry a (fst g) :: map (inlined_entry a) (snd g).

Definition well_formed_group (a : Z) (g : Group) : Prop :=
  well_formed_root a (fst g) /\ Forall well_formed_inlined (snd g).

Fixpoint groups_entries (addresses : list Z) (groups : list Group)
  : list BacktraceEntry :=
  match addresses, groups with
  | a :: addresses', g :: groups' =>
      (group_entries a g ++ groups_entries addresses' groups')%list
  | _, _ => []
  end.

(** An address line the loop can read. *)
Definition address_line (l : str) : Prop :=
  Py.take 2 l = "0x" /\ Py.int 16 (Py.drop 2 l) <> None.

(** A location the loop can make no entry of: it has no colon, or what
    follows its last colon is ASCII text that is no numeral while the file
    name before it is not a sentinel. *)
Definition unreadable_location (location : str) : Prop :=
  contains ":" location = false
  \/ exists name ln,
       location = name ++ ":" ++ ln
       /\ contains ":" ln = false
       /\ is_sentinel name = false
       /\ Py.isascii ln = true
       /\ Py.int 10 ln = None.

(** The world after a tool has run to its end, from the world [w1] in
    which it was started. *)
Definition after_tool (w1 : World) (cmdline : list str) (c : Completed) : World :=
  mkWorld (files_after c) (next_temp w1) (stderr w1) (spawned w1 ++ [cmdline]).

(** The world in which [symbolize] starts the resolver. *)
Definition before_resolver (library : bytes) (w : World) : World :=
  mkWorld (fs_write (disk w) (Temp (next_temp w) "") library)
          (N.succ (next_temp w)) (stderr w) (spawned w).

(** The resolver output for two addresses, the first in a function inlined
    twice. *)
Definition sample_group_output : str :=
  "0x1003" ++ nl ++ "inner" ++ nl ++ "util.h:3" ++ nl
  ++ "middle" ++ nl ++ "util.h:20" ++ nl
  ++ "outer" ++ nl ++ "main.c:10" ++ nl
  ++ "0x2007" ++ nl ++ "bar" ++ nl ++ "lib/x.c:7" ++ nl.

Definition sample_groups : list Group :=
  [(mkRoot "0x1003" "inner" "util.h" "3" 3,
    [mkInlined "middle" "util.h" "20" 20; mkInlined "outer" "main.c" "10" 10]);
   (mkRoot "0x2007" "bar" "lib/x.c" "7" 7, [])].

(** ** The demangler *)

(** The command line of the demangler. *)
Definition cxxfilt_cmdline (self : Target) (names : list str) : list str :=
  (triple self ++ "-c++filt")%string :: names.

(** A demangler that prints its arguments back, one per line. *)
Definition echo_tool : OS :=
  mkOS (fun _ => None)
       (fun cmdline fs =>
          inr (mkCompleted 0 (Py.join nl (tl cmdline) ++ nl) "" fs))
       (fun _ _ => inr tt) in_place.

(** * Properties *)

(** ** Sample evaluations of the Python primitives *)

Example int_hex_1f : Py.int 16 "1f" = Some 31.
Proof. reflexivity. Qed.

Example int_hex_signed_prefix : Py.int 16 " -0x_1F " = Some (-31).
Proof. reflexivity. Qed.

Example int_hex_inner_sign : Py.int 16 "0x-1" = None.
Proof. reflexivity. Qed.

Example int_dec_discriminator : Py.int 10 "10 (discriminator 1)" = None.
Proof. reflexivity. Qed.

Example int_dec_double_underscore : Py.int 10 "1__0" = None.
Proof. reflexivity. Qed.

Example rstrip_sample : Py.rstrip ("a" ++ nl ++ " ") = "a".
Proof. reflexivity. Qed.

Example split_empty_text : Py.split newline "" = [""].
Proof. reflexivity. Qed.

Example rsplit_sample : Py.rsplit1 ":" "a:b:c" = Some ("a:b", "c").
Proof. reflexivity. Qed.

Example hex_samples :
  Py.hex 4099 = "0x1003" /\ Py.hex (-1) = "-0x1" /\ Py.hex 0 = "0x0".
Proof. repeat split. Qed.

Example upper_sample : Py.upper "LLVM IR (broken)" = "LLVM IR (BROKEN)".
Proof. reflexivity. Qed.

Example decode_sample :
  decode_utf8 ("caf" ++ String "195" (String "169" ""))
  = inr ("caf" ++ String "195" (String "169" ""))
  /\ decode_utf8 (String "255" "") = inl UnicodeDecodeError
  /\ decode_utf8 (String "237" (String "160" (String "128" ""))) = inl UnicodeDecodeError.
Proof. repeat split. Qed.

Example format_exe :
  PyFormat.format "--exe={library}" [("library", "/tmp/tmp7")]
  = inr "--exe=/tmp/tmp7".
Proof. reflexivity. Qed.

Example format_samples :
  PyFormat.format "{obj0}" [("obj0", "/tmp/tmp0")] = inr "/tmp/tmp0"
  /\ PyFormat.format "{output}" [("obj0", "/tmp/tmp0")] = inl (KeyError "output")
  /\ PyFormat.format "{}" [] = inl IndexError
  /\ PyFormat.format "{" [] = inl ValueError
  /\ PyFormat.format "}}{{" [] = inr "}{".
Proof. repeat split. Qed.

(** The end-to-end scenario: one address, one root record. *)
Example symbolize_scenario :
  symbolize (fixed_tool 0 ("0x1003" ++ nl ++ "foo" ++ nl ++ "main.c:10" ++ nl) "")
            OR1KTarget "ELF" [0x1004] empty_world
  = (inr [mkEntry "main.c" 10 (-1) "foo" 0x1004],
     mkWorld [] 1 []
       [["or1k-linux-addr2line"; "--addresses"; "--functions"; "--inlines";
         "--demangle"; "--exe=/tmp/tmp0"; "0x1003"]]).
Proof. reflexivity. Qed.

(** An inlined frame takes the address of the entry before it. *)
Example symbolize_inlined_scenario :
  fst (symbolize
         (fixed_tool 0 ("0x1003" ++ nl ++ "foo" ++ nl ++ "main.c:10" ++ nl
                        ++ "bar" ++ nl ++ "main.c:20" ++ nl) "")
         OR1KTarget "ELF" [0x1004] empty_world)
  = inr [mkEntry "main.c" 10 (-1) "foo" 0x1004;
         mkEntry "main.c" 20 (-1) "bar" 0x1004].
Proof. reflexivity. Qed.

(** ** [hex] and [int] *)

(** Case analysis on the last hexadecimal digit of [p]. *)
Ltac last_hex_digit p := do 4 try destruct p as [p|p|].







(** ** Text *)

Lemma append_nil_r (s : str) : s ++ "" = s.
Proof. induction s; simpl; congruence. Qed.


Lemma split_not_nil sep s : Py.split sep s <> [].
Proof.
  destruct s as [|c s]; simpl; [discriminate|].
  destruct (Ascii.eqb c sep); [discriminate|].
  destruct (Py.split sep s); discriminate.
Qed.

Lemma split_plain (sep : ascii) (s : str) :
  contains sep s = false -> Py.split sep s = [s].
Proof.
  induction s as [|c s IH]; simpl; [reflexivity|].
  intros H. apply orb_false_elim in H as [Hc Hs].
  rewrite Hc, (IH Hs). reflexivity.
Qed.

Lemma split_app (sep : ascii) (a b : str) :
  contains sep a = false ->
  Py.split sep (a ++ String sep b) = a :: Py.split sep b.
Proof.
  induction a as [|c a IH]; simpl.
  - intros _. rewrite Ascii.eqb_refl. reflexivity.
  - intros H. apply orb_false_elim in H as [Hc Ha].
    rewrite Hc, (IH Ha). reflexivity.
Qed.

(** [sep.join(parts).split(sep) == parts] when no part holds [sep]. *)
Lemma split_join (sep : ascii) (parts : list str) :
  parts <> [] ->
  Forall (fun p => contains sep p = false) parts ->
  Py.split sep (Py.join (String sep "") parts) = parts.
Proof.
  induction parts as [|p rest IH]; [congruence|].
  intros _ H. inversion H as [|? ? Hp Hrest]; subst.
  destruct rest as [|q rest].
  - simpl. apply split_plain, Hp.
  - change (Py.join (String sep "") (p :: q :: rest))
      with (p ++ String sep (Py.join (String sep "") (q :: rest))).
    rewrite split_app by exact Hp.
    rewrite IH by (congruence || assumption). reflexivity.
Qed.

Lemma rsplit1_plain (sep : ascii) (s : str) :
  contains sep s = false -> Py.rsplit1 sep s = None.
Proof.
  induction s as [|c s IH]; simpl; [reflexivity|].
  intros H. apply orb_false_elim in H as [Hc Hs].
  rewrite (IH Hs), Hc. reflexivity.
Qed.

Lemma rsplit1_app (sep : ascii) (a b : str) :
  contains sep b = false ->
  Py.rsplit1 sep (a ++ String sep b) = Some (a, b).
Proof.
  intros Hb. induction a as [|c a IH]; simpl.
  - rewrite (rsplit1_plain _ _ Hb), Ascii.eqb_refl. reflexivity.
  - rewrite IH. reflexivity.
Qed.

Lemma rstrip_newline (s : str) : Py.rstrip (s ++ nl) = Py.rstrip s.
Proof.
  induction s as [|c s IH]; [reflexivity|].
  simpl. rewrite IH. reflexivity.
Qed.

Lemma byte_in_true lo hi c :
  Py.byte_in lo hi c = true -> (lo <= N_of_ascii c <= hi)%N.
Proof.
  unfold Py.byte_in. intros H. apply andb_prop in H as [H1 H2].
  apply N.leb_le in H1, H2. lia.
Qed.

Lemma byte_in_false lo hi c :
  (N_of_ascii c < lo \/ hi < N_of_ascii c)%N -> Py.byte_in lo hi c = false.
Proof.
  unfold Py.byte_in. intros [H|H].
  - apply andb_false_intro1, N.leb_gt, H.
  - apply andb_false_intro2, N.leb_gt, H.
Qed.

(** Text that ends with a graphic ASCII character is not one white-space
    character: those end with a space, a control or a byte above 127. *)
Lemma graphic_not_space (c : ascii) (s : str) :
  ends_graphic (String c s) = true -> Py.is_space_char (String c s) = false.
Proof.
  intros H.
  destruct s as [|c1 [|c2 [|c3 s]]]; simpl in H; [| | |reflexivity].
  - apply byte_in_true in H. simpl.
    rewrite !byte_in_false by lia. reflexivity.
  - apply byte_in_true in H. simpl.
    rewrite (byte_in_false 0x85 0x85 c1), (byte_in_false 0xA0 0xA0 c1) by lia.
    apply andb_false_r.
  - apply byte_in_true in H. simpl.
    rewrite !(byte_in_false _ _ c2) by lia.
    rewrite !andb_false_r. reflexivity.
Qed.

Lemma rstrip_graphic (s : str) : ends_graphic s = true -> Py.rstrip s = s.
Proof.
  induction s as [|c s IH]; [discriminate|].
  intros H. cbn [Py.rstrip].
  destruct s as [|c1 s].
  - cbn [Py.rstrip]. rewrite (graphic_not_space c "" H). reflexivity.
  - rewrite (IH H). rewrite (graphic_not_space c (String c1 s) H). reflexivity.
Qed.

Lemma ends_graphic_app (a b : str) :
  ends_graphic b = true -> ends_graphic (a ++ b) = true.
Proof.
  intros Hb. induction a as [|c a IH]; [exact Hb|].
  simpl. destruct (a ++ b) eqn:E; [discriminate IH | exact IH].
Qed.

(** ** [str.format] on text without braces *)

Lemma brace_free_cons c s :
  brace_free (String c s) = true ->
  Ascii.eqb c "{" = false /\ Ascii.eqb c "}" = false /\ brace_free s = true.
Proof.
  unfold brace_free. simpl. intros H.
  apply andb_prop in H as [H1 H2].
  apply negb_true_iff, orb_false_elim in H1 as [? ?].
  apply negb_true_iff, orb_false_elim in H2 as [? ?].
  repeat split; try assumption.
  apply andb_true_intro; split; apply negb_true_iff; assumption.
Qed.

Lemma brace_free_app a b :
  brace_free a = true -> brace_free b = true -> brace_free (a ++ b) = true.
Proof.
  intros Ha Hb. induction a as [|c a IH]; [exact Hb|].
  apply brace_free_cons in Ha as (H1 & H2 & H3).
  specialize (IH H3). unfold brace_free in *. simpl. rewrite H1, H2. exact IH.
Qed.

Lemma format_plain (names : dict str) (s : str) :
  brace_free s = true -> PyFormat.format s names = inr s.
Proof.
  unfold PyFormat.format.
  induction s as [|c s IH]; [reflexivity|].
  intros H. apply brace_free_cons in H as (H1 & H2 & H3).
  simpl. rewrite H1, H2, (IH H3). reflexivity.
Qed.

Lemma format_all_plain (names : dict str) (l : list str) :
  Forall (fun s => brace_free s = true) l -> RunTool.format_all l names = inr l.
Proof.
  induction 1 as [|s l Hs Hl IH]; [reflexivity|].
  simpl. rewrite (format_plain _ _ Hs), IH. reflexivity.
Qed.

Lemma brace_free_of_pos : forall (p : positive) (rest : str),
  brace_free rest = true -> brace_free (HexString.Raw.of_pos p rest) = true.
Proof.
  fix IH 1.
  intros p rest H.
  last_hex_digit p; cbn [HexString.Raw.of_pos]; try (apply IH); exact H.
Qed.

Lemma brace_free_hex (n : Z) : brace_free (Py.hex n) = true.
Proof.
  destruct n as [|p|p]; [reflexivity | |];
    unfold Py.hex, HexString.of_Z, HexString.of_pos;
    change (brace_free (HexString.Raw.of_pos p "") = true);
    apply brace_free_of_pos; reflexivity.
Qed.

Lemma offset_addresses_plain (addresses : list Z) :
  Forall (fun s => brace_free s = true) (offset_addresses addresses).
Proof.
  unfold offset_addresses. apply Forall_map, Forall_forall.
  intros a _. apply brace_free_hex.
Qed.


(** For a triple without braces the template is filled in as expected. *)
Lemma format_symbolize_pattern (self : Target) (exe : str) (addresses : list Z) :
  brace_free (triple self) = true ->
  RunTool.format_all (symbolize_pattern self addresses) [("library", exe)]
  = inr (addr2line_cmdline self exe addresses).
Proof.
  intros Ht. unfold symbolize_pattern.
  cbn [app RunTool.format_all].
  rewrite (format_plain _ (triple self ++ "-addr2line"))
    by (apply brace_free_app; [exact Ht | reflexivity]).
  rewrite (format_all_plain _ _ (offset_addresses_plain addresses)).
  cbn. rewrite append_nil_r. reflexivity.
Qed.

(** ** Files and dictionaries *)

Lemma path_eqb_refl (p : path) : path_eqb p p = true.
Proof.
  destruct p; simpl; [apply String.eqb_refl|].
  rewrite N.eqb_refl, String.eqb_refl. reflexivity.
Qed.

Lemma path_eqb_eq p q : path_eqb p q = true <-> p = q.
Proof.
  split; [|intros ->; apply path_eqb_refl].
  destruct p as [a|i s], q as [b|j t]; simpl; try discriminate.
  - intros H. apply String.eqb_eq in H. congruence.
  - intros H. apply andb_prop in H as [H1 H2].
    apply N.eqb_eq in H1. apply String.eqb_eq in H2. congruence.
Qed.

Lemma fs_exists_write fs p data : fs_exists (fs_write fs p data) p = true.
Proof. unfold fs_exists, fs_write. simpl. rewrite path_eqb_refl. reflexivity. Qed.

Lemma fs_lookup_remove fs p q :
  fs_lookup (fs_remove fs p) q
  = if path_eqb p q then None else fs_lookup fs q.
Proof.
  induction fs as [|[r data] fs IH]; simpl.
  - destruct (path_eqb p q); reflexivity.
  - destruct (path_eqb r p) eqn:Erp; simpl.
    + apply path_eqb_eq in Erp. subst r. rewrite IH.
      destruct (path_eqb p q); reflexivity.
    + rewrite IH. destruct (path_eqb p q) eqn:Epq; [|reflexivity].
      apply path_eqb_eq in Epq. subst q. rewrite Erp. reflexivity.
Qed.

Lemma fs_exists_remove fs p q :
  fs_exists (fs_remove fs p) q = negb (path_eqb p q) && fs_exists fs q.
Proof.
  unfold fs_exists. rewrite fs_lookup_remove.
  destruct (path_eqb p q); reflexivity.
Qed.

Lemma dict_get_set_eq {V} (d : dict V) k v : dict_get (dict_set d k v) k = Some v.
Proof.
  induction d as [|[k' v'] d IH]; simpl.
  - rewrite String.eqb_refl. reflexivity.
  - destruct (String.eqb k' k) eqn:E; simpl.
    + rewrite String.eqb_refl. reflexivity.
    + rewrite E. exact IH.
Qed.

Lemma dict_get_set_neq {V} (d : dict V) k k' v :
  k <> k' -> dict_get (dict_set d k v) k' = dict_get d k'.
Proof.
  intros Hne. induction d as [|[k0 v0] d IH]; simpl.
  - apply String.eqb_neq in Hne. rewrite Hne. reflexivity.
  - destruct (String.eqb k0 k) eqn:E; simpl.
    + apply String.eqb_eq in E. subst k0.
      apply String.eqb_neq in Hne. rewrite Hne. reflexivity.
    + destruct (String.eqb k0 k'); [reflexivity | exact IH].
Qed.

(** ** [RunTool] *)

(** Every key of the loop gets a file; files already handed out stay. *)
Lemma make_temps_files :
  forall keys self tempfiles tempnames w self' tempfiles' tempnames' w',
    RunTool.make_temps self keys tempfiles tempnames w
    = (inr (self', tempfiles', tempnames'), w') ->
    forall k, In k keys \/ holds_file tempfiles k -> holds_file tempfiles' k.
Proof.
  induction keys as [|key keys IH]; intros self tf tn w self' tf' tn' w' H k Hk.
  - inversion H; subst. destruct Hk as [[]|Hk]. exact Hk.
  - cbn [RunTool.make_temps] in H.
    destruct (dict_get (RunTool.tempdata self) key) as [data|]; [|discriminate].
    unfold bind at 1 in H. cbn in H.
    apply (IH _ _ _ _ _ _ _ _ H k).
    destruct (string_dec key k) as [->|Hne].
    + right. eexists. apply dict_get_set_eq.
    + destruct Hk as [[Hk|Hk]|[f Hf]]; [congruence | left; exact Hk |].
      right. exists f. rewrite dict_get_set_neq by exact Hne. exact Hf.
Qed.

(** Leaving the [with] statement through an exception of [__enter__]: the
    world is as [__enter__] left it, [__exit__] has not run. *)
Lemma with_enter_raises {A} os pattern tempdata (body : dict value -> M A) w e w1 :
  RunTool.__enter__ os (RunTool.__init__ pattern tempdata) w = (inl e, w1) ->
  RunTool.with_ os pattern tempdata body w = (inl e, w1).
Proof. unfold RunTool.with_. intros ->. reflexivity. Qed.

(** A value returned by the [with] statement is a value of its body. *)
Lemma with_returns {A} os pattern tempdata (body : dict value -> M A) w a w' :
  RunTool.with_ os pattern tempdata body w = (inr a, w') ->
  exists results w1, fst (body results w1) = inr a.
Proof.
  unfold RunTool.with_. intros H.
  destruct (RunTool.__enter__ os (RunTool.__init__ pattern tempdata) w)
    as [[e|[self results]] w1]; [discriminate|].
  exists results, w1.
  destruct (body results w1) as [outcome w2].
  destruct (RunTool.__exit__ self w2) as [[e|u] w3]; [discriminate|].
  inversion H; subst. reflexivity.
Qed.

(** [__exit__]: every file of the runner that is still on disk is closed,
    hence removed; nothing else changes. *)
Lemma close_all_removes : forall fs w,
  NoDup fs ->
  (forall f, In f fs -> fs_exists (disk w) f = true) ->
  exists w',
    RunTool.close_all fs w = (inr tt, w')
    /\ (forall f, In f fs -> fs_exists (disk w') f = false)
    /\ (forall p, ~ In p fs -> fs_lookup (disk w') p = fs_lookup (disk w) p)
    /\ stderr w' = stderr w /\ spawned w' = spawned w.
Proof.
  induction fs as [|f fs IH]; intros w Hnd Hex.
  - exists w. repeat split; try reflexivity. intros f [].
  - inversion Hnd as [|? ? Hnotin Hnd']; subst.
    cbn [RunTool.close_all]. unfold bind at 1, close_temp_file.
    rewrite (Hex f (or_introl eq_refl)).
    set (w1 := mkWorld (fs_remove (disk w) f) (next_temp w) (stderr w) (spawned w)).
    destruct (IH w1 Hnd') as (w' & Hrun & Hgone & Hkept & Herr & Hsp).
    { intros g Hg. unfold w1. cbn [disk]. rewrite fs_exists_remove.
      rewrite (Hex g (or_intror Hg)).
      destruct (path_eqb f g) eqn:E; [|reflexivity].
      apply path_eqb_eq in E. subst g. contradiction. }
    exists w'. split; [exact Hrun|]. split; [|split; [|split]].
    + intros g [<-|Hg]; [|apply Hgone, Hg].
      unfold fs_exists. rewrite (Hkept f Hnotin). unfold w1. cbn [disk].
      rewrite fs_lookup_remove, path_eqb_refl. reflexivity.
    + intros p Hp. rewrite Hkept by (intros Hin; apply Hp; right; exact Hin).
      unfold w1. cbn [disk]. rewrite fs_lookup_remove.
      destruct (path_eqb f p) eqn:E; [|reflexivity].
      apply path_eqb_eq in E. subst p. destruct Hp. left. reflexivity.
    + rewrite Herr. reflexivity.
    + rewrite Hsp. reflexivity.
Qed.

(** Once [__enter__] has returned, the [with] statement closes the runner's
    files whatever the outcome of the body, provided the files are still
    where the runner put them. *)
Lemma with_releases {A} os pattern tempdata (body : dict value -> M A)
    w self results w1 outcome w2 :
  RunTool.__enter__ os (RunTool.__init__ pattern tempdata) w
  = (inr (self, results), w1) ->
  body results w1 = (outcome, w2) ->
  NoDup (RunTool.files self) ->
  (forall f, In f (RunTool.files self) -> fs_exists (disk w2) f = true) ->
  exists w3,
    RunTool.with_ os pattern tempdata body w = (outcome, w3)
    /\ forall f, In f (RunTool.files self) -> fs_exists (disk w3) f = false.
Proof.
  intros Henter Hbody Hnd Hex.
  destruct (close_all_removes _ w2 Hnd Hex) as (w3 & Hclose & Hgone & _).
  exists w3. split; [|exact Hgone].
  unfold RunTool.with_. rewrite Henter, Hbody.
  unfold RunTool.__exit__. rewrite Hclose. reflexivity.
Qed.

Example with_releases_after_success :
  RunTool.with_ (fixed_tool 0 "" "") strip_pattern strip_tempdata
    (fun _ => ret tt) empty_world
  = (inr tt,
     mkWorld [] 2 []
       [["or1k-linux-strip"; "--strip-debug"; "/tmp/tmp0"; "-o"; "/tmp/tmp1"]]).
Proof. reflexivity. Qed.

Example with_releases_after_body_raises :
  RunTool.with_ (fixed_tool 0 "" "") strip_pattern strip_tempdata
    (fun _ => @raise unit ValueError) empty_world
  = (inl ValueError,
     mkWorld [] 2 []
       [["or1k-linux-strip"; "--strip-debug"; "/tmp/tmp0"; "-o"; "/tmp/tmp1"]]).
Proof. reflexivity. Qed.

(** C1 (the code departs from the claim): when the tool exits with a
    non-zero status, the [with] statement is left with the temporary files
    of the invocation still on disk.  Here [strip] is run on the bytes
    ["ELF"] and the tool exits with status 1: whatever the body, the
    statement raises the tool's error, and both temporary files, the input
    and the output, are still there. *)
Theorem with_tool_failure_keeps_files :
  forall (A : Type) (body : dict value -> M A),
    let os := fixed_tool 1 "" "no such file" in
    let run := RunTool.with_ os strip_pattern strip_tempdata body empty_world in
    fst run = inl (Exception "or1k-linux-strip invocation failed: no such file")
    /\ fs_lookup (disk (snd run)) (Temp 0 "") = Some "ELF"
    /\ fs_lookup (disk (snd run)) (Temp 1 "") = Some "".
Proof.
  intros A body os run. repeat split.
Qed.

Lemma enter_unfolded os self w self' tempfiles tempnames w1 program args c :
  RunTool.make_temps self (dict_keys (RunTool.tempdata self)) [] [] w
  = (inr (self', tempfiles, tempnames), w1) ->
  RunTool.format_all (RunTool.pattern self') tempnames = inr (program :: args) ->
  popen os (program :: args) (disk w1) = inr c ->
  RunTool.__enter__ os self w
  = (if negb (returncode c =? 0)
     then if Py.valid_utf8 (stderr_out c)
          then inl (tool_error program (stderr_out c))
          else inl UnicodeDecodeError
     else if Py.valid_utf8 (stdout c)
          then inr (self', dict_set tempfiles "__stdout__" (Text (stdout c)))
          else inl UnicodeDecodeError,
     mkWorld (files_after c) (next_temp w1) (stderr w1)
             (spawned w1 ++ [program :: args])).
Proof.
  intros Htemps Hfmt Hrun.
  unfold RunTool.__enter__. unfold bind at 1. rewrite Htemps.
  unfold bind at 1, lift at 1. rewrite Hfmt.
  unfold bind at 1, communicate. rewrite Hrun.
  destruct (negb (returncode c =? 0)); unfold bind, lift, decode_utf8.
  - destruct (Py.valid_utf8 (stderr_out c)); reflexivity.
  - destruct (Py.valid_utf8 (stdout c)); reflexivity.
Qed.

(** C2 (amended): suppose [__enter__] has made its temporary files, filled
    in the command line and run the tool, which exited.  When the exit
    status is not zero, [__enter__] raises the tool's error, which carries
    the program name and the text of the tool's standard error, provided
    that output is valid UTF-8, and [UnicodeDecodeError] otherwise.  When
    the exit status is zero, it returns the dictionary of the temporary
    files with the text of the standard output under ["__stdout__"],
    provided that output is valid UTF-8, and raises [UnicodeDecodeError]
    otherwise.  In the dictionary every key of the temporary data other
    than ["__stdout__"] holds its file.  So, for a tool whose standard
    error is valid UTF-8, the tool's error is raised if and only if the
    exit status is not zero. *)
Theorem enter_outcome os self w self' tempfiles tempnames w1 program args c :
  RunTool.make_temps self (dict_keys (RunTool.tempdata self)) [] [] w
  = (inr (self', tempfiles, tempnames), w1) ->
  RunTool.format_all (RunTool.pattern self') tempnames = inr (program :: args) ->
  popen os (program :: args) (disk w1) = inr c ->
  let w2 := mkWorld (files_after c) (next_temp w1) (stderr w1)
                    (spawned w1 ++ [program :: args]) in
  let results := dict_set tempfiles "__stdout__" (Text (stdout c)) in
  (returncode c <> 0 ->
   RunTool.__enter__ os self w
   = (if Py.valid_utf8 (stderr_out c)
      then inl (tool_error program (stderr_out c))
      else inl UnicodeDecodeError, w2))
  /\ (returncode c = 0 ->
      RunTool.__enter__ os self w
      = (if Py.valid_utf8 (stdout c)
         then inr (self', results)
         else inl UnicodeDecodeError, w2))
  /\ dict_get results "__stdout__" = Some (Text (stdout c))
  /\ (forall key, In key (dict_keys (RunTool.tempdata self)) ->
                  key <> "__stdout__" -> holds_file results key)
  /\ (Py.valid_utf8 (stderr_out c) = true ->
      ((exists msg, fst (RunTool.__enter__ os self w) = inl (Exception msg))
       <-> returncode c <> 0)).
Proof.
  intros Htemps Hfmt Hrun w2 results.
  pose proof (enter_unfolded _ _ _ _ _ _ _ _ _ _ Htemps Hfmt Hrun) as Henter.
  fold w2 in Henter. fold results in Henter.
  split; [|split; [|split; [|split]]].
  - intros Hc. rewrite Henter. apply Z.eqb_neq in Hc. rewrite Hc. reflexivity.
  - intros Hc. rewrite Henter, Hc. reflexivity.
  - apply dict_get_set_eq.
  - intros key Hin Hkey. unfold results, holds_file.
    rewrite dict_get_set_neq by congruence.
    apply (make_temps_files _ _ _ _ _ _ _ _ _ Htemps). left. exact Hin.
  - intros Herr. rewrite Henter, Herr. destruct (returncode c =? 0) eqn:Hc.
    + apply Z.eqb_eq in Hc. split; [|congruence].
      intros [msg H]. simpl in H. destruct (Py.valid_utf8 (stdout c)); discriminate.
    + apply Z.eqb_neq in Hc. split; [intros _; exact Hc|].
      intros _. eexists. reflexivity.
Qed.

Lemma enter_outcome_witness :
  (RunTool.__enter__ (fixed_tool 1 "" "no such file")
     (RunTool.__init__ strip_pattern strip_tempdata) empty_world
   = (inl (Exception "or1k-linux-strip invocation failed: no such file"),
      mkWorld [(Temp 1 "", ""); (Temp 0 "", "ELF")] 2 []
        [["or1k-linux-strip"; "--strip-debug"; "/tmp/tmp0"; "-o"; "/tmp/tmp1"]]))
  /\ (RunTool.__enter__ (fixed_tool 0 "done" "")
        (RunTool.__init__ strip_pattern strip_tempdata) empty_world
      = (inr (strip_entered,
              [("library", File (Temp 0 "")); ("output", File (Temp 1 ""));
               ("__stdout__", Text "done")]),
         mkWorld [(Temp 1 "", ""); (Temp 0 "", "ELF")] 2 []
           [["or1k-linux-strip"; "--strip-debug"; "/tmp/tmp0"; "-o"; "/tmp/tmp1"]]))
  /\ holds_file (dict_set strip_tempfiles "__stdout__" (Text "done")) "output"
  /\ ((exists msg,
         fst (RunTool.__enter__ (fixed_tool 1 "" "no such file")
                (RunTool.__init__ strip_pattern strip_tempdata) empty_world)
         = inl (Exception msg))
      <-> 1 <> 0).
Proof.
  pose proof (enter_outcome (fixed_tool 1 "" "no such file")
                (RunTool.__init__ strip_pattern strip_tempdata) empty_world
                strip_entered strip_tempfiles strip_tempnames strip_world
                "or1k-linux-strip" strip_args
                (mkCompleted 1 "" "no such file" (disk strip_world))
                eq_refl eq_refl eq_refl) as Hfail.
  pose proof (enter_outcome (fixed_tool 0 "done" "")
                (RunTool.__init__ strip_pattern strip_tempdata) empty_world
                strip_entered strip_tempfiles strip_tempnames strip_world
                "or1k-linux-strip" strip_args
                (mkCompleted 0 "done" "" (disk strip_world))
                eq_refl eq_refl eq_refl) as Hok.
  split; [|split; [|split]].
  - apply (proj1 Hfail). discriminate.
  - apply (proj1 (proj2 Hok)). reflexivity.
  - apply (proj1 (proj2 (proj2 (proj2 Hok))) "output").
    + simpl. tauto.
    + discriminate.
  - apply (proj2 (proj2 (proj2 (proj2 Hfail)))). reflexivity.
Defined.

(** C2 as stated fails: with exit status 0 and a standard output that is
    not valid UTF-8, [__enter__] raises; with exit status 1 and such a
    standard error, it raises, but not the tool's error; and a temporary
    file under the key ["__stdout__"] is not returned. *)
Lemma enter_decoding_fails :
  let garbled : bytes := String "255" "" in
  fst (RunTool.__enter__ (fixed_tool 0 garbled "")
         (RunTool.__init__ strip_pattern strip_tempdata) empty_world)
  = inl UnicodeDecodeError
  /\ fst (RunTool.__enter__ (fixed_tool 1 "" garbled)
            (RunTool.__init__ strip_pattern strip_tempdata) empty_world)
     = inl UnicodeDecodeError
  /\ fst (RunTool.__enter__ (fixed_tool 0 "text" "")
            (RunTool.__init__ ["tool"; "{__stdout__}"] [("__stdout__", "data")])
            empty_world)
     = inr (RunTool.mk [Temp 0 ""] ["tool"; "{__stdout__}"]
                       [("__stdout__", "data")],
            [("__stdout__", Text "text")]).
Proof. repeat split. Qed.

(** ** [_dump] and [Target.compile] *)

Lemma dump_signature_run {module llmodule llparsed : Type}
    (cg : Codegen module llmodule llparsed) (os : OS) m w :
  dump_signature cg os m w
  = (inr tt, signature_shown (module_str cg m) (getenv os "ARTIQ_DUMP_SIG") w).
Proof.
  unfold dump_signature, signature_shown, truthy.
  destruct (getenv os "ARTIQ_DUMP_SIG") as [[|c s]|]; try reflexivity.
  unfold bind, print_stderr.
  cbn [negb String.eqb disk next_temp stderr spawned].
  rewrite <- app_assoc. reflexivity.
Qed.

Lemma signature_shown_disk signature value w :
  disk (signature_shown signature value w) = disk w
  /\ next_temp (signature_shown signature value w) = next_temp w.
Proof. destruct value as [[|c s]|]; split; reflexivity. Qed.

(** A dump of a value at hand, when the file it names can be opened. *)
Lemma dump_value_run os target kind suffix v w :
  dump_opens os target suffix (disk w) ->
  _dump os target kind suffix (ret v) w
  = (inr tt, dumped target kind suffix (content_bytes v) w).
Proof.
  unfold dump_opens, dumped, dump_file, _dump.
  destruct target as [target|]; [|reflexivity].
  destruct (String.eqb target ""); intros H.
  - reflexivity.
  - unfold bind, print_stderr, ret, write_named_file. cbn [disk]. rewrite H.
    reflexivity.
Qed.

(** A dump whose file cannot be opened: the banner is printed, the content
    is made and the exception of [open] leaves [_dump]. *)
Lemma dump_value_refused os target kind suffix v w e :
  target <> "" ->
  open_wb os (target ++ suffix) (disk w) = inl e ->
  _dump os (Some target) kind suffix (ret v) w = (inl e, announce kind w).
Proof.
  intros Ht H. unfold _dump. apply String.eqb_neq in Ht. rewrite Ht.
  unfold bind, print_stderr, ret, write_named_file. cbn [disk]. rewrite H.
  reflexivity.
Qed.

Lemma dumped_next_temp target kind suffix data w :
  (next_temp w <= next_temp (dumped target kind suffix data w))%N.
Proof.
  unfold dumped, dump_file. destruct target as [target|]; [|lia].
  destruct (String.eqb target ""); cbn; lia.
Qed.

Lemma verification_raises {module llmodule llparsed : Type}
    (cg : Codegen module llmodule llparsed) llmod msg w :
  verification_fails cg llmod msg ->
  (p <- lift (parse_assembly cg (llmodule_str cg llmod)) ;;
   lift (verify cg p) ;;; ret p) w = (inl (RuntimeError msg), w).
Proof.
  unfold bind, lift. intros [H | (p & Hp & Hv)].
  - rewrite H. reflexivity.
  - rewrite Hp, Hv. reflexivity.
Qed.

(** The statements of [compile] before the IR is generated: the signature
    and the dump of the ARTIQ IR. *)
Lemma compile_from_prelude {module llmodule llparsed : Type}
    (cg : Codegen module llmodule llparsed) os self m w :
  compile cg os self m w
  = match _dump os (getenv os "ARTIQ_DUMP_IR") "ARTIQ IR" ".txt"
            (ret (Str (Py.join (String "010" "") (artiq_ir_entities cg m))))
            (signature_shown (module_str cg m) (getenv os "ARTIQ_DUMP_SIG") w)
    with
    | (inl e, w0) => (inl e, w0)
    | (inr _, w0) =>
        (llmod <- lift (build_llvm_ir cg m self) ;;
         llparsedmod <- except_RuntimeError
             (p <- lift (parse_assembly cg (llmodule_str cg llmod)) ;;
              lift (verify cg p) ;;;
              ret p)
             (_dump os (Some "") "LLVM IR (broken)" ".ll"
                    (ret (Str (llmodule_str cg llmod)))) ;;
         _dump os (getenv os "ARTIQ_DUMP_UNOPT_LLVM") "LLVM IR (generated)"
               "_unopt.ll" (ret (Str (llparsed_str cg llparsedmod))) ;;;
         optimized <- optimize cg self llparsedmod ;;
         _dump os (getenv os "ARTIQ_DUMP_LLVM") "LLVM IR (optimized)" ".ll"
               (ret (Str (llparsed_str cg optimized))) ;;;
         ret optimized) w0
    end.
Proof.
  unfold compile. unfold bind at 1. rewrite dump_signature_run.
  unfold bind at 1.
  destruct (_dump os (getenv os "ARTIQ_DUMP_IR") "ARTIQ IR" ".txt" _ _)
    as [[e|[]] w0]; reflexivity.
Qed.

(** From the generation of the IR on, for an IR that does not verify. *)
Lemma compile_broken_from {module llmodule llparsed : Type}
    (cg : Codegen module llmodule llparsed) os self m w0 llmod msg :
  build_llvm_ir cg m self = inr llmod ->
  verification_fails cg llmod msg ->
  (llmod <- lift (build_llvm_ir cg m self) ;;
   llparsedmod <- except_RuntimeError
       (p <- lift (parse_assembly cg (llmodule_str cg llmod)) ;;
        lift (verify cg p) ;;;
        ret p)
       (_dump os (Some "") "LLVM IR (broken)" ".ll"
              (ret (Str (llmodule_str cg llmod)))) ;;
   _dump os (getenv os "ARTIQ_DUMP_UNOPT_LLVM") "LLVM IR (generated)"
         "_unopt.ll" (ret (Str (llparsed_str cg llparsedmod))) ;;;
   optimized <- optimize cg self llparsedmod ;;
   _dump os (getenv os "ARTIQ_DUMP_LLVM") "LLVM IR (optimized)" ".ll"
         (ret (Str (llparsed_str cg optimized))) ;;;
   ret optimized) w0
  = (inl (RuntimeError msg),
     dumped (Some "") "LLVM IR (broken)" ".ll" (llmodule_str cg llmod) w0).
Proof.
  intros Hbuild Hfail.
  unfold bind at 1, lift at 1. rewrite Hbuild.
  unfold bind at 1, except_RuntimeError.
  rewrite (verification_raises cg llmod msg w0 Hfail).
  reflexivity.
Qed.

(** C3 (amended): for a module whose generated LLVM IR does not parse or
    does not verify, [compile] never returns a value, whatever the process
    environment.  And provided the dump of the ARTIQ IR that comes before
    the IR is generated can open its file (the switch [ARTIQ_DUMP_IR] is
    absent or empty, or the file it names can be opened for writing),
    [compile] raises the verification error after it has written the
    textual IR to a new temporary file with the suffix [.ll] and announced
    the dump on the diagnostics stream, whatever the dump switches say. *)
Theorem compile_broken_ir {module llmodule llparsed : Type}
    (cg : Codegen module llmodule llparsed) (os : OS) self m w llmod msg :
  build_llvm_ir cg m self = inr llmod ->
  verification_fails cg llmod msg ->
  (forall value w', compile cg os self m w <> (inr value, w'))
  /\ (dump_opens os (getenv os "ARTIQ_DUMP_IR") ".txt" (disk w) ->
      exists n earlier w',
        compile cg os self m w = (inl (RuntimeError msg), w')
        /\ (next_temp w <= n)%N
        /\ fs_lookup (disk w') (Temp n ".ll") = Some (llmodule_str cg llmod)
        /\ stderr w'
           = (earlier ++ ["====== LLVM IR (BROKEN) DUMP ======";
                          ("LLVM IR (broken) dumped as "
                           ++ path_name (Temp n ".ll"))%string])%list).
Proof.
  intros Hbuild Hfail. rewrite compile_from_prelude. split.
  - intros value w'.
    destruct (_dump os (getenv os "ARTIQ_DUMP_IR") "ARTIQ IR" ".txt" _ _)
      as [[e|[]] w0]; [discriminate|].
    rewrite (compile_broken_from cg os self m w0 llmod msg Hbuild Hfail).
    discriminate.
  - intros Hopen.
    pose proof (signature_shown_disk (module_str cg m)
                  (getenv os "ARTIQ_DUMP_SIG") w) as [Hd Hn].
    rewrite dump_value_run by (rewrite Hd; exact Hopen).
    rewrite (compile_broken_from cg os self m _ llmod msg Hbuild Hfail).
    set (w0 := dumped (getenv os "ARTIQ_DUMP_IR") "ARTIQ IR" ".txt" _ _).
    exists (next_temp w0), (stderr w0). eexists.
    split; [reflexivity|]. split; [|split].
    + pose proof (dumped_next_temp (getenv os "ARTIQ_DUMP_IR") "ARTIQ IR" ".txt"
                    (content_bytes (Str (Py.join (String "010" "")
                                                 (artiq_ir_entities cg m))))
                    (signature_shown (module_str cg m)
                                     (getenv os "ARTIQ_DUMP_SIG") w)) as H.
      fold w0 in H. lia.
    + cbn [dumped dump_file String.eqb report announce disk next_temp].
      unfold fs_write. cbn [fs_lookup]. rewrite path_eqb_refl. reflexivity.
    + cbn [dumped dump_file String.eqb report announce stderr next_temp].
      rewrite <- app_assoc. reflexivity.
Qed.

Lemma compile_broken_ir_witness :
  (forall value w',
     compile sample_codegen (environment [("ARTIQ_DUMP_IR", "kernel")])
             OR1KTarget "!bad" empty_world <> (inr value, w'))
  /\ exists n earlier w',
       compile sample_codegen (environment [("ARTIQ_DUMP_IR", "kernel")])
               OR1KTarget "!bad" empty_world
       = (inl (RuntimeError "broken module"), w')
       /\ (0 <= n)%N
       /\ fs_lookup (disk w') (Temp n ".ll") = Some "!bad"
       /\ stderr w'
          = (earlier ++ ["====== LLVM IR (BROKEN) DUMP ======";
                         ("LLVM IR (broken) dumped as "
                          ++ path_name (Temp n ".ll"))%string])%list.
Proof.
  assert (Hfail : verification_fails sample_codegen "!bad" "broken module")
    by (right; exists "!bad"; split; reflexivity).
  split.
  - exact (proj1 (compile_broken_ir sample_codegen
                    (environment [("ARTIQ_DUMP_IR", "kernel")]) OR1KTarget
                    "!bad" empty_world "!bad" "broken module" eq_refl Hfail)).
  - refine (proj2 (compile_broken_ir sample_codegen
                     (environment [("ARTIQ_DUMP_IR", "kernel")]) OR1KTarget
                     "!bad" empty_world "!bad" "broken module" eq_refl Hfail) _).
    reflexivity.
Defined.

(** C3 as stated fails when the dump of the ARTIQ IR cannot open its file:
    for a module whose IR does not verify, [compile] raises the exception
    of [open] before the IR is generated; the broken IR is not dumped and
    no verification error is raised. *)
Lemma compile_ir_dump_refused :
  verification_fails sample_codegen "!bad" "broken module"
  /\ compile sample_codegen
             (closed_environment [("ARTIQ_DUMP_IR", "no_such_dir/kernel")])
             OR1KTarget "!bad" empty_world
     = (inl (FileNotFoundError "no_such_dir/kernel.txt"),
        mkWorld [] 0 ["====== ARTIQ IR DUMP ======"] []).
Proof.
  split; [right; exists "!bad"; split; reflexivity | reflexivity].
Qed.

Example compile_broken_ir_run :
  compile sample_codegen (environment []) OR1KTarget "!bad" empty_world
  = (inl (RuntimeError "broken module"),
     mkWorld [(Temp 0 ".ll", "!bad")] 1
       ["====== LLVM IR (BROKEN) DUMP ======";
        "LLVM IR (broken) dumped as /tmp/tmp0.ll"] []).
Proof. reflexivity. Qed.

Example compile_all_switches :
  compile sample_codegen
    (environment [("ARTIQ_DUMP_SIG", "1"); ("ARTIQ_DUMP_IR", "");
                  ("ARTIQ_DUMP_UNOPT_LLVM", "k"); ("ARTIQ_DUMP_LLVM", "k")])
    OR1KTarget "kernel" empty_world
  = (inr "kernel",
     mkWorld [(Named "k.ll", "kernel"); (Named "k_unopt.ll", "kernel");
              (Temp 0 ".txt", "kernel")] 1
       ["====== MODULE_SIGNATURE DUMP ======"; "<module kernel>";
        "====== ARTIQ IR DUMP ======"; "ARTIQ IR dumped as /tmp/tmp0.txt";
        "====== LLVM IR (GENERATED) DUMP ======";
        "LLVM IR (generated) dumped as k_unopt.ll";
        "====== LLVM IR (OPTIMIZED) DUMP ======";
        "LLVM IR (optimized) dumped as k.ll"] []).
Proof. reflexivity. Qed.

(** ** [Target.symbolize] *)

(** One run of [symbolize] with a resolver that answers: the result is
    what the loop makes of the lines of its output. *)
Lemma symbolize_run os self library addresses w cmdline out :
  addresses <> [] ->
  resolver_run os self library addresses w cmdline out ->
  Py.valid_utf8 out = true ->
  symbolize os self library addresses w
  = (symbolize_loop (Py.split newline (Py.rstrip out)) [],
     after_symbolize library w cmdline).
Proof.
  intros Hne [Hfmt [err Hrun]] Hutf.
  destruct addresses as [|a rest]; [congruence|].
  unfold symbolize, RunTool.with_, RunTool.__enter__, RunTool.__init__.
  cbn -[Py.hex PyFormat.format RunTool.format_all path_name fs_write].
  change (Py.hex (a - 1) :: map (fun addr : Z => Py.hex (addr - 1)) rest)
    with (offset_addresses (a :: rest)).
  unfold symbolize_pattern in Hfmt. cbn [app] in Hfmt. rewrite Hfmt. clear Hfmt.
  unfold bind at 1, communicate. cbn [disk]. rewrite Hrun.
  cbn -[Py.hex path_name fs_write fs_remove].
  unfold decode_utf8. rewrite Hutf.
  cbn -[Py.hex path_name fs_write fs_remove symbolize_loop Py.split Py.rstrip].
  unfold close_temp_file, bind. cbn [disk]. rewrite fs_exists_write.
  reflexivity.
Qed.

Lemma finish_root a r bt :
  well_formed_root a r ->
  finish_record a (rr_function r) (rr_filename r ++ ":" ++ rr_line r) bt
  = inr (bt ++ [root_entry a r])%list.
Proof.
  intros W. unfold finish_record.
  change (rr_filename r ++ ":" ++ rr_line r)
    with (rr_filename r ++ String ":" (rr_line r)).
  rewrite (rsplit1_app _ _ _ (wf_line_colon a r W)).
  pose proof (wf_filename a r W) as Hs. unfold is_sentinel in Hs. rewrite Hs.
  rewrite (wf_lineno a r W). reflexivity.
Qed.










(** C10: on the empty address list [symbolize] returns the empty list
    and leaves the world as it was; in particular it starts no process. *)
Theorem symbolize_no_addresses os self library w :
  symbolize os self library [] w = (inr [], w)
  /\ spawned (snd (symbolize os self library [] w)) = spawned w.
Proof. split; reflexivity. Qed.





Lemma is_sentinel_false name :
  is_sentinel name = false -> name <> "??" /\ name <> "<synthesized>".
Proof.
  unfold is_sentinel. intros H. apply orb_false_elim in H as [H1 H2].
  apply String.eqb_neq in H1, H2. split; assumption.
Qed.

Lemma finish_record_resolved a f loc bt bt' :
  finish_record a f loc bt = inr bt' ->
  Forall resolved bt -> Forall resolved bt'.
Proof.
  unfold finish_record. intros H Hbt.
  destruct (Py.rsplit1 ":" loc) as [[name ln]|]; [|discriminate].
  destruct (String.eqb name "??" || String.eqb name "<synthesized>") eqn:Es.
  - inversion H; subst. exact Hbt.
  - destruct (Py.int 10 ln) as [n|]; [|discriminate].
    inversion H; subst. apply Forall_app. split; [exact Hbt|].
    constructor; [|constructor]. apply is_sentinel_false, Es.
Qed.

(** The loop keeps the backtrace free of sentinel file names. *)
Lemma loop_resolved (n : nat) : forall lines bt bt',
  (List.length lines <= n)%nat ->
  symbolize_loop lines bt = inr bt' ->
  Forall resolved bt -> Forall resolved bt'.
Proof.
  induction n as [|n IH]; intros lines bt bt' Hlen H Hbt.
  - destruct lines; [|simpl in Hlen; lia]. inversion H; subst. exact Hbt.
  - destruct lines as [|l rest]; [inversion H; subst; exact Hbt|].
    cbn [symbolize_loop] in H.
    destruct (String.eqb (Py.take 2 l) "0x").
    + destruct (Py.int 16 (Py.drop 2 l)) as [a|]; [|discriminate].
      destruct rest as [|f [|loc rest']]; try discriminate.
      destruct (finish_record (a + 1) f loc bt) as [e|bt1] eqn:E; [discriminate|].
      apply (IH rest' bt1 bt'); [simpl in Hlen; lia | exact H |].
      apply (finish_record_resolved _ _ _ _ _ E Hbt).
    + destruct (last_item bt) as [previous|]; [|discriminate].
      destruct rest as [|loc rest']; [discriminate|].
      destruct (finish_record (address previous) l loc bt) as [e|bt1] eqn:E;
        [discriminate|].
      apply (IH rest' bt1 bt'); [simpl in Hlen; lia | exact H |].
      apply (finish_record_resolved _ _ _ _ _ E Hbt).
Qed.

Lemma symbolize_body_returns results w1 bt :
  fst ((out <- lift (stdout_text results) ;;
        lift (symbolize_loop (Py.split newline (Py.rstrip out)) [])) w1)
  = inr bt ->
  exists out, symbolize_loop (Py.split newline (Py.rstrip out)) [] = inr bt.
Proof.
  unfold bind, lift. destruct (stdout_text results) as [e|out]; [discriminate|].
  simpl. intros H. exists out. exact H.
Qed.

(** C6: no entry of a backtrace that [symbolize] returns has the file
    name ["??"] or ["<synthesized>"]; and when the only record of the
    output has such a file name the result is empty, although one address
    was given. *)
Theorem symbolize_drops_sentinels :
  (forall os self library addresses w backtrace w',
     symbolize os self library addresses w = (inr backtrace, w') ->
     Forall resolved backtrace)
  /\ (forall os self library A w cmdline out address_line function_line name ln,
        Py.valid_utf8 out = true ->
        resolver_run os self library [A] w cmdline out ->
        Py.split newline (Py.rstrip out)
        = [address_line; function_line; name ++ ":" ++ ln] ->
        Py.take 2 address_line = "0x" ->
        Py.int 16 (Py.drop 2 address_line) <> None ->
        contains ":" ln = false ->
        name = "??" \/ name = "<synthesized>" ->
        fst (symbolize os self library [A] w) = inr []).
Proof.
  split.
  - intros os self library addresses w backtrace w' H.
    destruct addresses as [|a addresses].
    + inversion H; subst. constructor.
    + unfold symbolize in H.
      apply with_returns in H as (results & w1 & H).
      apply symbolize_body_returns in H as (out & H).
      apply (loop_resolved _ _ [] backtrace (le_n _) H). constructor.
  - intros os self library A w cmdline out al fl name ln
           Hutf Hrun Hlines Hp Ha Hc Hn.
    rewrite (symbolize_run os self library [A] w cmdline out); try assumption;
      [|discriminate].
    rewrite Hlines. cbn [fst symbolize_loop]. rewrite Hp.
    cbn [String.eqb Ascii.eqb Bool.eqb].
    destruct (Py.int 16 (Py.drop 2 al)) as [a|]; [|congruence].
    unfold finish_record.
    change (name ++ ":" ++ ln) with (name ++ String ":" ln).
    rewrite (rsplit1_app _ _ _ Hc).
    destruct Hn as [-> | ->]; reflexivity.
Qed.

Lemma symbolize_drops_sentinels_witness :
  let only := "0x00001003" ++ nl ++ "??" ++ nl ++ "??:0" ++ nl in
  let mixed := "0x1003" ++ nl ++ "foo" ++ nl ++ "main.c:10" ++ nl
               ++ "0x2007" ++ nl ++ "bar" ++ nl ++ "<synthesized>:0" ++ nl in
  fst (symbolize (fixed_tool 0 only "") OR1KTarget "ELF" [0x1004] empty_world)
  = inr []
  /\ Forall resolved [mkEntry "main.c" 10 (-1) "foo" 0x1004].
Proof.
  intros only mixed. split.
  - refine (proj2 symbolize_drops_sentinels
              (fixed_tool 0 only "") OR1KTarget "ELF" 0x1004 empty_world
              (addr2line_cmdline OR1KTarget "/tmp/tmp0" [0x1004]) only
              "0x00001003" "??" "??" "0" _ _ _ _ _ _ _).
    + reflexivity.
    + split; [reflexivity | exists ""; reflexivity].
    + reflexivity.
    + reflexivity.
    + discriminate.
    + reflexivity.
    + left. reflexivity.
  - refine (proj1 symbolize_drops_sentinels
              (fixed_tool 0 mixed "") OR1KTarget "ELF" [0x1004; 0x2008]
              empty_world _ _ _).
    reflexivity.
Defined.

(** Root records that are dropped leave the loop where it started. *)
Lemma loop_dropped records :
  Forall dropped_root records ->
  forall rest,
    symbolize_loop (resolver_lines records ++ rest) []
    = symbolize_loop rest [].
Proof.
  induction 1 as [|r records D _ IH]; intros rest; [reflexivity|].
  unfold resolver_lines. cbn [flat_map record_lines app symbolize_loop].
  rewrite (dr_prefix r D). cbn [String.eqb Ascii.eqb Bool.eqb].
  destruct (Py.int 16 (Py.drop 2 (rr_address r))) as [a|] eqn:Ea;
    [|destruct (dr_address r D Ea)].
  unfold finish_record.
  change (rr_filename r ++ ":" ++ rr_line r)
    with (rr_filename r ++ String ":" (rr_line r)).
  rewrite (rsplit1_app _ _ _ (dr_line_colon r D)).
  pose proof (dr_filename r D) as Hs. unfold is_sentinel in Hs. rewrite Hs.
  apply IH.
Qed.

(** C7: when the lines of the resolver output are root records that are
    all dropped for their sentinel file names (possibly none), followed by
    a line that does not start with ["0x"], [symbolize] reads the last
    entry of the still empty backtrace and fails with [IndexError]. *)
Theorem symbolize_inlined_without_entry
    os self library addresses w cmdline out dropped first rest :
  addresses <> [] ->
  Py.valid_utf8 out = true ->
  resolver_run os self library addresses w cmdline out ->
  Py.split newline (Py.rstrip out)
  = (resolver_lines dropped ++ first :: rest)%list ->
  Forall dropped_root dropped ->
  Py.take 2 first <> "0x" ->
  fst (symbolize os self library addresses w) = inl IndexError.
Proof.
  intros Hne Hutf Hrun Hlines Hd Hfirst.
  rewrite (symbolize_run os self library addresses w cmdline out) by assumption.
  rewrite Hlines, (loop_dropped _ Hd).
  cbn [fst symbolize_loop].
  apply String.eqb_neq in Hfirst. rewrite Hfirst. reflexivity.
Qed.

Lemma symbolize_inlined_without_entry_witness :
  fst (symbolize (fixed_tool 0 ("inlined_fn" ++ nl ++ "main.c:10" ++ nl) "")
                 OR1KTarget "ELF" [0x1004] empty_world) = inl IndexError
  /\ fst (symbolize
            (fixed_tool 0 ("0x1003" ++ nl ++ "??" ++ nl ++ "??:0" ++ nl
                           ++ "inlined_fn" ++ nl ++ "main.c:10" ++ nl) "")
            OR1KTarget "ELF" [0x1004] empty_world) = inl IndexError.
Proof.
  split.
  - refine (symbolize_inlined_without_entry
              (fixed_tool 0 ("inlined_fn" ++ nl ++ "main.c:10" ++ nl) "")
              OR1KTarget "ELF" [0x1004] empty_world
              (addr2line_cmdline OR1KTarget "/tmp/tmp0" [0x1004])
              ("inlined_fn" ++ nl ++ "main.c:10" ++ nl)
              [] "inlined_fn" ["main.c:10"] _ _ _ _ _ _).
    + discriminate.
    + reflexivity.
    + split; [reflexivity | exists ""; reflexivity].
    + reflexivity.
    + constructor.
    + discriminate.
  - refine (symbolize_inlined_without_entry
              (fixed_tool 0 ("0x1003" ++ nl ++ "??" ++ nl ++ "??:0" ++ nl
                             ++ "inlined_fn" ++ nl ++ "main.c:10" ++ nl) "")
              OR1KTarget "ELF" [0x1004] empty_world
              (addr2line_cmdline OR1KTarget "/tmp/tmp0" [0x1004])
              ("0x1003" ++ nl ++ "??" ++ nl ++ "??:0" ++ nl
               ++ "inlined_fn" ++ nl ++ "main.c:10" ++ nl)
              [mkRoot "0x1003" "??" "??" "0" 0] "inlined_fn" ["main.c:10"]
              _ _ _ _ _ _).
    + discriminate.
    + reflexivity.
    + split; [reflexivity | exists ""; reflexivity].
    + reflexivity.
    + constructor; [|constructor]. constructor; try reflexivity. discriminate.
    + discriminate.
Defined.

(** An empty resolver output is one empty line, which is no address. *)
Example symbolize_empty_output :
  fst (symbolize (fixed_tool 0 "" "") OR1KTarget "ELF" [0x1004] empty_world)
  = inl IndexError.
Proof. reflexivity. Qed.

(** ** [Target.demangle] *)

Lemma ends_graphic_join (sep : str) (parts : list str) (p : str) :
  ends_graphic p = true -> ends_graphic (Py.join sep (parts ++ [p])) = true.
Proof.
  intros Hp. induction parts as [|q rest IH]; [exact Hp|].
  simpl. destruct (rest ++ [p])%list eqn:E.
  - destruct rest; discriminate.
  - rewrite <- E in *. apply ends_graphic_app, ends_graphic_app, IH.
Qed.

(** With names the demangler can be given as they are, and a demangler
    that prints one line per name, the last of which ends with a graphic
    character, [demangle] returns these lines. *)
Lemma demangle_lines os self names w earlier final err :
  brace_free (triple self) = true ->
  Forall (fun s => brace_free s = true) names ->
  Forall (fun p => contains newline p = false) (earlier ++ [final]) ->
  ends_graphic final = true ->
  Py.valid_utf8 (Py.join nl (earlier ++ [final]) ++ nl) = true ->
  popen os ((triple self ++ "-c++filt")%string :: names) (disk w)
  = inr (mkCompleted 0 (Py.join nl (earlier ++ [final]) ++ nl) err (disk w)) ->
  fst (demangle os self names w) = inr (earlier ++ [final])%list.
Proof.
  intros Ht Hnames Hplain Hend Hutf Hrun.
  unfold demangle, RunTool.with_, RunTool.__enter__, RunTool.__init__.
  cbn -[PyFormat.format RunTool.format_all].
  rewrite (format_all_plain [] ((triple self ++ "-c++filt")%string :: names))
    by (constructor;
        [apply brace_free_app; [exact Ht | reflexivity] | exact Hnames]).
  unfold bind at 1, communicate. cbn [disk]. rewrite Hrun.
  cbn -[Py.split Py.rstrip Py.join Py.valid_utf8].
  unfold decode_utf8. rewrite Hutf.
  cbn -[Py.split Py.rstrip Py.join].
  rewrite rstrip_newline, (rstrip_graphic _ (ends_graphic_join nl _ _ Hend)).
  rewrite split_join; [reflexivity | destruct earlier; discriminate | exact Hplain].
Qed.

Lemma demangle_not_nil os self names w :
  fst (demangle os self names w) <> inr [].
Proof.
  destruct (demangle os self names w) as [[e|r] w'] eqn:E; [discriminate|].
  simpl. intros H. inversion H; subst.
  unfold demangle in E. apply with_returns in E as (results & w1 & E).
  unfold bind, lift, ret in E.
  destruct (stdout_text results) as [e|out]; [discriminate|].
  simpl in E. inversion E as [E']. apply (split_not_nil _ _ E').
Qed.

(** C8 (the code departs from the claim): for the empty list of names
    [demangle] never returns the empty list, whatever the demangler does:
    the text it splits has at least one line.  With a demangler that
    prints nothing the result is the list of one empty name. *)
Theorem demangle_no_names :
  (forall os self w, fst (demangle os self [] w) <> inr [])
  /\ fst (demangle (fixed_tool 0 "" "") OR1KTarget [] empty_world) = inr [""].
Proof.
  split; [|reflexivity].
  intros os self w. apply demangle_not_nil.
Qed.

(** ** [RunTool]: the temporary files *)

Lemma temp_files_length first count :
  List.length (temp_files first count) = count.
Proof. revert first. induction count; intros; simpl; congruence. Qed.

Lemma temp_files_in first count f :
  In f (temp_files first count) <->
  exists i, f = Temp i "" /\ (first <= i < first + N.of_nat count)%N.
Proof.
  revert first. induction count as [|count IH]; intros first; simpl.
  - split; [intros [] | intros (i & _ & H); lia].
  - rewrite IH. split.
    + intros [<- | (i & -> & H)].
      * exists first. split; [reflexivity | lia].
      * exists i. split; [reflexivity | lia].
    + intros (i & -> & H).
      destruct (N.eq_dec i first) as [-> | Hne]; [left; reflexivity|].
      right. exists i. split; [reflexivity | lia].
Qed.

Lemma temp_files_nodup first count : NoDup (temp_files first count).
Proof.
  revert first. induction count as [|count IH]; intros first; simpl;
    constructor; [|apply IH].
  rewrite temp_files_in. intros (i & E & H). inversion E; subst. lia.
Qed.

(** The loop of [__enter__] over the keys: one new file per key. *)
Lemma make_temps_run : forall keys datas self tempfiles tempnames w,
  Forall2 (fun k d => dict_get (RunTool.tempdata self) k = Some d) keys datas ->
  let temps := temp_files (next_temp w) (List.length keys) in
  RunTool.make_temps self keys tempfiles tempnames w
  = (inr (RunTool.mk (RunTool.files self ++ temps) (RunTool.pattern self)
                     (RunTool.tempdata self),
          dict_set_all tempfiles keys (map File temps),
          dict_set_all tempnames keys (map path_name temps)),
     mkWorld (write_temps (disk w) (next_temp w) datas)
             (next_temp w + N.of_nat (List.length keys))
             (stderr w) (spawned w)).
Proof.
  induction keys as [|key keys IH]; intros datas self tf tn w H.
  - inversion H; subst. simpl. rewrite app_nil_r, N.add_0_r.
    destruct self, w; reflexivity.
  - inversion H as [|? data ? datas' Hkey Hrest]; subst.
    cbn [RunTool.make_temps]. rewrite Hkey.
    unfold bind at 1. cbn [RunTool.maketemp].
    unfold RunTool.maketemp, bind, new_temp_file, ret. cbn [fst snd].
    rewrite (IH datas'); [|exact Hrest].
    cbn [RunTool.files RunTool.pattern RunTool.tempdata disk next_temp stderr
         spawned List.length temp_files map dict_set_all write_temps].
    rewrite <- app_assoc. cbn [app].
    f_equal. f_equal. lia.
Qed.

Lemma fs_lookup_write fs p data q :
  fs_lookup (fs_write fs p data) q
  = if path_eqb p q then Some data else fs_lookup fs q.
Proof.
  unfold fs_write. cbn [fs_lookup]. rewrite fs_lookup_remove.
  destruct (path_eqb p q); reflexivity.
Qed.

Lemma fs_exists_write_kept fs p data q :
  fs_exists fs q = true -> fs_exists (fs_write fs p data) q = true.
Proof.
  unfold fs_exists. rewrite fs_lookup_write.
  destruct (path_eqb p q); [reflexivity | auto].
Qed.

Lemma write_temps_other : forall datas fs first q,
  (forall i, q = Temp i "" ->
             ~ (first <= i < first + N.of_nat (List.length datas))%N) ->
  fs_lookup (write_temps fs first datas) q = fs_lookup fs q.
Proof.
  induction datas as [|data datas IH]; intros fs first q H; [reflexivity|].
  cbn [write_temps]. rewrite IH.
  - rewrite fs_lookup_write.
    destruct (path_eqb (Temp first "") q) eqn:E; [|reflexivity].
    apply path_eqb_eq in E. exfalso. apply (H first (eq_sym E)).
    cbn [List.length]. lia.
  - intros i Hq Hi. apply (H i Hq). cbn [List.length]. lia.
Qed.

Lemma write_temps_nth : forall datas fs first i data,
  nth_error datas i = Some data ->
  fs_lookup (write_temps fs first datas) (Temp (first + N.of_nat i) "")
  = Some data.
Proof.
  induction datas as [|d datas IH]; intros fs first i data H.
  - destruct i; discriminate.
  - destruct i as [|i]; cbn [write_temps nth_error] in *.
    + inversion H; subst. rewrite write_temps_other.
      * rewrite fs_lookup_write. rewrite N.add_0_r, path_eqb_refl. reflexivity.
      * intros j E. inversion E; subst. lia.
    + replace (first + N.of_nat (S i))%N with (N.succ first + N.of_nat i)%N
        by lia.
      apply IH, H.
Qed.

Lemma dict_set_all_other {V} : forall keys (values : list V) d k,
  ~ In k keys -> dict_get (dict_set_all d keys values) k = dict_get d k.
Proof.
  induction keys as [|key keys IH]; intros values d k H; [reflexivity|].
  destruct values as [|v values]; [reflexivity|].
  cbn [dict_set_all]. rewrite IH by (intros Hin; apply H; right; exact Hin).
  apply dict_get_set_neq. intros ->. apply H. left. reflexivity.
Qed.

Lemma dict_set_all_nth {V} : forall keys (values : list V) d i k v,
  NoDup keys ->
  nth_error keys i = Some k ->
  nth_error values i = Some v ->
  dict_get (dict_set_all d keys values) k = Some v.
Proof.
  induction keys as [|key keys IH]; intros values d i k v Hnd Hk Hv.
  - destruct i; discriminate.
  - inversion Hnd as [|? ? Hnotin Hnd']; subst.
    destruct values as [|v0 values]; [destruct i; discriminate|].
    destruct i as [|i]; cbn [nth_error dict_set_all] in *.
    + inversion Hk; inversion Hv; subst.
      rewrite dict_set_all_other by exact Hnotin. apply dict_get_set_eq.
    + apply (IH values _ i k v Hnd' Hk Hv).
Qed.

Lemma temp_files_nth : forall count first i,
  (i < count)%nat ->
  nth_error (temp_files first count) i = Some (Temp (first + N.of_nat i) "").
Proof.
  induction count as [|count IH]; intros first i H; [lia|].
  destruct i as [|i]; cbn [temp_files nth_error].
  - rewrite N.add_0_r. reflexivity.
  - rewrite IH by lia. do 2 f_equal. lia.
Qed.

(** In a dictionary every key is bound to its value. *)
Lemma dict_items {V} (d : dict V) :
  NoDup (dict_keys d) ->
  Forall2 (fun k v => dict_get d k = Some v) (dict_keys d) (map snd d).
Proof.
  unfold dict_keys. induction d as [|[k v] d IH]; intros Hnd; [constructor|].
  inversion Hnd as [|? ? Hnotin Hnd']; subst. cbn [map fst snd].
  constructor.
  - cbn [dict_get]. rewrite String.eqb_refl. reflexivity.
  - specialize (IH Hnd').
    assert (Hin : Forall (fun k' => In k' (map fst d)) (map fst d))
      by (apply Forall_forall; auto).
    revert IH Hin. generalize (map fst d) at 1 3 4. generalize (map snd d).
    intros vs ks IH. induction IH as [|k' v' ks vs Hk' _ IH2]; intros Hin;
      constructor.
    + cbn [dict_get]. inversion Hin; subst.
      destruct (String.eqb k k') eqn:E; [|exact Hk'].
      apply String.eqb_eq in E. subst. contradiction.
    + apply IH2. inversion Hin; assumption.
Qed.

Lemma dict_get_index {V} (d : dict V) k v :
  NoDup (dict_keys d) ->
  dict_get d k = Some v ->
  exists i, nth_error (dict_keys d) i = Some k
            /\ nth_error (map snd d) i = Some v.
Proof.
  unfold dict_keys. induction d as [|[k0 v0] d IH]; intros Hnd H; [discriminate|].
  cbn [dict_get] in H. destruct (String.eqb k0 k) eqn:E.
  - apply String.eqb_eq in E. inversion H; subst. exists 0%nat. split; reflexivity.
  - inversion Hnd; subst. destruct (IH ltac:(assumption) H) as (i & Hk & Hv).
    exists (S i). split; assumption.
Qed.

(** X1: the loop of [__enter__] over the temporary data returns, and it
    makes one temporary file per key, all of them distinct: under each key
    the dictionary of handles holds the file and the dictionary of names
    its name, the file is among the files of the runner and holds the data
    given for the key; the file was not on disk before, when no temporary
    name still to be handed out was in use; no process is started. *)
Theorem enter_temp_files pattern (tempdata : dict bytes) w :
  NoDup (dict_keys tempdata) ->
  exists self tempfiles tempnames w1,
    RunTool.make_temps (RunTool.__init__ pattern tempdata) (dict_keys tempdata)
                       [] [] w
    = (inr (self, tempfiles, tempnames), w1)
    /\ NoDup (RunTool.files self)
    /\ spawned w1 = spawned w
    /\ forall key data,
         dict_get tempdata key = Some data ->
         exists f,
           dict_get tempfiles key = Some (File f)
           /\ dict_get tempnames key = Some (path_name f)
           /\ In f (RunTool.files self)
           /\ fs_lookup (disk w1) f = Some data
           /\ (temps_unused w -> fs_lookup (disk w) f = None).
Proof.
  intros Hnd.
  pose proof (make_temps_run (dict_keys tempdata) (map snd tempdata)
                (RunTool.__init__ pattern tempdata) [] [] w (dict_items _ Hnd))
    as Hrun.
  cbv zeta in Hrun.
  eexists. eexists. eexists. eexists. split; [exact Hrun|].
  cbn [RunTool.files RunTool.__init__ app disk spawned].
  split; [apply temp_files_nodup|]. split; [reflexivity|].
  intros key data Hget.
  destruct (dict_get_index _ _ _ Hnd Hget) as (i & Hk & Hv).
  assert (Hi : (i < List.length (dict_keys tempdata))%nat)
    by (apply nth_error_Some; congruence).
  pose proof (temp_files_nth _ (next_temp w) i Hi) as Hf.
  exists (Temp (next_temp w + N.of_nat i) "").
  split; [|split; [|split; [|split]]].
  - apply (dict_set_all_nth _ _ _ i); [exact Hnd | exact Hk |].
    rewrite nth_error_map, Hf. reflexivity.
  - apply (dict_set_all_nth _ _ _ i); [exact Hnd | exact Hk |].
    rewrite nth_error_map, Hf. reflexivity.
  - apply nth_error_In with i. exact Hf.
  - apply write_temps_nth, Hv.
  - intros Hw. apply Hw. lia.
Qed.

Lemma enter_temp_files_witness :
  exists self tempfiles tempnames w1,
    RunTool.make_temps (RunTool.__init__ strip_pattern strip_tempdata)
                       (dict_keys strip_tempdata) [] [] empty_world
    = (inr (self, tempfiles, tempnames), w1)
    /\ NoDup (RunTool.files self)
    /\ spawned w1 = spawned empty_world
    /\ forall key data,
         dict_get strip_tempdata key = Some data ->
         exists f,
           dict_get tempfiles key = Some (File f)
           /\ dict_get tempnames key = Some (path_name f)
           /\ In f (RunTool.files self)
           /\ fs_lookup (disk w1) f = Some data
           /\ (temps_unused empty_world -> fs_lookup (disk empty_world) f = None).
Proof.
  apply (enter_temp_files strip_pattern strip_tempdata empty_world).
  repeat constructor; simpl; intuition discriminate.
Defined.

(** What [__enter__] returns when it returns: the runner after the loop
    over the keys. *)
Lemma enter_returns os pattern tempdata w self results w1 :
  NoDup (dict_keys tempdata) ->
  RunTool.__enter__ os (RunTool.__init__ pattern tempdata) w
  = (inr (self, results), w1) ->
  RunTool.files self
  = temp_files (next_temp w) (List.length (dict_keys tempdata)).
Proof.
  intros Hnd H. unfold RunTool.__enter__ in H. unfold bind at 1 in H.
  change (RunTool.tempdata (RunTool.__init__ pattern tempdata))
    with tempdata in H.
  rewrite (make_temps_run (dict_keys tempdata) (map snd tempdata)
             (RunTool.__init__ pattern tempdata) [] [] w (dict_items _ Hnd)) in H.
  cbv zeta in H. cbn [RunTool.files RunTool.__init__ app RunTool.pattern] in H.
  unfold bind at 1, lift at 1 in H.
  destruct (RunTool.format_all pattern _) as [e|cmdline]; [discriminate|].
  unfold bind at 1, communicate in H.
  cbn [disk] in H.
  destruct (popen os cmdline _) as [e|c]; [discriminate|].
  destruct (negb (returncode c =? 0)).
  - destruct cmdline; [discriminate|].
    unfold bind, lift, raise in H.
    destruct (decode_utf8 (stderr_out c)); discriminate.
  - unfold bind, lift, ret in H.
    destruct (decode_utf8 (stdout c)); [discriminate|].
    inversion H; subst. reflexivity.
Qed.

(** X2: once [__enter__] has returned, the [with] statement ends with
    the outcome of its body, a value or an exception, and on the way out
    removes the temporary files of the runner, provided they are still on
    disk, and nothing else: every other file, the diagnostics and the log
    of processes are as the body left them. *)
Theorem with_closes_temp_files {A} os pattern tempdata
    (body : dict value -> M A) w self results w1 outcome w2 :
  NoDup (dict_keys tempdata) ->
  RunTool.__enter__ os (RunTool.__init__ pattern tempdata) w
  = (inr (self, results), w1) ->
  body results w1 = (outcome, w2) ->
  (forall f, In f (RunTool.files self) -> fs_exists (disk w2) f = true) ->
  exists w3,
    RunTool.with_ os pattern tempdata body w = (outcome, w3)
    /\ (forall f, In f (RunTool.files self) -> fs_exists (disk w3) f = false)
    /\ (forall p, ~ In p (RunTool.files self) ->
                  fs_lookup (disk w3) p = fs_lookup (disk w2) p)
    /\ stderr w3 = stderr w2
    /\ spawned w3 = spawned w2.
Proof.
  intros Hnd Henter Hbody Hex.
  assert (Hfiles : NoDup (RunTool.files self)).
  { rewrite (enter_returns _ _ _ _ _ _ _ Hnd Henter). apply temp_files_nodup. }
  destruct (close_all_removes _ w2 Hfiles Hex)
    as (w3 & Hclose & Hgone & Hkept & Herr & Hsp).
  exists w3. split; [|repeat split; assumption].
  unfold RunTool.with_. rewrite Henter, Hbody.
  unfold RunTool.__exit__. rewrite Hclose. reflexivity.
Qed.

Lemma with_closes_temp_files_witness :
  exists w3,
    RunTool.with_ (fixed_tool 0 "" "") strip_pattern strip_tempdata
      (fun _ => @raise unit ValueError) empty_world
    = (inl ValueError, w3)
    /\ (forall f, In f [Temp 0 ""; Temp 1 ""] -> fs_exists (disk w3) f = false)
    /\ (forall p, ~ In p [Temp 0 ""; Temp 1 ""] ->
                  fs_lookup (disk w3) p
                  = fs_lookup [(Temp 1 "", ""); (Temp 0 "", "ELF")] p)
    /\ stderr w3 = []
    /\ spawned w3
       = [["or1k-linux-strip"; "--strip-debug"; "/tmp/tmp0"; "-o"; "/tmp/tmp1"]].
Proof.
  refine (with_closes_temp_files (fixed_tool 0 "" "") strip_pattern
            strip_tempdata (fun _ => @raise unit ValueError) empty_world
            strip_entered
            [("library", File (Temp 0 "")); ("output", File (Temp 1 ""));
             ("__stdout__", Text "")]
            (mkWorld [(Temp 1 "", ""); (Temp 0 "", "ELF")] 2 []
               [["or1k-linux-strip"; "--strip-debug"; "/tmp/tmp0"; "-o";
                 "/tmp/tmp1"]])
            (inl ValueError)
            (mkWorld [(Temp 1 "", ""); (Temp 0 "", "ELF")] 2 []
               [["or1k-linux-strip"; "--strip-debug"; "/tmp/tmp0"; "-o";
                 "/tmp/tmp1"]])
            _ _ _ _).
  - repeat constructor; simpl; intuition discriminate.
  - reflexivity.
  - reflexivity.
  - intros f [<- | [<- | []]]; reflexivity.
Defined.

(** ** [RunTool]: placeholders without data *)

Lemma append_assoc (a b c : str) : (a ++ b) ++ c = a ++ (b ++ c).
Proof. induction a; simpl; congruence. Qed.

Lemma scan_field names : forall key acc rest,
  field_name key = true ->
  PyFormat.scan names (key ++ String "}" rest) (Some acc)
  = PyFormat.prepend_field names (acc ++ key) (PyFormat.scan names rest None).
Proof.
  induction key as [|c key IH]; intros acc rest H.
  - cbn [append PyFormat.scan]. rewrite Ascii.eqb_refl, append_nil_r. reflexivity.
  - cbn [field_name] in H. apply andb_prop in H as [Hc Hkey].
    unfold field_char in Hc. apply negb_true_iff, orb_false_elim in Hc as [H1 H3].
    apply orb_false_elim in H1 as [H1 H2].
    cbn [append PyFormat.scan]. rewrite H1, H2, H3.
    rewrite (IH _ _ Hkey), append_assoc. reflexivity.
Qed.

Lemma field_char_not_brace c :
  field_char c = true -> Ascii.eqb c "{" = false.
Proof.
  unfold field_char.
  intros H. apply negb_true_iff, orb_false_elim in H as [H _].
  apply orb_false_elim in H as [_ H]. exact H.
Qed.

(** A template that is one replacement field is filled in with the value
    under the name of the field, or fails with the error of a name that is
    not there. *)
Lemma format_placeholder names key :
  field_name key = true ->
  PyFormat.format ("{" ++ key ++ "}") names = PyFormat.field_value names key.
Proof.
  intros H. unfold PyFormat.format.
  assert (E : PyFormat.scan names (String "{" (key ++ "}")) None
              = PyFormat.scan names (key ++ "}") (Some "")).
  { destruct key as [|c key]; [reflexivity|].
    cbn [field_name] in H. apply andb_prop in H as [Hc _].
    apply field_char_not_brace in Hc.
    cbn [append]. cbn [PyFormat.scan]. cbn [Ascii.eqb Bool.eqb].
    destruct c as [[] [] [] [] [] [] [] []]; try reflexivity; discriminate. }
  change ("{" ++ key ++ "}") with (String "{" (key ++ "}")).
  rewrite E, (scan_field names key "" "" H).
  unfold PyFormat.prepend_field. cbn [append PyFormat.scan].
  destruct (PyFormat.field_value names key) as [e|v]; [reflexivity|].
  rewrite append_nil_r. reflexivity.
Qed.

(** A name that is ASCII and no number, and that is no keyword. *)
Lemma field_value_missing names key :
  Py.isascii key = true ->
  PyFormat.all_digits key = false ->
  dict_get names key = None ->
  PyFormat.field_value names key = inl (KeyError key).
Proof.
  intros Ha Hd Hm. unfold PyFormat.field_value. rewrite Ha, Hd, Hm. reflexivity.
Qed.

Lemma format_all_plain_app names front rest :
  Forall (fun s => brace_free s = true) front ->
  RunTool.format_all (front ++ rest) names
  = match RunTool.format_all rest names with
    | inl e => inl e
    | inr cmdline => inr (front ++ cmdline)%list
    end.
Proof.
  induction 1 as [|s front Hs _ IH]; cbn [app RunTool.format_all].
  - destruct (RunTool.format_all rest names); reflexivity.
  - rewrite (format_plain _ _ Hs), IH.
    destruct (RunTool.format_all rest names); reflexivity.
Qed.

Lemma dict_get_none_keys {V} (d : dict V) k :
  dict_get d k = None -> ~ In k (dict_keys d).
Proof.
  unfold dict_keys. induction d as [|[k0 v0] d IH]; intros H; [intros []|].
  cbn [dict_get] in H. destruct (String.eqb k0 k) eqn:E; [discriminate|].
  apply String.eqb_neq in E. intros [Hk | Hin]; [exact (E Hk) | exact (IH H Hin)].
Qed.

(** X3: an argument of the template that is a replacement field for a
    key without temporary data, where the key is ASCII text that has none
    of the characters [{ } ! : . [ ]] and is no number, makes the [with]
    statement raise [KeyError] with that key when the command line is
    filled in: the body does not run, no process is started and nothing is
    printed. *)
Theorem with_missing_placeholder {A} os front key back (tempdata : dict bytes)
    (body : dict value -> M A) w :
  NoDup (dict_keys tempdata) ->
  Forall (fun s => brace_free s = true) front ->
  field_name key = true ->
  Py.isascii key = true ->
  PyFormat.all_digits key = false ->
  dict_get tempdata key = None ->
  exists w1,
    RunTool.with_ os (front ++ ("{" ++ key ++ "}")%string :: back) tempdata body w
    = (inl (KeyError key), w1)
    /\ spawned w1 = spawned w
    /\ stderr w1 = stderr w.
Proof.
  intros Hnd Hfront Hname Hascii Hdigits Hmissing.
  eexists. split.
  - apply with_enter_raises.
    unfold RunTool.__enter__. unfold bind at 1.
    change (RunTool.tempdata (RunTool.__init__ (front ++ ("{" ++ key ++ "}") :: back)
                                               tempdata))
      with tempdata.
    rewrite (make_temps_run (dict_keys tempdata) (map snd tempdata)
               (RunTool.__init__ (front ++ ("{" ++ key ++ "}") :: back) tempdata)
               [] [] w (dict_items _ Hnd)).
    cbv zeta. cbn [RunTool.pattern RunTool.__init__].
    unfold bind at 1, lift at 1.
    rewrite (format_all_plain_app _ _ _ Hfront).
    cbn [RunTool.format_all]. rewrite (format_placeholder _ _ Hname).
    rewrite (field_value_missing _ _ Hascii Hdigits); [reflexivity|].
    rewrite dict_set_all_other by (apply dict_get_none_keys, Hmissing).
    reflexivity.
  - split; reflexivity.
Qed.

Lemma with_missing_placeholder_witness :
  exists w1,
    RunTool.with_ (fixed_tool 0 "" "")
      (["or1k-linux-strip"; "--strip-debug"] ++ "{library}" :: ["-o"; "{output}"])
      [("output", "")] (fun _ => ret tt) empty_world
    = (inl (KeyError "library"), w1)
    /\ spawned w1 = []
    /\ stderr w1 = [].
Proof.
  refine (with_missing_placeholder (fixed_tool 0 "" "")
            ["or1k-linux-strip"; "--strip-debug"] "library" ["-o"; "{output}"]
            [("output", "")] (fun _ => ret tt) empty_world _ _ _ _ _ _).
  - repeat constructor. simpl. tauto.
  - repeat constructor.
  - reflexivity.
  - reflexivity.
  - reflexivity.
  - reflexivity.
Defined.

(** ** [Target.link] *)

Lemma field_name_uint (d : Decimal.uint) :
  field_name (NilEmpty.string_of_uint d) = true.
Proof. induction d; simpl; try rewrite IHd; reflexivity. Qed.

Lemma field_name_decimal (i : nat) : field_name (decimal i) = true.
Proof.
  unfold decimal, NilZero.string_of_uint.
  destruct (Nat.to_uint i); try apply field_name_uint. reflexivity.
Qed.

Lemma field_name_object_key (i : nat) : field_name (object_key i) = true.
Proof. unfold object_key. cbn. apply field_name_decimal. Qed.

Lemma to_uint_nonnil (i : nat) : Nat.to_uint i <> Decimal.Nil.
Proof.
  rewrite <- (DecimalNat.Unsigned.of_to i) at 1.
  rewrite DecimalNat.Unsigned.to_of. apply DecimalFacts.unorm_nonnil.
Qed.

Lemma decimal_inj (i j : nat) : decimal i = decimal j -> i = j.
Proof.
  unfold decimal. intros H.
  apply DecimalNat.Unsigned.to_uint_inj.
  assert (E : NilZero.uint_of_string (NilZero.string_of_uint (Nat.to_uint i))
              = NilZero.uint_of_string (NilZero.string_of_uint (Nat.to_uint j)))
    by (rewrite H; reflexivity).
  rewrite !NilZero.usu in E by apply to_uint_nonnil.
  congruence.
Qed.

Lemma object_key_inj (i j : nat) : object_key i = object_key j -> i = j.
Proof. unfold object_key. cbn. intros H. inversion H. apply decimal_inj. assumption. Qed.

Lemma object_key_not_output (i : nat) : object_key i <> "output".
Proof. unfold object_key. cbn. discriminate. Qed.

Lemma enumerate_fst {A} (l : list A) : forall start,
  map fst (enumerate start l) = seq start (List.length l).
Proof. induction l as [|x l IH]; intros start; simpl; [|rewrite IH]; reflexivity. Qed.

Lemma enumerate_snd {A} (l : list A) : forall start,
  map snd (enumerate start l) = l.
Proof. induction l as [|x l IH]; intros start; simpl; [|rewrite IH]; reflexivity. Qed.

Lemma link_keys (objects : list bytes) :
  dict_keys (link_tempdata objects)
  = "output" :: map object_key (seq 0 (List.length objects)).
Proof.
  unfold dict_keys, link_tempdata. cbn [map fst]. f_equal.
  rewrite map_map. cbn [fst].
  rewrite <- (enumerate_fst objects 0), map_map. reflexivity.
Qed.

Lemma link_datas (objects : list bytes) :
  map snd (link_tempdata objects) = "" :: objects.
Proof.
  unfold link_tempdata. cbn [map snd]. f_equal.
  rewrite map_map. cbn [snd]. apply enumerate_snd.
Qed.

Lemma nodup_map_injective {A B} (f : A -> B) (l : list A) :
  (forall x y, f x = f y -> x = y) -> NoDup l -> NoDup (map f l).
Proof.
  intros Hf. induction 1 as [|x l Hx _ IH]; cbn [map]; constructor; [|exact IH].
  rewrite in_map_iff. intros (y & E & Hy). apply Hf in E. subst. contradiction.
Qed.

Lemma link_keys_nodup (objects : list bytes) :
  NoDup (dict_keys (link_tempdata objects)).
Proof.
  rewrite link_keys. constructor.
  - rewrite in_map_iff. intros (i & H & _). exact (object_key_not_output i H).
  - apply nodup_map_injective; [apply object_key_inj | apply seq_NoDup].
Qed.

Lemma format_all_values names : forall args values rest,
  Forall2 (fun arg v => PyFormat.format arg names = inr v) args values ->
  RunTool.format_all (args ++ rest) names
  = match RunTool.format_all rest names with
    | inl e => inl e
    | inr cmdline => inr (values ++ cmdline)%list
    end.
Proof.
  induction 1 as [|arg v args values Hv _ IH]; cbn [app RunTool.format_all].
  - destruct (RunTool.format_all rest names); reflexivity.
  - rewrite Hv, IH. destruct (RunTool.format_all rest names); reflexivity.
Qed.

Lemma link_name_output first objects :
  dict_get (link_tempnames first objects) "output"
  = Some (path_name (Temp first "")).
Proof.
  unfold link_tempnames.
  apply (dict_set_all_nth _ _ _ 0%nat); [apply link_keys_nodup | |].
  - rewrite link_keys. reflexivity.
  - reflexivity.
Qed.

Lemma link_name_object first objects i :
  (i < List.length objects)%nat ->
  dict_get (link_tempnames first objects) (object_key i)
  = Some (path_name (Temp (N.succ first + N.of_nat i) "")).
Proof.
  intros Hi. unfold link_tempnames.
  apply (dict_set_all_nth _ _ _ (S i)); [apply link_keys_nodup | |].
  - rewrite link_keys. cbn [nth_error].
    rewrite nth_error_map, nth_error_seq.
    destruct (Nat.ltb_spec i (List.length objects)); [reflexivity | lia].
  - cbn [temp_files map nth_error].
    rewrite nth_error_map, temp_files_nth by exact Hi. reflexivity.
Qed.

Lemma isascii_uint (d : Decimal.uint) :
  Py.isascii (NilEmpty.string_of_uint d) = true.
Proof. induction d; simpl; try rewrite IHd; reflexivity. Qed.

Lemma isascii_decimal (i : nat) : Py.isascii (decimal i) = true.
Proof.
  unfold decimal, NilZero.string_of_uint.
  destruct (Nat.to_uint i); try apply isascii_uint. reflexivity.
Qed.

(** The key of an object is a keyword: ASCII and no number. *)
Lemma field_value_object_key names i v :
  dict_get names (object_key i) = Some v ->
  PyFormat.field_value names (object_key i) = inr v.
Proof.
  intros H. unfold PyFormat.field_value.
  replace (Py.isascii (object_key i)) with true
    by (symmetry; unfold object_key; cbn; apply isascii_decimal).
  rewrite H. reflexivity.
Qed.

Lemma link_format self first objects :
  brace_free (triple self) = true ->
  RunTool.format_all (link_pattern self objects) (link_tempnames first objects)
  = inr (ld_cmdline self first (List.length objects)).
Proof.
  intros Ht. unfold link_pattern, ld_cmdline.
  rewrite format_all_plain_app.
  2:{ repeat constructor. apply brace_free_app; [exact Ht | reflexivity]. }
  rewrite (format_all_values _ _
             (map path_name (temp_files (N.succ first) (List.length objects)))).
  - cbn [RunTool.format_all].
    rewrite (format_plain _ "-o") by reflexivity.
    rewrite (format_placeholder _ "output") by reflexivity.
    unfold PyFormat.field_value. rewrite link_name_output. reflexivity.
  - assert (G : forall n start offset,
               (start + n <= List.length objects)%nat ->
               offset = (N.succ first + N.of_nat start)%N ->
               Forall2 (fun arg v =>
                          PyFormat.format arg (link_tempnames first objects) = inr v)
                       (map object_placeholder (seq start n))
                       (map path_name (temp_files offset n))).
    { induction n as [|n IH]; intros start offset Hle ->; [constructor|].
      cbn [seq map temp_files]. constructor.
      - change (object_placeholder start) with ("{" ++ object_key start ++ "}").
        rewrite format_placeholder by apply field_name_object_key.
        apply field_value_object_key, link_name_object. lia.
      - apply IH; lia. }
    apply (G (List.length objects) 0%nat); [lia | lia].
Qed.

Lemma link_make_temps self objects w :
  RunTool.make_temps
    (RunTool.__init__ (link_pattern self objects) (link_tempdata objects))
    (dict_keys (link_tempdata objects)) [] [] w
  = (inr (RunTool.mk (temp_files (next_temp w) (S (List.length objects)))
                     (link_pattern self objects) (link_tempdata objects),
          dict_set_all [] (dict_keys (link_tempdata objects))
            (map File (temp_files (next_temp w) (S (List.length objects)))),
          link_tempnames (next_temp w) objects),
     mkWorld (write_temps (disk w) (next_temp w) ("" :: objects))
             (next_temp w + N.of_nat (S (List.length objects)))
             (stderr w) (spawned w)).
Proof.
  pose proof (make_temps_run (dict_keys (link_tempdata objects))
                (map snd (link_tempdata objects))
                (RunTool.__init__ (link_pattern self objects)
                                  (link_tempdata objects))
                [] [] w (dict_items _ (link_keys_nodup objects))) as H.
  cbv zeta in H. rewrite H. clear H.
  assert (L : List.length (dict_keys (link_tempdata objects))
              = S (List.length objects)).
  { rewrite link_keys. cbn [List.length]. rewrite length_map, length_seq.
    reflexivity. }
  rewrite L, link_datas. reflexivity.
Qed.

Lemma link_handle_output first objects :
  dict_get (dict_set_all [] (dict_keys (link_tempdata objects))
              (map File (temp_files first (S (List.length objects)))))
           "output"
  = Some (File (Temp first "")).
Proof.
  apply (dict_set_all_nth _ _ _ 0%nat); [apply link_keys_nodup | |].
  - rewrite link_keys. reflexivity.
  - reflexivity.
Qed.

(** A dump only adds a file. *)
Lemma dumped_keeps target kind suffix data w p :
  fs_exists (disk w) p = true ->
  fs_exists (disk (dumped target kind suffix data w)) p = true.
Proof.
  unfold dumped. destruct target as [target|]; [|auto].
  cbn [report announce disk]. apply fs_exists_write_kept.
Qed.

Lemma dumped_log target kind suffix data w :
  spawned (dumped target kind suffix data w) = spawned w.
Proof. destruct target; reflexivity. Qed.

(** [link] with a linker that exits with status 0: what the handle of the
    output reads is dumped, when the switch asks for it, and returned. *)
Lemma link_outcome os self objects w c :
  brace_free (triple self) = true ->
  let first := next_temp w in
  let temps := temp_files first (S (List.length objects)) in
  let fs := write_temps (disk w) first ("" :: objects) in
  let cmdline := ld_cmdline self first (List.length objects) in
  let library := read_handle os (Temp first "") (files_after c) in
  let w1 := mkWorld (files_after c) (first + N.of_nat (S (List.length objects)))
                    (stderr w) (spawned w ++ [cmdline]) in
  let w2 := dumped (getenv os "ARTIQ_DUMP_ELF") "Shared library" ".elf"
                   library w1 in
  popen os cmdline fs = inr c ->
  returncode c = 0 ->
  Py.valid_utf8 (stdout c) = true ->
  (forall f, In f temps -> fs_exists (files_after c) f = true) ->
  dump_opens os (getenv os "ARTIQ_DUMP_ELF") ".elf" (files_after c) ->
  exists w',
    link os self objects w = (inr library, w')
    /\ spawned w' = (spawned w ++ [cmdline])%list
    /\ stderr w' = stderr w2
    /\ (forall f, In f temps -> fs_exists (disk w') f = false)
    /\ (forall p, ~ In p temps -> fs_lookup (disk w') p = fs_lookup (disk w2) p).
Proof.
  intros Ht first temps fs cmdline library w1 w2 Hrun Hcode Hutf Hkept Hopen.
  pose proof (enter_unfolded os
                (RunTool.__init__ (link_pattern self objects)
                                  (link_tempdata objects))
                w _ _ _ _ (triple self ++ "-ld")
                (["-shared"; "--eh-frame-hdr"]
                 ++ map path_name (temp_files (N.succ first) (List.length objects))
                 ++ ["-o"; path_name (Temp first "")])
                c (link_make_temps self objects w)
                (link_format self first objects Ht) Hrun) as Henter.
  rewrite Hcode, Hutf in Henter. cbn [Z.eqb negb] in Henter.
  assert (Hkept2 : forall f, In f temps -> fs_exists (disk w2) f = true).
  { intros f Hf. apply dumped_keeps. apply Hkept, Hf. }
  destruct (close_all_removes temps w2 (temp_files_nodup _ _) Hkept2)
    as (w' & Hclose & Hgone & Hsame & Herr & Hsp).
  exists w'. split; [|split; [|split; [|split]]]; try assumption.
  - unfold link, RunTool.with_. rewrite Henter.
    unfold bind at 1, read_output.
    rewrite dict_get_set_neq by discriminate.
    rewrite link_handle_output.
    cbn [disk]. fold first. fold library.
    match goal with
    | |- context [bind ?m ?k ?v] => change (bind m k v) with (bind m k w1)
    end.
    unfold bind at 1.
    rewrite (dump_value_run os _ _ _ (Bytes library) w1 Hopen).
    cbn [content_bytes]. fold w2. unfold ret.
    unfold RunTool.__exit__. cbn [RunTool.files].
    match goal with
    | |- context [RunTool.close_all ?t ?x] =>
        change (RunTool.close_all t x) with (RunTool.close_all temps w2)
    end.
    rewrite Hclose. reflexivity.
  - rewrite Hsp. unfold w2. rewrite dumped_log. reflexivity.
Qed.

(** X4: [link] stores the empty output in a first temporary file and the
    objects, in order, in the temporary files after it, and runs
    [<triple>-ld -shared --eh-frame-hdr <object files in order> -o <output
    file>].  When the linker exits with status 0 and leaves the temporary
    files in place, [link] returns what the handle of the output file, open
    since before the linker ran, then reads; with the dump switch absent it
    prints nothing; the temporary files are removed and every other file
    is as the linker left it. *)
Theorem link_run os self objects w c library :
  brace_free (triple self) = true ->
  let first := next_temp w in
  let temps := temp_files first (S (List.length objects)) in
  let fs := write_temps (disk w) first ("" :: objects) in
  let cmdline := ld_cmdline self first (List.length objects) in
  popen os cmdline fs = inr c ->
  returncode c = 0 ->
  Py.valid_utf8 (stdout c) = true ->
  (forall f, In f temps -> fs_exists (files_after c) f = true) ->
  read_handle os (Temp first "") (files_after c) = library ->
  getenv os "ARTIQ_DUMP_ELF" = None ->
  (forall i obj,
     nth_error objects i = Some obj ->
     fs_lookup fs (Temp (N.succ first + N.of_nat i) "") = Some obj)
  /\ exists w',
       link os self objects w = (inr library, w')
       /\ spawned w' = (spawned w ++ [cmdline])%list
       /\ stderr w' = stderr w
       /\ (forall f, In f temps -> fs_exists (disk w') f = false)
       /\ (forall p, ~ In p temps ->
                     fs_lookup (disk w') p = fs_lookup (files_after c) p).
Proof.
  intros Ht first temps fs cmdline Hrun Hcode Hutf Hkept Hout Hswitch.
  split.
  - intros i obj Hi. unfold fs.
    replace (N.succ first + N.of_nat i)%N with (first + N.of_nat (S i))%N by lia.
    apply write_temps_nth. exact Hi.
  - pose proof (link_outcome os self objects w c Ht Hrun Hcode Hutf Hkept) as H.
    cbv zeta in H. rewrite Hswitch in H. cbn [dump_opens dumped] in H.
    fold first in H. rewrite Hout in H.
    destruct (H I) as (w' & Hlink & Hsp & Herr & Hgone & Hsame).
    exists w'. repeat split; assumption.
Qed.

Lemma link_run_witness :
  exists w',
    link (linker "ELF") OR1KTarget ["a.o"; "b.o"] empty_world = (inr "ELF", w')
    /\ spawned w'
       = [["or1k-linux-ld"; "-shared"; "--eh-frame-hdr"; "/tmp/tmp1"; "/tmp/tmp2";
           "-o"; "/tmp/tmp0"]]
    /\ stderr w' = []
    /\ (forall f, In f [Temp 0 ""; Temp 1 ""; Temp 2 ""] ->
                  fs_exists (disk w') f = false)
    /\ (forall p, ~ In p [Temp 0 ""; Temp 1 ""; Temp 2 ""] ->
                  fs_lookup (disk w') p
                  = fs_lookup [(Temp 0 "", "ELF"); (Temp 2 "", "b.o");
                               (Temp 1 "", "a.o")] p).
Proof.
  refine (proj2 (link_run (linker "ELF") OR1KTarget ["a.o"; "b.o"] empty_world
                   (mkCompleted 0 "" ""
                      [(Temp 0 "", "ELF"); (Temp 2 "", "b.o"); (Temp 1 "", "a.o")])
                   "ELF" _ _ _ _ _ _ _)).
  - reflexivity.
  - reflexivity.
  - reflexivity.
  - reflexivity.
  - intros f [<- | [<- | [<- | []]]]; reflexivity.
  - reflexivity.
  - reflexivity.
Defined.

(** X5: when the linker exits with a status other than 0, [link] raises
    the tool's error, with the program name [<triple>-ld] and the text the
    linker printed on its standard error, and the temporary files of the
    objects and of the output stay on disk as the linker left them. *)
Theorem link_tool_failure os self objects w c :
  brace_free (triple self) = true ->
  let first := next_temp w in
  let fs := write_temps (disk w) first ("" :: objects) in
  let cmdline := ld_cmdline self first (List.length objects) in
  popen os cmdline fs = inr c ->
  returncode c <> 0 ->
  Py.valid_utf8 (stderr_out c) = true ->
  link os self objects w
  = (inl (tool_error (triple self ++ "-ld") (stderr_out c)),
     mkWorld (files_after c)
             (first + N.of_nat (S (List.length objects)))
             (stderr w) (spawned w ++ [cmdline])).
Proof.
  intros Ht first fs cmdline Hrun Hcode Hutf.
  pose proof (enter_unfolded os
                (RunTool.__init__ (link_pattern self objects)
                                  (link_tempdata objects))
                w _ _ _ _ (triple self ++ "-ld")
                (["-shared"; "--eh-frame-hdr"]
                 ++ map path_name (temp_files (N.succ first) (List.length objects))
                 ++ ["-o"; path_name (Temp first "")])
                c (link_make_temps self objects w)
                (link_format self first objects Ht) Hrun) as Henter.
  apply Z.eqb_neq in Hcode. rewrite Hcode, Hutf in Henter. cbn [negb] in Henter.
  unfold link. apply with_enter_raises. exact Henter.
Qed.

Lemma link_tool_failure_witness :
  link (mkOS (fun _ => Some "dump")
             (fun _ fs => inr (mkCompleted 1 "" "undefined reference" fs))
             (fun _ _ => inr tt) in_place)
       OR1KTarget ["a.o"] empty_world
  = (inl (Exception "or1k-linux-ld invocation failed: undefined reference"),
     mkWorld [(Temp 1 "", "a.o"); (Temp 0 "", "")] 2 []
       [["or1k-linux-ld"; "-shared"; "--eh-frame-hdr"; "/tmp/tmp1"; "-o";
         "/tmp/tmp0"]]).
Proof.
  refine (link_tool_failure
            (mkOS (fun _ => Some "dump")
                  (fun _ fs => inr (mkCompleted 1 "" "undefined reference" fs))
                  (fun _ _ => inr tt) in_place)
            OR1KTarget ["a.o"] empty_world
            (mkCompleted 1 "" "undefined reference"
               [(Temp 1 "", "a.o"); (Temp 0 "", "")]) _ _ _ _).
  - reflexivity.
  - reflexivity.
  - discriminate.
  - reflexivity.
Defined.

(** X6: [strip] stores the library in a first temporary file and the
    empty output in a second one and runs [<triple>-strip --strip-debug
    <library file> -o <output file>].  When the tool exits with status 0
    and leaves files under the names of both temporary files, [strip]
    returns what the handle of the output file, open since before the tool
    ran, then reads; it prints nothing, removes both temporary files and
    leaves every other file as the tool left it. *)
Theorem strip_run os self library w c stripped :
  brace_free (triple self) = true ->
  let first := next_temp w in
  let input := Temp first "" in
  let output := Temp (N.succ first) "" in
  let fs := fs_write (fs_write (disk w) input library) output "" in
  popen os (strip_cmdline self first) fs = inr c ->
  returncode c = 0 ->
  Py.valid_utf8 (stdout c) = true ->
  fs_exists (files_after c) input = true ->
  fs_exists (files_after c) output = true ->
  read_handle os output (files_after c) = stripped ->
  fs_lookup fs input = Some library
  /\ exists w',
       strip os self library w = (inr stripped, w')
       /\ spawned w' = (spawned w ++ [strip_cmdline self first])%list
       /\ stderr w' = stderr w
       /\ fs_exists (disk w') input = false
       /\ fs_exists (disk w') output = false
       /\ (forall p, p <> input -> p <> output ->
                     fs_lookup (disk w') p = fs_lookup (files_after c) p).
Proof.
  intros Ht first input output fs Hrun Hcode Hutf Hin Hout' Hout.
  assert (Hne : path_eqb input output = false).
  { destruct (path_eqb input output) eqn:E; [|reflexivity].
    apply path_eqb_eq in E. unfold input, output in E. inversion E. lia. }
  assert (Hne' : path_eqb output input = false).
  { destruct (path_eqb output input) eqn:E; [|reflexivity].
    apply path_eqb_eq in E. unfold input, output in E. inversion E. lia. }
  split.
  - unfold fs. rewrite fs_lookup_write, Hne', fs_lookup_write, path_eqb_refl.
    reflexivity.
  - assert (Hfmt : RunTool.format_all
                     [(triple self ++ "-strip")%string; "--strip-debug";
                      "{library}"; "-o"; "{output}"]
                     [("library", path_name input); ("output", path_name output)]
                   = inr (strip_cmdline self first)).
    { cbn [RunTool.format_all].
      rewrite (format_plain _ (triple self ++ "-strip"))
        by (apply brace_free_app; [exact Ht | reflexivity]).
      cbn -[path_name]. rewrite !append_nil_r. reflexivity. }
    pose proof (enter_unfolded os
                  (RunTool.__init__
                     [(triple self ++ "-strip")%string; "--strip-debug";
                      "{library}"; "-o"; "{output}"]
                     [("library", library); ("output", "")])
                  w
                  (RunTool.mk [input; output]
                     [(triple self ++ "-strip")%string; "--strip-debug";
                      "{library}"; "-o"; "{output}"]
                     [("library", library); ("output", "")])
                  [("library", File input); ("output", File output)]
                  [("library", path_name input); ("output", path_name output)]
                  (mkWorld fs (N.succ (N.succ first)) (stderr w) (spawned w))
                  (triple self ++ "-strip")
                  ["--strip-debug"; path_name input; "-o"; path_name output]
                  c eq_refl Hfmt Hrun) as Henter.
    rewrite Hcode, Hutf in Henter. cbn [Z.eqb negb] in Henter.
    eexists. split; [|split; [|split; [|split; [|split]]]].
    + unfold strip, RunTool.with_. rewrite Henter.
      unfold read_output. cbn [dict_set dict_get String.eqb Ascii.eqb Bool.eqb].
      cbn [disk]. rewrite Hout.
      unfold RunTool.__exit__. cbn [RunTool.files RunTool.close_all].
      unfold bind, close_temp_file, ret. cbn [disk].
      rewrite Hin. cbn [disk]. rewrite fs_exists_remove, Hout', Hne.
      reflexivity.
    + reflexivity.
    + reflexivity.
    + cbn [disk]. unfold fs_exists.
      rewrite !fs_lookup_remove, path_eqb_refl, Hne'. reflexivity.
    + cbn [disk]. unfold fs_exists.
      rewrite !fs_lookup_remove, path_eqb_refl. reflexivity.
    + intros p Hp1 Hp2. cbn [disk]. rewrite !fs_lookup_remove.
      destruct (path_eqb output p) eqn:E1;
        [apply path_eqb_eq in E1; congruence|].
      destruct (path_eqb input p) eqn:E2;
        [apply path_eqb_eq in E2; congruence|].
      reflexivity.
Qed.

Lemma strip_run_witness :
  exists w',
    strip (stripper "elf") OR1KTarget "ELF+debug" empty_world = (inr "elf", w')
    /\ spawned w'
       = [["or1k-linux-strip"; "--strip-debug"; "/tmp/tmp0"; "-o"; "/tmp/tmp1"]]
    /\ stderr w' = []
    /\ fs_exists (disk w') (Temp 0 "") = false
    /\ fs_exists (disk w') (Temp 1 "") = false
    /\ (forall p, p <> Temp 0 "" -> p <> Temp 1 "" ->
                  fs_lookup (disk w') p
                  = fs_lookup [(Temp 1 "", "elf"); (Temp 0 "", "ELF+debug")] p).
Proof.
  refine (proj2 (strip_run (stripper "elf") OR1KTarget "ELF+debug" empty_world
                   (mkCompleted 0 "" ""
                      [(Temp 1 "", "elf"); (Temp 0 "", "ELF+debug")])
                   "elf" _ _ _ _ _ _ _)).
  - reflexivity.
  - reflexivity.
  - reflexivity.
  - reflexivity.
  - reflexivity.
  - reflexivity.
  - reflexivity.
Defined.

(** ** [Target.compile], [Target.assemble] and [Target.compile_and_link] *)

Lemma extends_refl w : extends w w.
Proof.
  constructor; [reflexivity | auto | exists []; symmetry; apply app_nil_r | lia].
Qed.

Lemma extends_trans w1 w2 w3 : extends w1 w2 -> extends w2 w3 -> extends w1 w3.
Proof.
  intros [S1 D1 [m1 E1] T1] [S2 D2 [m2 E2] T2]. constructor.
  - congruence.
  - auto.
  - exists (m1 ++ m2)%list. rewrite E2, E1, app_assoc. reflexivity.
  - lia.
Qed.

Lemma quiet_ret {A} (a : A) : quiet (ret a).
Proof. intros w. apply extends_refl. Qed.

Lemma quiet_raise {A} e : quiet (@raise A e).
Proof. intros w. apply extends_refl. Qed.

Lemma quiet_lift {A} (r : exn + A) : quiet (lift r).
Proof. intros w. apply extends_refl. Qed.

Lemma quiet_bind {A B} (m : M A) (k : A -> M B) :
  quiet m -> (forall a, quiet (k a)) -> quiet (bind m k).
Proof.
  intros Hm Hk w. unfold bind. specialize (Hm w).
  destruct (m w) as [[e|a] w1]; [exact Hm|].
  apply (extends_trans _ w1); [exact Hm | apply Hk].
Qed.

Lemma quiet_print line : quiet (print_stderr line).
Proof.
  intros w. constructor; cbn; [reflexivity | auto | eexists; reflexivity | lia].
Qed.

Lemma quiet_new_temp_file suffix data : quiet (new_temp_file suffix data).
Proof.
  intros w. constructor; cbn.
  - reflexivity.
  - intros p. apply fs_exists_write_kept.
  - exists []. symmetry. apply app_nil_r.
  - lia.
Qed.

Lemma quiet_write_named_file os name data :
  quiet (write_named_file os name data).
Proof.
  intros w. unfold write_named_file.
  destruct (open_wb os name (disk w)); [apply extends_refl|].
  constructor; cbn.
  - reflexivity.
  - intros p. apply fs_exists_write_kept.
  - exists []. symmetry. apply app_nil_r.
  - lia.
Qed.

Lemma quiet_dump os target kind suffix content :
  quiet content -> quiet (_dump os target kind suffix content).
Proof.
  intros Hc. unfold _dump. destruct target as [target|]; [|apply quiet_ret].
  apply quiet_bind; [apply quiet_print|]. intros _.
  apply quiet_bind; [exact Hc|]. intros v.
  apply quiet_bind; [|intros f; apply quiet_print].
  destruct (String.eqb target "");
    [apply quiet_new_temp_file | apply quiet_write_named_file].
Qed.

Lemma quiet_except {A} (body : M A) handler :
  quiet body -> quiet handler -> quiet (except_RuntimeError body handler).
Proof.
  intros Hb Hh w. unfold except_RuntimeError. specialize (Hb w).
  destruct (body w) as [[e|a] w1]; [|exact Hb].
  destruct e; try exact Hb.
  apply (extends_trans _ w1); [exact Hb|].
  apply (quiet_bind handler (fun _ => raise (RuntimeError msg)) Hh).
  intros _. apply quiet_raise.
Qed.

Lemma quiet_dump_signature {module llmodule llparsed : Type}
    (cg : Codegen module llmodule llparsed) os m :
  quiet (dump_signature cg os m).
Proof.
  unfold dump_signature. destruct (truthy _); [|apply quiet_ret].
  apply quiet_bind; [apply quiet_print | intros _; apply quiet_print].
Qed.

Lemma quiet_compile {module llmodule llparsed : Type}
    (cg : Codegen module llmodule llparsed) os self m :
  quiet (compile cg os self m).
Proof.
  unfold compile.
  apply quiet_bind; [apply quiet_dump_signature|].
  intros _. apply quiet_bind; [apply quiet_dump, quiet_ret|].
  intros _. apply quiet_bind; [apply quiet_lift|].
  intros llmod. apply quiet_bind.
  { apply quiet_except.
    - apply quiet_bind; [apply quiet_lift|]. intros p.
      apply quiet_bind; [apply quiet_lift | intros _; apply quiet_ret].
    - apply quiet_dump, quiet_ret. }
  intros p. apply quiet_bind; [apply quiet_dump, quiet_ret|].
  intros _. apply quiet_bind; [apply quiet_lift|].
  intros q. apply quiet_bind; [apply quiet_dump, quiet_ret|].
  intros _. apply quiet_ret.
Qed.

Lemma quiet_assemble {llparsed llmachine : Type}
    (em : Emitter llparsed llmachine) os self llmod :
  quiet (assemble em os self llmod).
Proof.
  unfold assemble, target_machine.
  apply quiet_bind; [apply quiet_lift|]. intros machine.
  apply quiet_bind; [|intros _; apply quiet_lift].
  apply quiet_dump, quiet_bind; [apply quiet_lift | intros t; apply quiet_ret].
Qed.

Lemma quiet_compile_and_assemble {module llmodule llparsed llmachine : Type}
    (cg : Codegen module llmodule llparsed) (em : Emitter llparsed llmachine)
    os self modules :
  quiet (compile_and_assemble cg em os self modules).
Proof.
  induction modules as [|m modules IH]; cbn [compile_and_assemble];
    [apply quiet_ret|].
  apply quiet_bind; [apply quiet_compile|]. intros llmod.
  apply quiet_bind; [apply quiet_assemble|]. intros object.
  apply quiet_bind; [exact IH | intros objects; apply quiet_ret].
Qed.

(** X7: whatever their outcome, [compile] and [assemble] only print and
    write files: they start no process, remove no file and take back
    nothing they printed. *)
Theorem compile_assemble_quiet {module llmodule llparsed llmachine : Type}
    (cg : Codegen module llmodule llparsed) (em : Emitter llparsed llmachine)
    os self m llmod w :
  extends w (snd (compile cg os self m w))
  /\ extends w (snd (assemble em os self llmod w)).
Proof. split; [apply quiet_compile | apply quiet_assemble]. Qed.

(** X8: when compiling or assembling one of the modules raises,
    [compile_and_link] raises the same exception and the linker is not
    run: no process is started and no file is removed. *)
Theorem compile_and_link_failure {module llmodule llparsed llmachine : Type}
    (cg : Codegen module llmodule llparsed) (em : Emitter llparsed llmachine)
    os self modules w e w' :
  compile_and_assemble cg em os self modules w = (inl e, w') ->
  compile_and_link cg em os self modules w = (inl e, w')
  /\ extends w w'.
Proof.
  intros H. split.
  - unfold compile_and_link, bind. rewrite H. reflexivity.
  - pose proof (quiet_compile_and_assemble cg em os self modules w) as Q.
    rewrite H in Q. exact Q.
Qed.

(** X9: with none of its four dump switches set, and a module whose IR
    is built, parsed, verified and optimised without error, [compile]
    returns the optimised module and neither prints nor writes anything. *)
Theorem compile_no_switches {module llmodule llparsed : Type}
    (cg : Codegen module llmodule llparsed) os self m w llmod p q :
  getenv os "ARTIQ_DUMP_SIG" = None ->
  getenv os "ARTIQ_DUMP_IR" = None ->
  getenv os "ARTIQ_DUMP_UNOPT_LLVM" = None ->
  getenv os "ARTIQ_DUMP_LLVM" = None ->
  build_llvm_ir cg m self = inr llmod ->
  parse_assembly cg (llmodule_str cg llmod) = inr p ->
  verify cg p = inr tt ->
  run_passes cg self optimize_passes p = inr q ->
  compile cg os self m w = (inr q, w).
Proof.
  intros Hsig Hir Hunopt Hllvm Hbuild Hparse Hverify Hopt.
  unfold compile, dump_signature, optimize, except_RuntimeError, bind, lift.
  rewrite Hsig, Hir, Hbuild. cbn [truthy _dump ret].
  rewrite Hparse, Hverify, Hunopt. cbn [_dump ret].
  rewrite Hopt, Hllvm. reflexivity.
Qed.

(** X10: an exception of the parser or of the verifier that is no
    [RuntimeError] leaves [compile] as it is, without the dump of the
    broken IR: with the two earlier switches unset nothing is printed or
    written. *)
Theorem compile_other_exception {module llmodule llparsed : Type}
    (cg : Codegen module llmodule llparsed) os self m w llmod e :
  getenv os "ARTIQ_DUMP_SIG" = None ->
  getenv os "ARTIQ_DUMP_IR" = None ->
  build_llvm_ir cg m self = inr llmod ->
  parse_assembly cg (llmodule_str cg llmod) = inl e
  \/ (exists p, parse_assembly cg (llmodule_str cg llmod) = inr p
                /\ verify cg p = inl e) ->
  not_runtime_error e ->
  compile cg os self m w = (inl e, w).
Proof.
  intros Hsig Hir Hbuild Hfail He.
  unfold compile, dump_signature, except_RuntimeError, bind, lift.
  rewrite Hsig, Hir, Hbuild. cbn [truthy _dump ret].
  destruct Hfail as [Hparse | (p & Hparse & Hverify)].
  - rewrite Hparse. destruct e; try reflexivity. destruct (He msg eq_refl).
  - rewrite Hparse, Hverify. destruct e; try reflexivity. destruct (He msg eq_refl).
Qed.

Lemma dumped_extends target kind suffix data w :
  extends w (dumped target kind suffix data w).
Proof.
  unfold dumped. destruct target as [target|]; [|apply extends_refl].
  constructor; cbn [report announce disk stderr spawned next_temp].
  - reflexivity.
  - intros p. apply fs_exists_write_kept.
  - eexists. rewrite <- app_assoc. reflexivity.
  - unfold dump_file. destruct (String.eqb target ""); lia.
Qed.

(** The file of a dump holds the data once the dump is made. *)
Lemma dumped_file target kind suffix data w :
  fs_lookup (disk (dumped (Some target) kind suffix data w))
            (dump_file target suffix w) = Some data.
Proof.
  cbn [dumped report announce disk].
  rewrite fs_lookup_write, path_eqb_refl. reflexivity.
Qed.

Lemma dumped_stderr target kind suffix data w :
  stderr (dumped (Some target) kind suffix data w)
  = (stderr w ++ [("====== " ++ Py.upper kind ++ " DUMP ======")%string;
                  (kind ++ " dumped as "
                   ++ path_name (dump_file target suffix w))%string])%list.
Proof.
  cbn [dumped report announce stderr]. rewrite <- app_assoc. reflexivity.
Qed.

(** [compile] up to the optimisation, for a module whose IR is built,
    parsed and verified, when the dumps before the optimisation can open
    their files. *)
Lemma compile_to_passes {module llmodule llparsed : Type}
    (cg : Codegen module llmodule llparsed) os self m w llmod p :
  build_llvm_ir cg m self = inr llmod ->
  parse_assembly cg (llmodule_str cg llmod) = inr p ->
  verify cg p = inr tt ->
  let w0 := signature_shown (module_str cg m) (getenv os "ARTIQ_DUMP_SIG") w in
  let w1 := dumped (getenv os "ARTIQ_DUMP_IR") "ARTIQ IR" ".txt"
                   (Py.join (String "010" "") (artiq_ir_entities cg m)) w0 in
  let w2 := dumped (getenv os "ARTIQ_DUMP_UNOPT_LLVM") "LLVM IR (generated)"
                   "_unopt.ll" (llparsed_str cg p) w1 in
  dump_opens os (getenv os "ARTIQ_DUMP_IR") ".txt" (disk w) ->
  dump_opens os (getenv os "ARTIQ_DUMP_UNOPT_LLVM") "_unopt.ll" (disk w1) ->
  compile cg os self m w
  = match run_passes cg self optimize_passes p with
    | inl e => (inl e, w2)
    | inr q =>
        (_dump os (getenv os "ARTIQ_DUMP_LLVM") "LLVM IR (optimized)" ".ll"
               (ret (Str (llparsed_str cg q))) ;;;
         ret q) w2
    end.
Proof.
  intros Hbuild Hparse Hverify w0 w1 w2 Hir Hunopt.
  rewrite compile_from_prelude. fold w0.
  rewrite dump_value_run
    by (unfold w0; rewrite (proj1 (signature_shown_disk _ _ w)); exact Hir).
  cbn [content_bytes]. fold w1.
  unfold bind at 1, lift at 1. rewrite Hbuild.
  unfold bind at 1, except_RuntimeError.
  unfold bind at 1 2, lift at 1 2. rewrite Hparse, Hverify.
  unfold ret at 1. unfold bind at 1.
  rewrite (dump_value_run os _ _ _ (Str (llparsed_str cg p)) w1 Hunopt).
  cbn [content_bytes]. fold w2.
  unfold bind at 1, optimize, lift.
  destruct (run_passes cg self optimize_passes p); reflexivity.
Qed.

(** [compile] for a module that goes through every stage, when every dump
    that is asked for can open its file: the dumps are made in the order
    of the stages. *)
Lemma compile_run {module llmodule llparsed : Type}
    (cg : Codegen module llmodule llparsed) os self m w llmod p q :
  build_llvm_ir cg m self = inr llmod ->
  parse_assembly cg (llmodule_str cg llmod) = inr p ->
  verify cg p = inr tt ->
  run_passes cg self optimize_passes p = inr q ->
  let w0 := signature_shown (module_str cg m) (getenv os "ARTIQ_DUMP_SIG") w in
  let w1 := dumped (getenv os "ARTIQ_DUMP_IR") "ARTIQ IR" ".txt"
                   (Py.join (String "010" "") (artiq_ir_entities cg m)) w0 in
  let w2 := dumped (getenv os "ARTIQ_DUMP_UNOPT_LLVM") "LLVM IR (generated)"
                   "_unopt.ll" (llparsed_str cg p) w1 in
  let w3 := dumped (getenv os "ARTIQ_DUMP_LLVM") "LLVM IR (optimized)" ".ll"
                   (llparsed_str cg q) w2 in
  dump_opens os (getenv os "ARTIQ_DUMP_IR") ".txt" (disk w) ->
  dump_opens os (getenv os "ARTIQ_DUMP_UNOPT_LLVM") "_unopt.ll" (disk w1) ->
  dump_opens os (getenv os "ARTIQ_DUMP_LLVM") ".ll" (disk w2) ->
  compile cg os self m w = (inr q, w3).
Proof.
  intros Hbuild Hparse Hverify Hopt w0 w1 w2 w3 Hir Hunopt Hllvm.
  rewrite (compile_to_passes cg os self m w llmod p Hbuild Hparse Hverify
             Hir Hunopt).
  rewrite Hopt. fold w0 w1 w2. unfold bind.
  rewrite (dump_value_run os _ _ _ (Str (llparsed_str cg q)) w2 Hllvm).
  reflexivity.
Qed.

(** X11: when the unoptimised-IR switch is set and the dumps before the
    optimisation can open their files, and the optimisation raises,
    [compile] raises that exception after the dump: the file of the switch
    holds the text of the verified module. *)
Theorem compile_optimize_failure {module llmodule llparsed : Type}
    (cg : Codegen module llmodule llparsed) os self m w llmod p e target :
  getenv os "ARTIQ_DUMP_UNOPT_LLVM" = Some target ->
  build_llvm_ir cg m self = inr llmod ->
  parse_assembly cg (llmodule_str cg llmod) = inr p ->
  verify cg p = inr tt ->
  run_passes cg self optimize_passes p = inl e ->
  let w0 := signature_shown (module_str cg m) (getenv os "ARTIQ_DUMP_SIG") w in
  let w1 := dumped (getenv os "ARTIQ_DUMP_IR") "ARTIQ IR" ".txt"
                   (Py.join (String "010" "") (artiq_ir_entities cg m)) w0 in
  let w2 := dumped (Some target) "LLVM IR (generated)" "_unopt.ll"
                   (llparsed_str cg p) w1 in
  dump_opens os (getenv os "ARTIQ_DUMP_IR") ".txt" (disk w) ->
  dump_opens os (Some target) "_unopt.ll" (disk w1) ->
  compile cg os self m w = (inl e, w2)
  /\ fs_lookup (disk w2) (dump_file target "_unopt.ll" w1)
     = Some (llparsed_str cg p)
  /\ extends w w2.
Proof.
  intros Hswitch Hbuild Hparse Hverify Hopt w0 w1 w2 Hir Hunopt.
  pose proof (compile_to_passes cg os self m w llmod p Hbuild Hparse Hverify)
    as H.
  cbv zeta in H. rewrite Hswitch, Hopt in H.
  split; [exact (H Hir Hunopt)|]. split; [apply dumped_file|].
  apply (extends_trans _ w1); [|apply dumped_extends].
  apply (extends_trans _ w0); [|apply dumped_extends].
  unfold w0, signature_shown.
  destruct (getenv os "ARTIQ_DUMP_SIG") as [[|c s]|]; try apply extends_refl.
  constructor; cbn; [reflexivity | auto | eexists; reflexivity | lia].
Qed.

(** X12: with both LLVM switches set, every stage succeeding and every
    dump that is asked for able to open its file, [compile] returns the
    optimised module; the two dumps are announced in the order of the
    stages, and at the end the file of the second switch holds the text of
    the optimised module, also when the first dump went to a file of the
    same name. *)
Theorem compile_dump_contents {module llmodule llparsed : Type}
    (cg : Codegen module llmodule llparsed) os self m w llmod p q
    unoptimized optimized :
  getenv os "ARTIQ_DUMP_UNOPT_LLVM" = Some unoptimized ->
  getenv os "ARTIQ_DUMP_LLVM" = Some optimized ->
  build_llvm_ir cg m self = inr llmod ->
  parse_assembly cg (llmodule_str cg llmod) = inr p ->
  verify cg p = inr tt ->
  run_passes cg self optimize_passes p = inr q ->
  let w0 := signature_shown (module_str cg m) (getenv os "ARTIQ_DUMP_SIG") w in
  let w1 := dumped (getenv os "ARTIQ_DUMP_IR") "ARTIQ IR" ".txt"
                   (Py.join (String "010" "") (artiq_ir_entities cg m)) w0 in
  let w2 := dumped (Some unoptimized) "LLVM IR (generated)" "_unopt.ll"
                   (llparsed_str cg p) w1 in
  dump_opens os (getenv os "ARTIQ_DUMP_IR") ".txt" (disk w) ->
  dump_opens os (Some unoptimized) "_unopt.ll" (disk w1) ->
  dump_opens os (Some optimized) ".ll" (disk w2) ->
  exists w',
    compile cg os self m w = (inr q, w')
    /\ fs_lookup (disk w') (dump_file optimized ".ll" w2)
       = Some (llparsed_str cg q)
    /\ stderr w'
       = (stderr w1
          ++ ["====== LLVM IR (GENERATED) DUMP ======";
              ("LLVM IR (generated) dumped as "
               ++ path_name (dump_file unoptimized "_unopt.ll" w1))%string;
              "====== LLVM IR (OPTIMIZED) DUMP ======";
              ("LLVM IR (optimized) dumped as "
               ++ path_name (dump_file optimized ".ll" w2))%string])%list.
Proof.
  intros Hunopt Hllvm Hbuild Hparse Hverify Hopt w0 w1 w2 Hir Hu Ho.
  pose proof (compile_run cg os self m w llmod p q Hbuild Hparse Hverify Hopt)
    as H.
  cbv zeta in H. rewrite Hunopt, Hllvm in H.
  eexists. split; [exact (H Hir Hu Ho)|]. split; [apply dumped_file|].
  fold w0 w1 w2. rewrite dumped_stderr. unfold w2 at 1. rewrite dumped_stderr.
  rewrite <- app_assoc. reflexivity.
Qed.

Example features_text_or1k :
  features_text OR1KTarget = "+mul,+div,+ffl1,+cmov,+addc".
Proof. reflexivity. Qed.

Example features_text_base : features_text Target_base = "".
Proof. reflexivity. Qed.

(** X13: with the assembly switch absent, [assemble] gives what the
    target machine gives for the object, a value or an exception, and
    leaves the world as it was: the assembly text is not asked for. *)
Theorem assemble_no_switch {llparsed llmachine : Type}
    (em : Emitter llparsed llmachine) os self llmod w machine :
  getenv os "ARTIQ_DUMP_ASM" = None ->
  create_target_machine em (triple self) (features_text self) "pic" "default"
  = inr machine ->
  assemble em os self llmod w = (emit_object em machine llmod, w).
Proof.
  intros Hswitch Hmachine.
  unfold assemble, target_machine, bind, lift.
  rewrite Hmachine, Hswitch. cbn [_dump ret].
  destruct (emit_object em machine llmod); reflexivity.
Qed.

Lemma assemble_no_switch_witness :
  assemble sample_emitter (environment []) OR1KTarget "?kernel" empty_world
  = (inr "OBJ ?kernel", empty_world).
Proof.
  exact (assemble_no_switch sample_emitter (environment []) OR1KTarget
           "?kernel" empty_world "or1k-linux +mul,+div,+ffl1,+cmov,+addc"
           eq_refl eq_refl).
Defined.

(** X14: with the assembly switch set, when the target machine fails to
    print the module, [assemble] raises that exception once the banner of
    the dump is printed: no file is written and no object is made. *)
Theorem assemble_text_failure {llparsed llmachine : Type}
    (em : Emitter llparsed llmachine) os self llmod w machine target e :
  getenv os "ARTIQ_DUMP_ASM" = Some target ->
  create_target_machine em (triple self) (features_text self) "pic" "default"
  = inr machine ->
  emit_assembly em machine llmod = inl e ->
  assemble em os self llmod w = (inl e, announce "Assembly" w).
Proof.
  intros Hswitch Hmachine Htext.
  unfold assemble, target_machine, bind, lift.
  rewrite Hmachine, Hswitch. unfold _dump, bind, lift. rewrite Htext.
  reflexivity.
Qed.

Lemma assemble_text_failure_witness :
  assemble sample_emitter (environment [("ARTIQ_DUMP_ASM", "k")]) OR1KTarget
           "?kernel" empty_world
  = (inl (RuntimeError "cannot print"), announce "Assembly" empty_world).
Proof.
  exact (assemble_text_failure sample_emitter
           (environment [("ARTIQ_DUMP_ASM", "k")]) OR1KTarget
           "?kernel" empty_world "or1k-linux +mul,+div,+ffl1,+cmov,+addc"
           "k" (RuntimeError "cannot print") eq_refl eq_refl eq_refl).
Defined.

(** [assemble] with a target machine that prints the module when it is
    asked to, and a dump that can open its file. *)
Lemma assemble_run {llparsed llmachine : Type}
    (em : Emitter llparsed llmachine) os self llmod w machine text :
  create_target_machine em (triple self) (features_text self) "pic" "default"
  = inr machine ->
  (getenv os "ARTIQ_DUMP_ASM" <> None ->
   emit_assembly em machine llmod = inr text) ->
  dump_opens os (getenv os "ARTIQ_DUMP_ASM") ".s" (disk w) ->
  assemble em os self llmod w
  = (emit_object em machine llmod,
     dumped (getenv os "ARTIQ_DUMP_ASM") "Assembly" ".s" text w).
Proof.
  intros Hmachine Htext Hopen.
  unfold assemble, target_machine. unfold bind at 1, lift at 1.
  rewrite Hmachine. unfold bind at 1.
  destruct (getenv os "ARTIQ_DUMP_ASM") as [target|] eqn:Hswitch.
  - rewrite (Htext ltac:(discriminate)).
    change (text0 <- lift (inr text) ;; ret (Str text0)) with (ret (Str text)).
    rewrite (dump_value_run os (Some target) "Assembly" ".s" (Str text) w Hopen).
    reflexivity.
  - reflexivity.
Qed.

(** X15: with the assembly switch set, a module the target machine can
    print and a dump file that can be opened, [assemble] writes the
    assembly text to the file of the switch, starts no process and gives
    what the target machine gives for the object. *)
Theorem assemble_dump_file {llparsed llmachine : Type}
    (em : Emitter llparsed llmachine) os self llmod w machine target text :
  getenv os "ARTIQ_DUMP_ASM" = Some target ->
  create_target_machine em (triple self) (features_text self) "pic" "default"
  = inr machine ->
  emit_assembly em machine llmod = inr text ->
  dump_opens os (Some target) ".s" (disk w) ->
  exists w',
    assemble em os self llmod w = (emit_object em machine llmod, w')
    /\ fs_lookup (disk w') (dump_file target ".s" w) = Some text
    /\ extends w w'.
Proof.
  intros Hswitch Hmachine Htext Hopen.
  pose proof (assemble_run em os self llmod w machine text Hmachine) as H.
  rewrite Hswitch in H.
  eexists. split; [exact (H (fun _ => Htext) Hopen)|].
  split; [apply dumped_file | apply dumped_extends].
Qed.

Lemma assemble_dump_file_witness :
  exists w',
    assemble sample_emitter (environment [("ARTIQ_DUMP_ASM", "k")]) OR1KTarget
             "kernel" empty_world
    = (inr "OBJ kernel", w')
    /\ fs_lookup (disk w') (Named "k.s")
       = Some ("; or1k-linux +mul,+div,+ffl1,+cmov,+addc" ++ nl ++ "kernel")
    /\ extends empty_world w'.
Proof.
  exact (assemble_dump_file sample_emitter
           (environment [("ARTIQ_DUMP_ASM", "k")]) OR1KTarget
           "kernel" empty_world "or1k-linux +mul,+div,+ffl1,+cmov,+addc"
           "k" _ eq_refl eq_refl eq_refl eq_refl).
Defined.

Lemma compile_and_link_failure_witness :
  compile_and_link sample_codegen sample_emitter (linker "ELF") OR1KTarget
                   ["kernel"; "!bad"; "later"] empty_world
  = (inl (RuntimeError "broken module"),
     mkWorld [(Temp 0 ".ll", "!bad")] 1
       ["====== LLVM IR (BROKEN) DUMP ======";
        "LLVM IR (broken) dumped as /tmp/tmp0.ll"] [])
  /\ extends empty_world
       (mkWorld [(Temp 0 ".ll", "!bad")] 1
          ["====== LLVM IR (BROKEN) DUMP ======";
           "LLVM IR (broken) dumped as /tmp/tmp0.ll"] []).
Proof.
  exact (compile_and_link_failure sample_codegen sample_emitter (linker "ELF")
           OR1KTarget ["kernel"; "!bad"; "later"] empty_world
           (RuntimeError "broken module") _ eq_refl).
Defined.

Lemma compile_no_switches_witness :
  compile marking_codegen (environment [("ARTIQ_DUMP_ELF", "k")]) OR1KTarget
          "kernel" empty_world
  = (inr "optimized kernel", empty_world).
Proof.
  exact (compile_no_switches marking_codegen
           (environment [("ARTIQ_DUMP_ELF", "k")]) OR1KTarget "kernel"
           empty_world "kernel" "kernel" "optimized kernel"
           eq_refl eq_refl eq_refl eq_refl eq_refl eq_refl eq_refl eq_refl).
Defined.

Lemma compile_other_exception_witness :
  compile marking_codegen (environment [("ARTIQ_DUMP_LLVM", "k")]) OR1KTarget
          "#kernel" empty_world
  = (inl (Exception "not a module"), empty_world).
Proof.
  refine (compile_other_exception marking_codegen
            (environment [("ARTIQ_DUMP_LLVM", "k")]) OR1KTarget "#kernel"
            empty_world "#kernel" (Exception "not a module")
            eq_refl eq_refl eq_refl (or_introl eq_refl) _).
  intros msg. discriminate.
Defined.

Lemma compile_optimize_failure_witness :
  let w2 := mkWorld [(Named "k_unopt.ll", "?kernel")] 0
              ["====== LLVM IR (GENERATED) DUMP ======";
               "LLVM IR (generated) dumped as k_unopt.ll"] [] in
  compile marking_codegen
          (environment [("ARTIQ_DUMP_UNOPT_LLVM", "k");
                        ("ARTIQ_DUMP_LLVM", "k")])
          OR1KTarget "?kernel" empty_world
  = (inl (Exception "pass failed"), w2)
  /\ fs_lookup (disk w2) (Named "k_unopt.ll") = Some "?kernel"
  /\ extends empty_world w2.
Proof.
  exact (compile_optimize_failure marking_codegen
           (environment [("ARTIQ_DUMP_UNOPT_LLVM", "k");
                         ("ARTIQ_DUMP_LLVM", "k")])
           OR1KTarget "?kernel" empty_world "?kernel" "?kernel"
           (Exception "pass failed") "k"
           eq_refl eq_refl eq_refl eq_refl eq_refl I eq_refl).
Defined.

Lemma compile_dump_contents_witness :
  exists w',
    compile marking_codegen
            (environment [("ARTIQ_DUMP_UNOPT_LLVM", "k");
                          ("ARTIQ_DUMP_LLVM", "k_unopt")])
            OR1KTarget "kernel" empty_world
    = (inr "optimized kernel", w')
    /\ fs_lookup (disk w') (Named "k_unopt.ll") = Some "optimized kernel"
    /\ stderr w'
       = ["====== LLVM IR (GENERATED) DUMP ======";
          "LLVM IR (generated) dumped as k_unopt.ll";
          "====== LLVM IR (OPTIMIZED) DUMP ======";
          "LLVM IR (optimized) dumped as k_unopt.ll"].
Proof.
  exact (compile_dump_contents marking_codegen
           (environment [("ARTIQ_DUMP_UNOPT_LLVM", "k");
                         ("ARTIQ_DUMP_LLVM", "k_unopt")])
           OR1KTarget "kernel" empty_world "kernel" "kernel" "optimized kernel"
           "k" "k_unopt" eq_refl eq_refl eq_refl eq_refl eq_refl eq_refl
           I eq_refl eq_refl).
Defined.

(** ** [Target.symbolize]: inlined frames, malformed output, failures *)

Lemma last_item_app {A} (l : list A) (x : A) : last_item (l ++ [x]) = Some x.
Proof.
  induction l as [|y l IH]; [reflexivity|].
  cbn [app last_item]. destruct (l ++ [x])%list eqn:E.
  - destruct l; discriminate.
  - exact IH.
Qed.

Lemma last_item_cons {A} (x : A) (l : list A) : last_item (x :: l) <> None.
Proof.
  revert x. induction l as [|y l IH]; intros x; [discriminate|]. apply (IH y).
Qed.

Lemma finish_inlined a r bt :
  well_formed_inlined r ->
  finish_record a (ir_function r) (ir_filename r ++ ":" ++ ir_line r) bt
  = inr (bt ++ [inlined_entry a r])%list.
Proof.
  intros W. unfold finish_record.
  change (ir_filename r ++ ":" ++ ir_line r)
    with (ir_filename r ++ String ":" (ir_line r)).
  rewrite (rsplit1_app _ _ _ (wi_line_colon r W)).
  pose proof (wi_filename r W) as Hs. unfold is_sentinel in Hs. rewrite Hs.
  rewrite (wi_lineno r W). reflexivity.
Qed.

(** Inlined records after an entry with address [a]: one entry each, with
    the address [a]. *)
Lemma loop_inlined a : forall inlined rest bt previous,
  Forall well_formed_inlined inlined ->
  address previous = a ->
  symbolize_loop (flat_map inlined_lines inlined ++ rest) (bt ++ [previous])
  = symbolize_loop rest ((bt ++ [previous]) ++ map (inlined_entry a) inlined).
Proof.
  induction inlined as [|r inlined IH]; intros rest bt previous W Ha.
  - cbn [flat_map map app]. rewrite List.app_nil_r. reflexivity.
  - inversion W as [|? ? Wr Wrest]; subst.
    cbn [flat_map inlined_lines app symbolize_loop].
    pose proof (wi_function r Wr) as Hf. apply String.eqb_neq in Hf. rewrite Hf.
    rewrite last_item_app.
    rewrite (finish_inlined (address previous) r _ Wr).
    rewrite (IH rest (bt ++ [previous])%list
               (inlined_entry (address previous) r) Wrest eq_refl).
    cbn [map]. rewrite <- !List.app_assoc. reflexivity.
Qed.

Lemma loop_root a r bt rest :
  well_formed_root a r ->
  symbolize_loop (record_lines r ++ rest) bt
  = symbolize_loop rest (bt ++ [root_entry a r]).
Proof.
  intros W. cbn [record_lines app symbolize_loop].
  rewrite (wf_prefix a r W). cbn [String.eqb Ascii.eqb Bool.eqb].
  rewrite (wf_address a r W).
  replace (a - 1 + 1) with a by lia.
  rewrite (finish_root a r bt W). reflexivity.
Qed.

Lemma loop_groups addresses groups :
  Forall2 well_formed_group addresses groups ->
  forall rest bt,
    symbolize_loop (flat_map group_lines groups ++ rest) bt
    = symbolize_loop rest (bt ++ groups_entries addresses groups).
Proof.
  induction 1 as [|a [r inlined] addresses groups [Wr Wi] _ IH]; intros rest bt.
  - cbn [flat_map groups_entries app]. rewrite List.app_nil_r. reflexivity.
  - cbn [flat_map groups_entries]. unfold group_lines at 1, group_entries.
    cbn [fst snd]. rewrite <- !List.app_assoc.
    rewrite (loop_root a r bt _ Wr).
    rewrite (loop_inlined a inlined _ bt (root_entry a r) Wi eq_refl).
    rewrite IH. cbn [app]. rewrite <- !List.app_assoc. reflexivity.
Qed.

(** X16: when the resolver prints, for each address, a well-formed root
    record followed by well-formed records of the functions inlined there,
    [symbolize] returns, in the order of the output, one entry per record,
    and the entries of the inlined records carry the address of the root
    record before them. *)
Theorem symbolize_inlined_frames os self library addresses groups w cmdline out :
  addresses <> [] ->
  Py.valid_utf8 out = true ->
  resolver_run os self library addresses w cmdline out ->
  Py.split newline (Py.rstrip out) = flat_map group_lines groups ->
  Forall2 well_formed_group addresses groups ->
  symbolize os self library addresses w
  = (inr (groups_entries addresses groups), after_symbolize library w cmdline).
Proof.
  intros Hne Hutf Hrun Hlines W.
  rewrite (symbolize_run os self library addresses w cmdline out) by assumption.
  rewrite Hlines.
  rewrite <- (List.app_nil_r (flat_map group_lines groups)).
  rewrite (loop_groups _ _ W). reflexivity.
Qed.

Lemma symbolize_inlined_frames_witness :
  symbolize (fixed_tool 0 sample_group_output "") OR1KTarget "ELF"
            [0x1004; 0x2008] empty_world
  = (inr [mkEntry "util.h" 3 (-1) "inner" 0x1004;
          mkEntry "util.h" 20 (-1) "middle" 0x1004;
          mkEntry "main.c" 10 (-1) "outer" 0x1004;
          mkEntry "lib/x.c" 7 (-1) "bar" 0x2008],
     after_symbolize "ELF" empty_world
       (addr2line_cmdline OR1KTarget "/tmp/tmp0" [0x1004; 0x2008])).
Proof.
  refine (symbolize_inlined_frames (fixed_tool 0 sample_group_output "")
            OR1KTarget "ELF" [0x1004; 0x2008] sample_groups empty_world
            (addr2line_cmdline OR1KTarget "/tmp/tmp0" [0x1004; 0x2008])
            sample_group_output _ _ _ _ _).
  - discriminate.
  - reflexivity.
  - split; [reflexivity | exists ""; reflexivity].
  - reflexivity.
  - constructor; [|constructor; [|constructor]].
    + split; [constructor; reflexivity|].
      constructor; [|constructor; [|constructor]];
        (constructor; [discriminate | reflexivity | reflexivity | reflexivity]).
    + split; [constructor; reflexivity | constructor].
Defined.

(** Root records that are dropped leave the backtrace as it is. *)
Lemma loop_dropped_any records :
  Forall dropped_root records ->
  forall rest bt,
    symbolize_loop (resolver_lines records ++ rest) bt
    = symbolize_loop rest bt.
Proof.
  induction 1 as [|r records D _ IH]; intros rest bt; [reflexivity|].
  unfold resolver_lines. cbn [flat_map]. rewrite <- List.app_assoc.
  cbn [record_lines app symbolize_loop].
  rewrite (dr_prefix r D). cbn [String.eqb Ascii.eqb Bool.eqb].
  destruct (Py.int 16 (Py.drop 2 (rr_address r))) as [a|] eqn:Ea;
    [|destruct (dr_address r D Ea)].
  unfold finish_record.
  change (rr_filename r ++ ":" ++ rr_line r)
    with (rr_filename r ++ String ":" (rr_line r)).
  rewrite (rsplit1_app _ _ _ (dr_line_colon r D)).
  pose proof (dr_filename r D) as Hs. unfold is_sentinel in Hs. rewrite Hs.
  apply IH.
Qed.

(** X17: an inlined record inherits the address of the last entry
    that was kept, not of the root record it follows: after a kept root
    record for the address [a] and root records dropped for their
    sentinel file names, an inlined record yields an entry with the
    address [a]. *)
Theorem symbolize_inlined_after_dropped_root
    os self library addresses w cmdline out a r dropped inlined :
  addresses <> [] ->
  Py.valid_utf8 out = true ->
  resolver_run os self library addresses w cmdline out ->
  Py.split newline (Py.rstrip out)
  = (record_lines r ++ resolver_lines dropped ++ inlined_lines inlined)%list ->
  well_formed_root a r ->
  Forall dropped_root dropped ->
  well_formed_inlined inlined ->
  fst (symbolize os self library addresses w)
  = inr [root_entry a r; inlined_entry a inlined].
Proof.
  intros Hne Hutf Hrun Hlines Wr Wd Wi.
  rewrite (symbolize_run os self library addresses w cmdline out) by assumption.
  rewrite Hlines. cbn [fst].
  rewrite (loop_root a r [] _ Wr). cbn [app].
  rewrite (loop_dropped_any _ Wd).
  change [root_entry a r] with ([] ++ [root_entry a r])%list.
  replace (inlined_lines inlined)
    with (flat_map inlined_lines [inlined] ++ [])%list
    by (cbn [flat_map]; rewrite !List.app_nil_r; reflexivity).
  rewrite (loop_inlined a [inlined] [] [] (root_entry a r)
             ltac:(constructor; [exact Wi | constructor]) eq_refl).
  reflexivity.
Qed.

Lemma symbolize_inlined_after_dropped_root_witness :
  fst (symbolize
         (fixed_tool 0 ("0x1003" ++ nl ++ "foo" ++ nl ++ "main.c:10" ++ nl
                        ++ "0x2007" ++ nl ++ "??" ++ nl ++ "??:0" ++ nl
                        ++ "caller" ++ nl ++ "lib/x.c:7" ++ nl) "")
         OR1KTarget "ELF" [0x1004; 0x2008] empty_world)
  = inr [mkEntry "main.c" 10 (-1) "foo" 0x1004;
         mkEntry "lib/x.c" 7 (-1) "caller" 0x1004].
Proof.
  refine (symbolize_inlined_after_dropped_root
            (fixed_tool 0 ("0x1003" ++ nl ++ "foo" ++ nl ++ "main.c:10" ++ nl
                           ++ "0x2007" ++ nl ++ "??" ++ nl ++ "??:0" ++ nl
                           ++ "caller" ++ nl ++ "lib/x.c:7" ++ nl) "")
            OR1KTarget "ELF" [0x1004; 0x2008] empty_world
            (addr2line_cmdline OR1KTarget "/tmp/tmp0" [0x1004; 0x2008])
            ("0x1003" ++ nl ++ "foo" ++ nl ++ "main.c:10" ++ nl
             ++ "0x2007" ++ nl ++ "??" ++ nl ++ "??:0" ++ nl
             ++ "caller" ++ nl ++ "lib/x.c:7" ++ nl)
            0x1004 (mkRoot "0x1003" "foo" "main.c" "10" 10)
            [mkRoot "0x2007" "??" "??" "0" 0]
            (mkInlined "caller" "lib/x.c" "7" 7) _ _ _ _ _ _ _).
  - discriminate.
  - reflexivity.
  - split; [reflexivity | exists ""; reflexivity].
  - reflexivity.
  - constructor; reflexivity.
  - constructor; [|constructor]. constructor; try reflexivity. discriminate.
  - constructor; [discriminate | reflexivity | reflexivity | reflexivity].
Defined.

Lemma finish_record_column a f loc bt bt' :
  finish_record a f loc bt = inr bt' ->
  Forall (fun e => column e = -1) bt -> Forall (fun e => column e = -1) bt'.
Proof.
  unfold finish_record. intros H Hbt.
  destruct (Py.rsplit1 ":" loc) as [[name ln]|]; [|discriminate].
  destruct (String.eqb name "??" || String.eqb name "<synthesized>").
  - inversion H; subst. exact Hbt.
  - destruct (Py.int 10 ln) as [n|]; [|discriminate].
    inversion H; subst. apply Forall_app. split; [exact Hbt|].
    constructor; [reflexivity | constructor].
Qed.

Lemma loop_column (n : nat) : forall lines bt bt',
  (List.length lines <= n)%nat ->
  symbolize_loop lines bt = inr bt' ->
  Forall (fun e => column e = -1) bt -> Forall (fun e => column e = -1) bt'.
Proof.
  induction n as [|n IH]; intros lines bt bt' Hlen H Hbt.
  - destruct lines; [|simpl in Hlen; lia]. inversion H; subst. exact Hbt.
  - destruct lines as [|l rest]; [inversion H; subst; exact Hbt|].
    cbn [symbolize_loop] in H.
    destruct (String.eqb (Py.take 2 l) "0x").
    + destruct (Py.int 16 (Py.drop 2 l)) as [a|]; [|discriminate].
      destruct rest as [|f [|loc rest']]; try discriminate.
      destruct (finish_record (a + 1) f loc bt) as [e|bt1] eqn:E; [discriminate|].
      apply (IH rest' bt1 bt'); [simpl in Hlen; lia | exact H |].
      apply (finish_record_column _ _ _ _ _ E Hbt).
    + destruct (last_item bt) as [previous|]; [|discriminate].
      destruct rest as [|loc rest']; [discriminate|].
      destruct (finish_record (address previous) l loc bt) as [e|bt1] eqn:E;
        [discriminate|].
      apply (IH rest' bt1 bt'); [simpl in Hlen; lia | exact H |].
      apply (finish_record_column _ _ _ _ _ E Hbt).
Qed.

(** X18: every entry of a backtrace that [symbolize] returns has the
    column -1, whatever the resolver prints. *)
Theorem symbolize_column_unknown os self library addresses w backtrace w' :
  symbolize os self library addresses w = (inr backtrace, w') ->
  Forall (fun e => column e = -1) backtrace.
Proof.
  intros H. destruct addresses as [|a addresses].
  - inversion H; subst. constructor.
  - unfold symbolize in H.
    apply with_returns in H as (results & w1 & H).
    apply symbolize_body_returns in H as (out & H).
    apply (loop_column _ _ [] backtrace (le_n _) H). constructor.
Qed.

Lemma symbolize_column_unknown_witness :
  Forall (fun e => column e = -1)
         [mkEntry "util.h" 3 (-1) "inner" 0x1004;
          mkEntry "util.h" 20 (-1) "middle" 0x1004;
          mkEntry "main.c" 10 (-1) "outer" 0x1004;
          mkEntry "lib/x.c" 7 (-1) "bar" 0x2008].
Proof.
  refine (symbolize_column_unknown (fixed_tool 0 sample_group_output "")
            OR1KTarget "ELF" [0x1004; 0x2008] empty_world
            [mkEntry "util.h" 3 (-1) "inner" 0x1004;
             mkEntry "util.h" 20 (-1) "middle" 0x1004;
             mkEntry "main.c" 10 (-1) "outer" 0x1004;
             mkEntry "lib/x.c" 7 (-1) "bar" 0x2008]
            (after_symbolize "ELF" empty_world
               (addr2line_cmdline OR1KTarget "/tmp/tmp0" [0x1004; 0x2008])) _).
  vm_compute. reflexivity.
Defined.

(** X19: when the output of the resolver ends inside a record, after
    an address line with or without its function line, or after the
    function line of an inlined record, [symbolize] raises
    [StopIteration]: only the first read of a turn of the loop is
    guarded.  The temporary file of the library is removed all the same. *)
Theorem symbolize_truncated_record
    os self library addresses w cmdline out resolved_addresses groups tail :
  addresses <> [] ->
  Py.valid_utf8 out = true ->
  resolver_run os self library addresses w cmdline out ->
  Py.split newline (Py.rstrip out)
  = (flat_map group_lines groups ++ tail)%list ->
  Forall2 well_formed_group resolved_addresses groups ->
  (exists l, address_line l /\ (tail = [l] \/ exists f, tail = [l; f]))
  \/ (exists f, Py.take 2 f <> "0x" /\ tail = [f] /\ groups <> []) ->
  symbolize os self library addresses w
  = (inl StopIteration, after_symbolize library w cmdline).
Proof.
  intros Hne Hutf Hrun Hlines W Htail.
  rewrite (symbolize_run os self library addresses w cmdline out) by assumption.
  rewrite Hlines, (loop_groups _ _ W). f_equal.
  destruct Htail as [(l & [Hp Ha] & Ht) | (f & Hf & -> & Hg)].
  - assert (E : symbolize_loop tail ([] ++ groups_entries resolved_addresses groups)
                = match Py.int 16 (Py.drop 2 l) with
                  | None => inl (int_failure (Py.drop 2 l))
                  | Some _ => inl StopIteration
                  end).
    { destruct Ht as [-> | (f & ->)]; cbn [symbolize_loop]; rewrite Hp;
        cbn [String.eqb Ascii.eqb Bool.eqb];
        destruct (Py.int 16 (Py.drop 2 l)); reflexivity. }
    rewrite E. destruct (Py.int 16 (Py.drop 2 l)); [reflexivity | congruence].
  - cbn [symbolize_loop app]. apply String.eqb_neq in Hf. rewrite Hf.
    destruct W as [|a [r inlined] ra groups _ _]; [congruence|].
    cbn [groups_entries group_entries fst snd app].
    destruct (last_item (root_entry a r :: _)) eqn:E; [reflexivity|].
    destruct (last_item_cons _ _ E).
Qed.

Lemma symbolize_truncated_record_witness :
  symbolize (fixed_tool 0 ("0x1003" ++ nl ++ "foo" ++ nl ++ "main.c:10" ++ nl
                           ++ "0x2007" ++ nl ++ "bar" ++ nl) "")
            OR1KTarget "ELF" [0x1004; 0x2008] empty_world
  = (inl StopIteration,
     after_symbolize "ELF" empty_world
       (addr2line_cmdline OR1KTarget "/tmp/tmp0" [0x1004; 0x2008])).
Proof.
  refine (symbolize_truncated_record
            (fixed_tool 0 ("0x1003" ++ nl ++ "foo" ++ nl ++ "main.c:10" ++ nl
                           ++ "0x2007" ++ nl ++ "bar" ++ nl) "")
            OR1KTarget "ELF" [0x1004; 0x2008] empty_world
            (addr2line_cmdline OR1KTarget "/tmp/tmp0" [0x1004; 0x2008])
            ("0x1003" ++ nl ++ "foo" ++ nl ++ "main.c:10" ++ nl
             ++ "0x2007" ++ nl ++ "bar" ++ nl)
            [0x1004] [(mkRoot "0x1003" "foo" "main.c" "10" 10, [])]
            ["0x2007"; "bar"] _ _ _ _ _ _).
  - discriminate.
  - reflexivity.
  - split; [reflexivity | exists ""; reflexivity].
  - reflexivity.
  - constructor; [|constructor]. split; [constructor; reflexivity | constructor].
  - left. exists "0x2007". split.
    + split; [reflexivity | discriminate].
    + right. exists "bar". reflexivity.
Defined.

Lemma finish_record_unreadable a f location bt :
  unreadable_location location ->
  finish_record a f location bt = inl ValueError.
Proof.
  unfold finish_record. intros [H | (name & ln & -> & Hc & Hs & Ha & Hn)].
  - rewrite (rsplit1_plain _ _ H). reflexivity.
  - change (name ++ ":" ++ ln) with (name ++ String ":" ln).
    rewrite (rsplit1_app _ _ _ Hc).
    unfold is_sentinel in Hs. rewrite Hs, Hn. unfold int_failure. rewrite Ha.
    reflexivity.
Qed.

(** X20: when the location line of a root record has no colon, or
    has a file name that is no sentinel followed by ASCII text that is no
    numeral (as [main.c:?] or [main.c:10 (discriminator 1)]), [symbolize]
    raises [ValueError]; the records read before are lost.  The temporary
    file of the library is removed all the same. *)
Theorem symbolize_unreadable_location
    os self library addresses w cmdline out resolved_addresses groups
    l f location rest :
  addresses <> [] ->
  Py.valid_utf8 out = true ->
  resolver_run os self library addresses w cmdline out ->
  Py.split newline (Py.rstrip out)
  = (flat_map group_lines groups ++ l :: f :: location :: rest)%list ->
  Forall2 well_formed_group resolved_addresses groups ->
  address_line l ->
  unreadable_location location ->
  symbolize os self library addresses w
  = (inl ValueError, after_symbolize library w cmdline).
Proof.
  intros Hne Hutf Hrun Hlines W [Hp Ha] Hloc.
  rewrite (symbolize_run os self library addresses w cmdline out) by assumption.
  rewrite Hlines, (loop_groups _ _ W). f_equal.
  cbn [symbolize_loop]. rewrite Hp. cbn [String.eqb Ascii.eqb Bool.eqb].
  destruct (Py.int 16 (Py.drop 2 l)) as [x|]; [|congruence].
  rewrite (finish_record_unreadable _ _ _ _ Hloc). reflexivity.
Qed.

Lemma symbolize_unreadable_location_witness :
  symbolize (fixed_tool 0 ("0x1003" ++ nl ++ "foo" ++ nl
                           ++ "main.c:10 (discriminator 1)" ++ nl) "")
            OR1KTarget "ELF" [0x1004] empty_world
  = (inl ValueError,
     after_symbolize "ELF" empty_world
       (addr2line_cmdline OR1KTarget "/tmp/tmp0" [0x1004])).
Proof.
  refine (symbolize_unreadable_location
            (fixed_tool 0 ("0x1003" ++ nl ++ "foo" ++ nl
                           ++ "main.c:10 (discriminator 1)" ++ nl) "")
            OR1KTarget "ELF" [0x1004] empty_world
            (addr2line_cmdline OR1KTarget "/tmp/tmp0" [0x1004])
            ("0x1003" ++ nl ++ "foo" ++ nl
             ++ "main.c:10 (discriminator 1)" ++ nl)
            [] [] "0x1003" "foo" "main.c:10 (discriminator 1)" []
            _ _ _ _ _ _ _).
  - discriminate.
  - reflexivity.
  - split; [reflexivity | exists ""; reflexivity].
  - reflexivity.
  - constructor.
  - split; [reflexivity | discriminate].
  - right. exists "main.c", "10 (discriminator 1)". repeat split; reflexivity.
Defined.

Example symbolize_unknown_line :
  fst (symbolize (fixed_tool 0 ("0x1003" ++ nl ++ "foo" ++ nl ++ "main.c:?" ++ nl) "")
                 OR1KTarget "ELF" [0x1004] empty_world)
  = inl ValueError.
Proof. reflexivity. Qed.

Lemma symbolize_enter os self library addresses w c :
  brace_free (triple self) = true ->
  addresses <> [] ->
  popen os (addr2line_cmdline self (path_name (Temp (next_temp w) "")) addresses)
        (disk (before_resolver library w)) = inr c ->
  RunTool.__enter__ os
    (RunTool.__init__ (symbolize_pattern self addresses) [("library", library)]) w
  = (if negb (returncode c =? 0)
     then if Py.valid_utf8 (stderr_out c)
          then inl (tool_error (triple self ++ "-addr2line") (stderr_out c))
          else inl UnicodeDecodeError
     else if Py.valid_utf8 (stdout c)
          then inr (RunTool.mk [Temp (next_temp w) ""]
                               (symbolize_pattern self addresses)
                               [("library", library)],
                    dict_set [("library", File (Temp (next_temp w) ""))]
                             "__stdout__" (Text (stdout c)))
          else inl UnicodeDecodeError,
     after_tool (before_resolver library w)
       (addr2line_cmdline self (path_name (Temp (next_temp w) "")) addresses) c).
Proof.
  intros Ht Hne Hrun.
  apply (enter_unfolded os _ w _ _ [("library", path_name (Temp (next_temp w) ""))]
           (before_resolver library w) (triple self ++ "-addr2line")
           (["--addresses"; "--functions"; "--inlines"; "--demangle";
             ("--exe=" ++ path_name (Temp (next_temp w) ""))%string]
            ++ offset_addresses addresses) c).
  - reflexivity.
  - apply (format_symbolize_pattern self _ addresses Ht).
  - exact Hrun.
Qed.

(** X21: when the resolver exits with a status other than 0,
    [symbolize] raises the tool's error, with the program name
    [<triple>-addr2line] and the text of its standard error, and the
    temporary file of the library stays on disk as the resolver left
    it. *)
Theorem symbolize_tool_failure os self library addresses w c :
  brace_free (triple self) = true ->
  addresses <> [] ->
  let exe := Temp (next_temp w) "" in
  let cmdline := addr2line_cmdline self (path_name exe) addresses in
  popen os cmdline (disk (before_resolver library w)) = inr c ->
  returncode c <> 0 ->
  Py.valid_utf8 (stderr_out c) = true ->
  symbolize os self library addresses w
  = (inl (tool_error (triple self ++ "-addr2line") (stderr_out c)),
     after_tool (before_resolver library w) cmdline c).
Proof.
  intros Ht Hne exe cmdline Hrun Hcode Hutf.
  pose proof (symbolize_enter os self library addresses w c Ht Hne Hrun) as E.
  apply Z.eqb_neq in Hcode. rewrite Hcode, Hutf in E. cbn [negb] in E.
  destruct addresses as [|a rest]; [congruence|].
  unfold symbolize. apply with_enter_raises. exact E.
Qed.

Lemma symbolize_tool_failure_witness :
  symbolize (fixed_tool 1 "" "addr2line: not an object file") OR1KTarget "ELF"
            [0x1004] empty_world
  = (inl (Exception
            "or1k-linux-addr2line invocation failed: addr2line: not an object file"),
     mkWorld [(Temp 0 "", "ELF")] 1 []
       [["or1k-linux-addr2line"; "--addresses"; "--functions"; "--inlines";
         "--demangle"; "--exe=/tmp/tmp0"; "0x1003"]]).
Proof.
  refine (symbolize_tool_failure
            (fixed_tool 1 "" "addr2line: not an object file") OR1KTarget "ELF"
            [0x1004] empty_world
            (mkCompleted 1 "" "addr2line: not an object file"
                         [(Temp 0 "", "ELF")]) _ _ _ _ _).
  - reflexivity.
  - discriminate.
  - reflexivity.
  - discriminate.
  - reflexivity.
Defined.

(** X22: when the resolver exits with status 0 and leaves the files
    alone, [symbolize] leaves the disk as it found it, whether it returns
    a backtrace or fails on the output; it has started one process, the
    resolver, and printed nothing. *)
Theorem symbolize_leaves_disk os self library addresses w cmdline out :
  addresses <> [] ->
  Py.valid_utf8 out = true ->
  resolver_run os self library addresses w cmdline out ->
  temps_unused w ->
  let w' := snd (symbolize os self library addresses w) in
  (forall p, fs_lookup (disk w') p = fs_lookup (disk w) p)
  /\ spawned w' = (spawned w ++ [cmdline])%list
  /\ stderr w' = stderr w.
Proof.
  intros Hne Hutf Hrun Hunused w'. subst w'.
  rewrite (symbolize_run os self library addresses w cmdline out) by assumption.
  cbn [snd after_symbolize disk spawned stderr].
  split; [|split; reflexivity].
  intros p. rewrite fs_lookup_remove.
  destruct (path_eqb (Temp (next_temp w) "") p) eqn:E.
  - apply path_eqb_eq in E. subst p. symmetry. apply Hunused. lia.
  - rewrite fs_lookup_write, E. reflexivity.
Qed.

Lemma symbolize_leaves_disk_witness :
  let w := mkWorld [(Named "kernel.elf", "ELF")] 0 [] [] in
  let w' := snd (symbolize (fixed_tool 0 ("0x1003" ++ nl ++ "foo" ++ nl
                                         ++ "main.c:?" ++ nl) "")
                           OR1KTarget "ELF" [0x1004] w) in
  (forall p, fs_lookup (disk w') p = fs_lookup (disk w) p)
  /\ spawned w' = [addr2line_cmdline OR1KTarget "/tmp/tmp0" [0x1004]]
  /\ stderr w' = [].
Proof.
  intros w.
  refine (symbolize_leaves_disk
            (fixed_tool 0 ("0x1003" ++ nl ++ "foo" ++ nl ++ "main.c:?" ++ nl) "")
            OR1KTarget "ELF" [0x1004] w
            (addr2line_cmdline OR1KTarget "/tmp/tmp0" [0x1004])
            ("0x1003" ++ nl ++ "foo" ++ nl ++ "main.c:?" ++ nl) _ _ _ _).
  - discriminate.
  - reflexivity.
  - split; [reflexivity | exists ""; reflexivity].
  - intros id suffix _. reflexivity.
Defined.

(** ** [Target.demangle]: the run and names with braces *)

(** Literal text in front of a template goes through as it is. *)
Lemma scan_plain_app names front rest :
  brace_free front = true ->
  PyFormat.scan names (front ++ rest) None
  = match PyFormat.scan names rest None with
    | inl e => inl e
    | inr s => inr (front ++ s)
    end.
Proof.
  induction front as [|c front IH]; intros H.
  - cbn [append]. destruct (PyFormat.scan names rest None); reflexivity.
  - apply brace_free_cons in H as (H1 & H2 & H3).
    cbn [append PyFormat.scan]. rewrite H1, H2, (IH H3).
    destruct (PyFormat.scan names rest None); reflexivity.
Qed.

(** A name with a replacement field of which nothing is known. *)
Lemma format_unknown_field front key back :
  brace_free front = true ->
  field_name key = true ->
  Py.isascii key = true ->
  PyFormat.all_digits key = false ->
  PyFormat.format (front ++ "{" ++ key ++ "}" ++ back) [] = inl (KeyError key).
Proof.
  intros Hfront Hname Hascii Hdigits. unfold PyFormat.format.
  rewrite (scan_plain_app _ _ _ Hfront).
  assert (E : PyFormat.scan [] ("{" ++ key ++ "}" ++ back) None
              = PyFormat.scan [] (key ++ String "}" back) (Some "")).
  { destruct key as [|c key]; [discriminate|].
    cbn [field_name] in Hname. apply andb_prop in Hname as [Hc _].
    apply field_char_not_brace in Hc.
    change ("{" ++ String c key ++ "}" ++ back)
      with (String "{" (String c (key ++ String "}" back))).
    cbn [PyFormat.scan]. cbn [Ascii.eqb Bool.eqb].
    destruct c as [[] [] [] [] [] [] [] []]; try reflexivity; discriminate. }
  rewrite E, (scan_field [] key "" back Hname).
  unfold PyFormat.prepend_field. cbn [append].
  rewrite (field_value_missing [] key Hascii Hdigits eq_refl). reflexivity.
Qed.

Lemma format_all_fails names front s rest e :
  Forall (fun s => brace_free s = true) front ->
  PyFormat.format s names = inl e ->
  RunTool.format_all (front ++ s :: rest) names = inl e.
Proof.
  intros Hfront Hs. rewrite (format_all_plain_app _ _ _ Hfront).
  cbn [RunTool.format_all]. rewrite Hs. reflexivity.
Qed.

(** X23: with names without braces, [demangle] runs [<triple>-c++filt
    <names>] and makes no temporary file; when the demangler exits with
    status 0 and prints lines, the last of which ends with a graphic
    character, [demangle] returns these lines, in order, and the world is
    the one the demangler left, with its command line logged. *)
Theorem demangle_run os self names w earlier final c :
  brace_free (triple self) = true ->
  Forall (fun s => brace_free s = true) names ->
  popen os (cxxfilt_cmdline self names) (disk w) = inr c ->
  returncode c = 0 ->
  stdout c = Py.join nl (earlier ++ [final]) ++ nl ->
  Py.valid_utf8 (stdout c) = true ->
  Forall (fun p => contains newline p = false) (earlier ++ [final]) ->
  ends_graphic final = true ->
  demangle os self names w
  = (inr (earlier ++ [final])%list, after_tool w (cxxfilt_cmdline self names) c).
Proof.
  intros Ht Hnames Hrun Hcode Hout Hutf Hplain Hend.
  unfold demangle, RunTool.with_.
  rewrite (enter_unfolded os (RunTool.__init__ _ []) w
             (RunTool.__init__ ([triple self ++ "-c++filt"] ++ names) []) [] [] w
             (triple self ++ "-c++filt") names c eq_refl).
  - rewrite Hcode, Hutf. cbn [Z.eqb negb].
    unfold bind, lift, ret, stdout_text. cbn [dict_set dict_get String.eqb Ascii.eqb Bool.eqb].
    unfold RunTool.__exit__. cbn [RunTool.files RunTool.__init__ RunTool.close_all ret].
    rewrite Hout.
    rewrite rstrip_newline, (rstrip_graphic _ (ends_graphic_join nl _ _ Hend)).
    rewrite split_join; [reflexivity | destruct earlier; discriminate | exact Hplain].
  - cbn [RunTool.pattern RunTool.__init__ app].
    apply format_all_plain. constructor; [|exact Hnames].
    apply brace_free_app; [exact Ht | reflexivity].
  - exact Hrun.
Qed.

Lemma demangle_run_witness :
  demangle echo_tool OR1KTarget ["_Z3foov"; "_ZN3barC1Ev"] empty_world
  = (inr ["_Z3foov"; "_ZN3barC1Ev"],
     mkWorld [] 0 [] [["or1k-linux-c++filt"; "_Z3foov"; "_ZN3barC1Ev"]]).
Proof.
  refine (demangle_run echo_tool OR1KTarget ["_Z3foov"; "_ZN3barC1Ev"]
            empty_world ["_Z3foov"] "_ZN3barC1Ev"
            (mkCompleted 0 ("_Z3foov" ++ nl ++ "_ZN3barC1Ev" ++ nl) "" [])
            _ _ _ _ _ _ _ _).
  - reflexivity.
  - repeat constructor.
  - reflexivity.
  - reflexivity.
  - reflexivity.
  - reflexivity.
  - repeat constructor.
  - reflexivity.
Defined.

(** X24: a name that holds a replacement field, ASCII text between
    braces that has none of the characters [{ } ! : . [ ]] and is no
    number, after text without braces, is not passed on: filling in the
    command line raises [KeyError] with the text between the braces, and
    [demangle] leaves the world as it was, no process started. *)
Theorem demangle_name_with_field os self earlier front key back later w :
  brace_free (triple self) = true ->
  Forall (fun s => brace_free s = true) earlier ->
  brace_free front = true ->
  field_name key = true ->
  Py.isascii key = true ->
  PyFormat.all_digits key = false ->
  demangle os self (earlier ++ (front ++ "{" ++ key ++ "}" ++ back)%string :: later) w
  = (inl (KeyError key), w).
Proof.
  intros Ht Hearlier Hfront Hname Hascii Hdigits.
  unfold demangle. apply with_enter_raises.
  unfold RunTool.__enter__, RunTool.__init__.
  cbn [RunTool.tempdata dict_keys map RunTool.make_temps].
  unfold bind at 1, ret at 1. cbn [RunTool.pattern].
  unfold bind at 1, lift at 1.
  change ([(triple self ++ "-c++filt")%string]
          ++ earlier ++ (front ++ "{" ++ key ++ "}" ++ back)%string :: later)%list
    with (((triple self ++ "-c++filt")%string :: earlier)
          ++ (front ++ "{" ++ key ++ "}" ++ back)%string :: later)%list.
  rewrite (format_all_fails [] _ _ later (KeyError key)).
  - reflexivity.
  - constructor; [|exact Hearlier].
    apply brace_free_app; [exact Ht | reflexivity].
  - apply format_unknown_field; assumption.
Qed.

Lemma demangle_name_with_field_witness :
  demangle echo_tool OR1KTarget
           ["_Z3foov"; "main::{lambda()#1}::operator()"] empty_world
  = (inl (KeyError "lambda()#1"), empty_world).
Proof.
  refine (demangle_name_with_field echo_tool OR1KTarget ["_Z3foov"]
            "main::" "lambda()#1" "::operator()" [] empty_world _ _ _ _ _ _).
  - reflexivity.
  - repeat constructor.
  - reflexivity.
  - reflexivity.
  - reflexivity.
  - reflexivity.
Defined.

(** ** The dump switches *)

(** C9 (amended): the five switches handed to [_dump] behave as the claim
    says, each in its stage and with the kind and the suffix of the stage,
    provided the file a non-empty value names can be opened for writing.

    For [_dump] itself: with an absent value nothing happens and the
    content producer is not run (the outcome is the same for every
    producer); with a value that is set, the banner is printed, the
    content is produced and goes to a new temporary file named with the
    suffix (empty value; no file on disk carries that name) or to the file
    named by the value followed by the suffix (non-empty value), and the
    file is reported; when that file cannot be opened, the exception of
    [open] is raised instead, once the banner is printed and the content
    produced.

    For the stages: [compile], on a module that goes through every stage,
    shows the signature when [ARTIQ_DUMP_SIG] is set and not empty, which
    writes no file, then dumps the ARTIQ IR as [ARTIQ_DUMP_IR] says with
    the suffix [.txt], the parsed module before the optimisation as
    [ARTIQ_DUMP_UNOPT_LLVM] says with [_unopt.ll] and the optimised module
    as [ARTIQ_DUMP_LLVM] says with [.ll], in this order, and returns the
    optimised module.  [assemble] dumps the assembly text as
    [ARTIQ_DUMP_ASM] says with [.s] and asks for that text only when the
    switch is set.  [link], once the linker has exited with status 0,
    dumps what it returns as [ARTIQ_DUMP_ELF] says with [.elf], before the
    temporary files are removed. *)
Theorem dump_switches :
  (forall os kind suffix content w,
     _dump os None kind suffix content w = (inr tt, w))
  /\ (forall os target kind suffix content w v w1,
        content (announce kind w) = (inr v, w1) ->
        dump_opens os (Some target) suffix (disk w1) ->
        _dump os (Some target) kind suffix content w
        = (inr tt, report kind (dump_file target suffix w1) (content_bytes v) w1)
        /\ (target = "" -> temps_unused w1 ->
            fs_lookup (disk w1) (dump_file target suffix w1) = None))
  /\ (forall os target kind suffix content w v w1 e,
        target <> "" ->
        content (announce kind w) = (inr v, w1) ->
        open_wb os (target ++ suffix) (disk w1) = inl e ->
        _dump os (Some target) kind suffix content w = (inl e, w1))
  /\ (forall (module llmodule llparsed : Type)
             (cg : Codegen module llmodule llparsed) os self m w llmod p q,
        build_llvm_ir cg m self = inr llmod ->
        parse_assembly cg (llmodule_str cg llmod) = inr p ->
        verify cg p = inr tt ->
        run_passes cg self optimize_passes p = inr q ->
        let w0 := signature_shown (module_str cg m)
                                  (getenv os "ARTIQ_DUMP_SIG") w in
        let w1 := dumped (getenv os "ARTIQ_DUMP_IR") "ARTIQ IR" ".txt"
                         (Py.join (String "010" "") (artiq_ir_entities cg m))
                         w0 in
        let w2 := dumped (getenv os "ARTIQ_DUMP_UNOPT_LLVM")
                         "LLVM IR (generated)" "_unopt.ll"
                         (llparsed_str cg p) w1 in
        let w3 := dumped (getenv os "ARTIQ_DUMP_LLVM")
                         "LLVM IR (optimized)" ".ll"
                         (llparsed_str cg q) w2 in
        dump_opens os (getenv os "ARTIQ_DUMP_IR") ".txt" (disk w) ->
        dump_opens os (getenv os "ARTIQ_DUMP_UNOPT_LLVM") "_unopt.ll" (disk w1) ->
        dump_opens os (getenv os "ARTIQ_DUMP_LLVM") ".ll" (disk w2) ->
        disk w0 = disk w
        /\ compile cg os self m w = (inr q, w3))
  /\ (forall (llparsed llmachine : Type) (em : Emitter llparsed llmachine)
             os self llmod w machine text,
        create_target_machine em (triple self) (features_text self)
                              "pic" "default" = inr machine ->
        (getenv os "ARTIQ_DUMP_ASM" <> None ->
         emit_assembly em machine llmod = inr text) ->
        dump_opens os (getenv os "ARTIQ_DUMP_ASM") ".s" (disk w) ->
        assemble em os self llmod w
        = (emit_object em machine llmod,
           dumped (getenv os "ARTIQ_DUMP_ASM") "Assembly" ".s" text w))
  /\ (forall os self objects w c,
        brace_free (triple self) = true ->
        let first := next_temp w in
        let temps := temp_files first (S (List.length objects)) in
        let fs := write_temps (disk w) first ("" :: objects) in
        let cmdline := ld_cmdline self first (List.length objects) in
        let library := read_handle os (Temp first "") (files_after c) in
        let w1 := mkWorld (files_after c)
                          (first + N.of_nat (S (List.length objects)))
                          (stderr w) (spawned w ++ [cmdline]) in
        let w2 := dumped (getenv os "ARTIQ_DUMP_ELF") "Shared library" ".elf"
                         library w1 in
        popen os cmdline fs = inr c ->
        returncode c = 0 ->
        Py.valid_utf8 (stdout c) = true ->
        (forall f, In f temps -> fs_exists (files_after c) f = true) ->
        dump_opens os (getenv os "ARTIQ_DUMP_ELF") ".elf" (files_after c) ->
        exists w',
          link os self objects w = (inr library, w')
          /\ stderr w' = stderr w2
          /\ (forall p, ~ In p temps ->
                        fs_lookup (disk w') p = fs_lookup (disk w2) p)).
Proof.
  split; [reflexivity|]. split; [|split; [|split; [|split]]].
  - intros os target kind suffix content w v w1 Hc Hopen. split.
    + unfold _dump, bind, print_stderr. unfold announce in Hc. rewrite Hc.
      unfold dump_opens in Hopen. unfold dump_file.
      destruct (String.eqb target ""); [reflexivity|].
      unfold write_named_file. rewrite Hopen. reflexivity.
    + intros -> Hw. apply Hw. cbn. lia.
  - intros os target kind suffix content w v w1 e Ht Hc Hopen.
    unfold _dump, bind, print_stderr. unfold announce in Hc. rewrite Hc.
    apply String.eqb_neq in Ht. rewrite Ht.
    unfold write_named_file. rewrite Hopen. reflexivity.
  - intros module llmodule llparsed cg os self m w llmod p q
           Hbuild Hparse Hverify Hopt w0 w1 w2 w3 Hir Hunopt Hllvm.
    split; [apply signature_shown_disk|].
    exact (compile_run cg os self m w llmod p q Hbuild Hparse Hverify Hopt
             Hir Hunopt Hllvm).
  - intros llparsed llmachine em os self llmod w machine text.
    apply assemble_run.
  - intros os self objects w c Ht first temps fs cmdline library w1 w2
           Hrun Hcode Hutf Hkept Hopen.
    destruct (link_outcome os self objects w c Ht Hrun Hcode Hutf Hkept Hopen)
      as (w' & Hlink & _ & Herr & _ & Hsame).
    exists w'. repeat split; assumption.
Qed.

Lemma dump_switches_witness :
  (_dump (environment []) (Some "") "Assembly" ".s" (ret (Str "nop")) empty_world
   = (inr tt, mkWorld [(Temp 0 ".s", "nop")] 1
                ["====== ASSEMBLY DUMP ======"; "Assembly dumped as /tmp/tmp0.s"]
                [])
   /\ fs_lookup (disk (announce "Assembly" empty_world)) (Temp 0 ".s") = None)
  /\ _dump (closed_environment []) (Some "no_such_dir/kernel") "Shared library"
           ".elf" (ret (Bytes "ELF")) empty_world
     = (inl (FileNotFoundError "no_such_dir/kernel.elf"),
        mkWorld [] 0 ["====== SHARED LIBRARY DUMP ======"] [])
  /\ compile sample_codegen
       (environment [("ARTIQ_DUMP_SIG", "1"); ("ARTIQ_DUMP_IR", "");
                     ("ARTIQ_DUMP_UNOPT_LLVM", "k"); ("ARTIQ_DUMP_LLVM", "k")])
       OR1KTarget "kernel" empty_world
     = (inr "kernel",
        mkWorld [(Named "k.ll", "kernel"); (Named "k_unopt.ll", "kernel");
                 (Temp 0 ".txt", "kernel")] 1
          ["====== MODULE_SIGNATURE DUMP ======"; "<module kernel>";
           "====== ARTIQ IR DUMP ======"; "ARTIQ IR dumped as /tmp/tmp0.txt";
           "====== LLVM IR (GENERATED) DUMP ======";
           "LLVM IR (generated) dumped as k_unopt.ll";
           "====== LLVM IR (OPTIMIZED) DUMP ======";
           "LLVM IR (optimized) dumped as k.ll"] [])
  /\ assemble sample_emitter (environment [("ARTIQ_DUMP_ASM", "k")]) OR1KTarget
              "kernel" empty_world
     = (inr "OBJ kernel",
        mkWorld [(Named "k.s",
                  "; or1k-linux +mul,+div,+ffl1,+cmov,+addc" ++ nl ++ "kernel")]
          0 ["====== ASSEMBLY DUMP ======"; "Assembly dumped as k.s"] [])
  /\ exists w',
       link (linker_in [("ARTIQ_DUMP_ELF", "k")] "ELF") OR1KTarget ["a.o"]
            empty_world
       = (inr "ELF", w')
       /\ stderr w'
          = ["====== SHARED LIBRARY DUMP ======"; "Shared library dumped as k.elf"]
       /\ (forall p, ~ In p [Temp 0 ""; Temp 1 ""] ->
                     fs_lookup (disk w') p
                     = fs_lookup [(Named "k.elf", "ELF"); (Temp 0 "", "ELF");
                                  (Temp 1 "", "a.o")] p).
Proof.
  split; [|split; [|split; [|split]]].
  - destruct (proj1 (proj2 dump_switches) (environment []) "" "Assembly" ".s"
                (ret (Str "nop")) empty_world (Str "nop")
                (announce "Assembly" empty_world) eq_refl I) as [Hdump Hfresh].
    split; [exact Hdump|].
    apply Hfresh; [reflexivity|]. intros id suffix _. reflexivity.
  - refine (proj1 (proj2 (proj2 dump_switches)) (closed_environment [])
              "no_such_dir/kernel" "Shared library" ".elf" (ret (Bytes "ELF"))
              empty_world (Bytes "ELF") (announce "Shared library" empty_world)
              (FileNotFoundError "no_such_dir/kernel.elf") _ _ _).
    + discriminate.
    + reflexivity.
    + reflexivity.
  - refine (proj2 (proj1 (proj2 (proj2 (proj2 dump_switches))) _ _ _
              sample_codegen
              (environment [("ARTIQ_DUMP_SIG", "1"); ("ARTIQ_DUMP_IR", "");
                            ("ARTIQ_DUMP_UNOPT_LLVM", "k");
                            ("ARTIQ_DUMP_LLVM", "k")])
              OR1KTarget "kernel" empty_world "kernel" "kernel" "kernel"
              _ _ _ _ _ _ _)); try reflexivity; try exact I.
  - refine (proj1 (proj2 (proj2 (proj2 (proj2 dump_switches)))) _ _
              sample_emitter (environment [("ARTIQ_DUMP_ASM", "k")]) OR1KTarget
              "kernel" empty_world "or1k-linux +mul,+div,+ffl1,+cmov,+addc"
              ("; or1k-linux +mul,+div,+ffl1,+cmov,+addc" ++ nl ++ "kernel")
              _ _ _).
    + reflexivity.
    + intros _. reflexivity.
    + reflexivity.
  - refine (proj2 (proj2 (proj2 (proj2 (proj2 dump_switches))))
              (linker_in [("ARTIQ_DUMP_ELF", "k")] "ELF") OR1KTarget ["a.o"]
              empty_world
              (mkCompleted 0 "" "" [(Temp 0 "", "ELF"); (Temp 1 "", "a.o")])
              _ _ _ _ _ _).
    + reflexivity.
    + reflexivity.
    + reflexivity.
    + reflexivity.
    + intros f [<- | [<- | []]]; reflexivity.
    + reflexivity.
Defined.

(** C9 as stated fails for the module-signature switch: with the empty
    value nothing is dumped, and with a non-empty value the signature is
    printed and no file is written. *)
Lemma signature_switch_writes_no_file :
  compile sample_codegen (environment [("ARTIQ_DUMP_SIG", "")]) OR1KTarget
          "kernel" empty_world
  = (inr "kernel", empty_world)
  /\ compile sample_codegen (environment [("ARTIQ_DUMP_SIG", "sig")]) OR1KTarget
             "kernel" empty_world
     = (inr "kernel",
        mkWorld [] 0 ["====== MODULE_SIGNATURE DUMP ======"; "<module kernel>"]
                []).
Proof. split; reflexivity. Qed.
